(** * DeepRegulatoryNet: the orchestrator and the drug-gene stage

    A shallow embedding of [DeepRegulatoryNet.py] (input validation and
    [run_analysis]) and of [src/drug_gene_script.py] (gene loading, the
    DGIdb query, the flattening of the response and the data behind the
    stacked bar chart), with the properties the specification states
    about them. *)

From Stdlib Require Import String Ascii ZArith List Permutation Sorted Lia.
From stdpp Require Import base option list gmap strings pretty.

Set Warnings "-register-all".

Local Open Scope string_scope.
Local Open Scope Z_scope.
Local Open Scope nat_scope.
Local Open Scope list_scope.

(* ===================================================================== *)
(** * Python text primitives *)
(* ===================================================================== *)

Module PyStr.

(** [str.isspace] on one character, for the code points below 256:
    TAB..CR, FS..US, SPACE, NEL and NBSP. *)
Definition isspace (a : ascii) : bool :=
  let n := nat_of_ascii a in
  ((9 <=? n) && (n <=? 13)) || ((28 <=? n) && (n <=? 32))
  || (n =? 133) || (n =? 160).

Fixpoint lstrip (s : string) : string :=
  match s with
  | EmptyString => EmptyString
  | String a r => if isspace a then lstrip r else s
  end.

Fixpoint rstrip (s : string) : string :=
  match s with
  | EmptyString => EmptyString
  | String a r =>
      match rstrip r with
      | EmptyString => if isspace a then EmptyString else String a EmptyString
      | r' => String a r'
      end
  end.

(** [s.strip()] *)
Definition strip (s : string) : string := rstrip (lstrip s).

(** The truth value of a [str]: the empty string is false. *)
Definition truthy (s : string) : bool :=
  match s with EmptyString => false | _ => true end.

(** [s.startswith(p)] *)
Definition startswith (s p : string) : bool := String.prefix p s.

Definition LF : ascii := "010"%char.
Definition CR : ascii := "013"%char.

(** Text-mode reading translates CR LF and a lone CR into LF. *)
Fixpoint universal_newlines (s : string) : string :=
  match s with
  | EmptyString => EmptyString
  | String a r =>
      if Ascii.eqb a CR then
        match r with
        | String b r' =>
            if Ascii.eqb b LF then String LF (universal_newlines r')
            else String LF (universal_newlines r)
        | EmptyString => String LF EmptyString
        end
      else String a (universal_newlines r)
  end.

(** Iterating over a text file: the lines, each with its terminator;
    a text that ends in LF has no empty last line. *)
Fixpoint iter_lines (s : string) : list string :=
  match s with
  | EmptyString => []
  | String a r =>
      if Ascii.eqb a LF then String a EmptyString :: iter_lines r
      else match iter_lines r with
           | [] => [String a EmptyString]
           | l :: ls => String a l :: ls
           end
  end.

(** [sep.join(parts)] *)
Fixpoint join (sep : string) (parts : list string) : string :=
  match parts with
  | [] => EmptyString
  | [p] => p
  | p :: ps => p +:+ sep +:+ join sep ps
  end.

End PyStr.

(* ===================================================================== *)
(** * Exceptions, the world and the effect monad *)
(* ===================================================================== *)

(** What a Python call can raise: an instance of a subclass of
    [Exception] (class name and [str(e)]), or [SystemExit], which
    [except Exception] does not catch. *)
Inductive exn : Type :=
  | Exception (cls msg : string)
  | SystemExit (code : Z).

Inductive result (A : Type) : Type :=
  | Ok (a : A)
  | Raise (e : exn).
Arguments Ok {A} a.
Arguments Raise {A} e.

(** How a library or collaborator call ends: it returns, or it raises an
    instance of [Exception].  A call that raises [SystemExit] or
    [KeyboardInterrupt], which no [except Exception] of the two scripts
    catches, is not followed. *)
Inductive outcome (A : Type) : Type :=
  | Returns (a : A)
  | Throws (cls msg : string).
Arguments Returns {A} a.
Arguments Throws {A} cls msg.

(** A file system entry: a file that decodes as UTF-8 to [text], a file
    that does not decode, or a directory. *)
Inductive node : Type :=
  | File (text : string)
  | Undecodable
  | Dir.

Inductive level : Type := DEBUG | INFO | WARNING | ERROR.

(** The collaborators of [run_analysis] and the library calls of the
    drug-gene stage that act on the outside world. *)
Inductive extfn : Type :=
  | SecondPipeline_init
  | process_all_circs
  | find_strong_hits
  | match_mirnas
  | analyze_mrna_overlap
  | create_comprehensive_excel
  | construct_network
  | extract_overlapping_genes
  | enrichment_main
  | PPI_Analysis
  | read_csv
  | to_csv
  | plot_savefig.

Inductive event : Type :=
  | Log (lvl : level) (msg : string)
  | LogTraceback (lvl : level) (cls msg : string)
  | Call (f : extfn)
  | HttpPost (url : string) (genes : list string).

Record world : Type := World {
  fs : gmap string node;
  trace : list event
}.

Definition M (A : Type) : Type := world -> result A * world.

Definition ret {A} (a : A) : M A := fun w => (Ok a, w).

Definition bind {A B} (m : M A) (k : A -> M B) : M B :=
  fun w => match m w with
           | (Ok a, w') => k a w'
           | (Raise e, w') => (Raise e, w')
           end.

Definition raise {A} (e : exn) : M A := fun w => (Raise e, w).

(** [try: body  except Exception as e: handler] *)
Definition try_except {A} (body : M A) (handler : string -> string -> M A) : M A :=
  fun w => match body w with
           | (Raise (Exception cls msg), w') => handler cls msg w'
           | r => r
           end.

Declare Scope py_scope.
Delimit Scope py_scope with py.
Notation "x <- m ;; k" := (bind m (fun x => k))
  (at level 100, m at next level, right associativity) : py_scope.
Notation "m ;;; k" := (bind m (fun _ => k))
  (at level 100, right associativity) : py_scope.
Local Open Scope py_scope.

Definition emit (e : event) : M unit :=
  fun w => (Ok tt, World (fs w) (trace w ++ [e])).

Definition log (lvl : level) (msg : string) : M unit := emit (Log lvl msg).

Definition when (b : bool) (m : M unit) : M unit := if b then m else ret tt.

Definition get_fs : M (gmap string node) := fun w => (Ok (fs w), w).

Definition set_fs (f : gmap string node) : M unit :=
  fun w => (Ok tt, World f (trace w)).

Definition of_outcome {A} (o : outcome A) : M A :=
  match o with
  | Returns a => ret a
  | Throws cls msg => raise (Exception cls msg)
  end.

(** A collaborator that may read and change the file system. *)
Definition call {A} (f : extfn) (run : gmap string node -> outcome A * gmap string node) : M A :=
  emit (Call f) ;;;
  f0 <- get_fs ;;
  let '(o, f1) := run f0 in
  set_fs f1 ;;;
  of_outcome o.

(* ===================================================================== *)
(** * The file system calls of the two scripts *)
(* ===================================================================== *)

Module Os.

(** [os.path.join(a, b)] on POSIX. *)
Definition path_join (a b : string) : string :=
  if String.prefix "/" b then b
  else if (negb (PyStr.truthy a)) || String.prefix "/" (String.rev a)
       then a +:+ b
       else a +:+ "/" +:+ b.

(** [os.path.exists(p)] *)
Definition path_exists (p : string) : M bool :=
  f <- get_fs ;; ret (bool_decide (is_Some (f !! p))).

(** [open(p, encoding='utf-8')] followed by reading the whole text.  The
    message of an operating-system error is shortened to the path. *)
Definition read_text (p : string) : M string :=
  f <- get_fs ;;
  match f !! p with
  | Some (File t) => ret t
  | Some Undecodable => raise (Exception "UnicodeDecodeError" "invalid start byte")
  | Some Dir => raise (Exception "IsADirectoryError" p)
  | None => raise (Exception "FileNotFoundError" p)
  end.

(** [k] is [p] itself or lies below the directory [p]. *)
Definition under (p k : string) : bool :=
  bool_decide (k = p) || String.prefix (p +:+ "/") k.

(** [shutil.rmtree(p)] *)
Definition rmtree (p : string) : M unit :=
  f <- get_fs ;;
  match f !! p with
  | Some Dir => set_fs (filter (fun kv => under p kv.1 = false) f)
  | Some _ => raise (Exception "NotADirectoryError" p)
  | None => raise (Exception "FileNotFoundError" p)
  end.

(** [os.makedirs(p, exist_ok=exist_ok)]; both scripts pass names of one
    component, so no intermediate directory is created. *)
Definition makedirs (p : string) (exist_ok : bool) : M unit :=
  f <- get_fs ;;
  match f !! p with
  | None => set_fs (<[p := Dir]> f)
  | Some Dir => if exist_ok then ret tt else raise (Exception "FileExistsError" p)
  | Some _ => raise (Exception "FileExistsError" p)
  end.

End Os.

(* ===================================================================== *)
(** * [DeepRegulatoryNet.py]: input validation *)
(* ===================================================================== *)

(** The first line that fails [line.startswith(expected_prefix)]. *)
Fixpoint first_offending (prefix : string) (lines : list string) : option string :=
  match lines with
  | [] => None
  | l :: ls => if PyStr.startswith l prefix then first_offending prefix ls else Some l
  end.

(** [[line.strip() for line in f if line.strip()]] *)
Definition read_stripped_lines (text : string) : list string :=
  map PyStr.strip
      (List.filter (fun line => PyStr.truthy (PyStr.strip line))
                   (PyStr.iter_lines (PyStr.universal_newlines text))).

Definition invalid_id_message (file_path line : string) : string :=
  "Invalid ID format in " +:+ file_path +:+ ": '" +:+ line +:+ "'".

(** The loop over [lines]: [expected_prefix] is [None] or a string, and an
    empty string counts as no prefix. *)
Definition check_prefix (file_path : string) (expected_prefix : option string)
    (lines : list string) : M unit :=
  match expected_prefix with
  | Some p =>
      if PyStr.truthy p then
        match first_offending p lines with
        | Some line => raise (Exception "ValueError" (invalid_id_message file_path line))
        | None => ret tt
        end
      else ret tt
  | None => ret tt
  end.

Definition validate_input_format (file_path : string) (expected_prefix : option string)
    : M (list string) :=
  text <- Os.read_text file_path ;;
  let lines := read_stripped_lines text in
  check_prefix file_path expected_prefix lines ;;;
  ret lines.

(* ===================================================================== *)
(** * JSON values as Python objects *)
(* ===================================================================== *)

(** What [r.json()] yields.  A float is kept as its [repr], which
    determines it; a dict keeps its insertion order. *)
Inductive json : Type :=
  | JNull
  | JBool (b : bool)
  | JInt (z : Z)
  | JFloat (repr : string)
  | JStr (s : string)
  | JList (items : list json)
  | JDict (fields : list (string * json)).

(** Pure evaluation that may raise. *)
Definition rbind {A B} (m : result A) (k : A -> result B) : result B :=
  match m with
  | Ok a => k a
  | Raise e => Raise e
  end.

Notation "x <-? m ;; k" := (rbind m (fun x => k))
  (at level 100, m at next level, right associativity) : py_scope.

Fixpoint mapM {A B} (f : A -> result B) (l : list A) : result (list B) :=
  match l with
  | [] => Ok []
  | x :: xs => y <-? f x ;; ys <-? mapM f xs ;; Ok (y :: ys)
  end.

Definition lift {A} (r : result A) : M A := fun w => (r, w).

Module Py.

Fixpoint dict_lookup (k : string) (fields : list (string * json)) : option json :=
  match fields with
  | [] => None
  | (k', v) :: rest => if String.eqb k k' then Some v else dict_lookup k rest
  end.

Definition type_name (v : json) : string :=
  match v with
  | JNull => "NoneType"
  | JBool _ => "bool"
  | JInt _ => "int"
  | JFloat _ => "float"
  | JStr _ => "str"
  | JList _ => "list"
  | JDict _ => "dict"
  end.

(** [v.get(k, default)]: only a dict has [get]. *)
Definition get (v : json) (k : string) (default : json) : result json :=
  match v with
  | JDict fields => Ok (from_option id default (dict_lookup k fields))
  | _ => Raise (Exception "AttributeError"
                  ("'" +:+ type_name v +:+ "' object has no attribute 'get'"))
  end.

Fixpoint chars (s : string) : list json :=
  match s with
  | EmptyString => []
  | String a r => JStr (String a EmptyString) :: chars r
  end.

(** [for x in v]: a list yields its items, a dict its keys, a string
    its characters; nothing else is iterable. *)
Definition iter (v : json) : result (list json) :=
  match v with
  | JList items => Ok items
  | JDict fields => Ok (map (fun kv => JStr kv.1) fields)
  | JStr s => Ok (chars s)
  | _ => Raise (Exception "TypeError"
                  ("'" +:+ type_name v +:+ "' object is not iterable"))
  end.

Section Repr.
(** [repr] of a [str] (the choice of quotes and the escapes). *)
Variable repr_str : string -> string.

Fixpoint repr (v : json) : string :=
  match v with
  | JNull => "None"
  | JBool true => "True"
  | JBool false => "False"
  | JInt z => pretty z
  | JFloat r => r
  | JStr s => repr_str s
  | JList items => "[" +:+ PyStr.join ", " (map repr items) +:+ "]"
  | JDict fields =>
      "{" +:+ PyStr.join ", "
                (map (fun kv => match kv with
                                | (k, x) => repr_str k +:+ ": " +:+ repr x
                                end) fields) +:+ "}"
  end.

(** [str(v)], also what an f-string field without a format gives. *)
Definition str (v : json) : string :=
  match v with
  | JStr s => s
  | _ => repr v
  end.
End Repr.

(** An item of [sep.join(...)] must be a [str]. *)
Definition join_item (i : nat) (v : json) : result string :=
  match v with
  | JStr s => Ok s
  | _ => Raise (Exception "TypeError"
                  ("sequence item " +:+ pretty i +:+ ": expected str instance, "
                     +:+ type_name v +:+ " found"))
  end.

Fixpoint join_items (i : nat) (l : list json) : result (list string) :=
  match l with
  | [] => Ok []
  | v :: vs => s <-? join_item i v ;; ss <-? join_items (S i) vs ;; Ok (s :: ss)
  end.

End Py.

(* ===================================================================== *)
(** * [drug_gene_script.py]: flattening the response *)
(* ===================================================================== *)

(** One row of the flattened table. *)
Record interaction_row : Type := Row {
  Gene : json;
  Drug : json;
  Concept_ID : json;
  Score : json;
  Interaction_Types : option string;
  Interaction_Attributes : string;
  Publications_PMIDs : string;
  Sources : string
}.

Section Flatten.
Variable repr_str : string -> string.

Local Abbreviation str := (Py.str repr_str).

(** [f"{t.get('type','')} ({t.get('directionality','')})"] *)
Definition type_label (t : json) : result string :=
  a <-? Py.get t "type" (JStr "") ;;
  b <-? Py.get t "directionality" (JStr "") ;;
  Ok (str a +:+ " (" +:+ str b +:+ ")").

(** [f"{a.get('name','')}={a.get('value','')}"] *)
Definition attribute_label (a : json) : result string :=
  n <-? Py.get a "name" (JStr "") ;;
  v <-? Py.get a "value" (JStr "") ;;
  Ok (str n +:+ "=" +:+ str v).

(** [str(p.get("pmid", ""))] *)
Definition pmid_label (p : json) : result string :=
  v <-? Py.get p "pmid" (JStr "") ;;
  Ok (str v).

(** [x or None] for a string [x]. *)
Definition or_None (x : string) : option string :=
  if PyStr.truthy x then Some x else None.

(** The value of the ["Interaction_Types"] entry. *)
Definition interaction_types_field (inter : json) : result (option string) :=
  ts <-? Py.get inter "interactionTypes" (JList []) ;;
  ts <-? Py.iter ts ;;
  labels <-? mapM type_label ts ;;
  Ok (or_None (PyStr.join "; " labels)).

Definition interaction_attributes_field (inter : json) : result string :=
  l <-? Py.get inter "interactionAttributes" (JList []) ;;
  l <-? Py.iter l ;;
  labels <-? mapM attribute_label l ;;
  Ok (PyStr.join "; " labels).

Definition publications_field (inter : json) : result string :=
  l <-? Py.get inter "publications" (JList []) ;;
  l <-? Py.iter l ;;
  labels <-? mapM pmid_label l ;;
  Ok (PyStr.join "; " labels).

Definition sources_field (inter : json) : result string :=
  l <-? Py.get inter "sources" (JList []) ;;
  l <-? Py.iter l ;;
  names <-? mapM (fun s => Py.get s "sourceDbName" (JStr "")) l ;;
  names <-? Py.join_items 0 names ;;
  Ok (PyStr.join "; " names).

(** The dict appended for one interaction of [gene]. *)
Definition interaction_record (gene inter : json) : result interaction_row :=
  drug_info <-? Py.get inter "drug" (JDict []) ;;
  drug <-? Py.get drug_info "name" (JStr "") ;;
  concept <-? Py.get drug_info "conceptId" (JStr "") ;;
  score <-? Py.get inter "interactionScore" (JInt 0) ;;
  types <-? interaction_types_field inter ;;
  attrs <-? interaction_attributes_field inter ;;
  pubs <-? publications_field inter ;;
  srcs <-? sources_field inter ;;
  Ok (Row gene drug concept score types attrs pubs srcs).

(** The body of the outer loop for one item of [data]. *)
Definition item_records (item : json) : result (list interaction_row) :=
  gene <-? Py.get item "name" (JStr "") ;;
  inters <-? Py.get item "interactions" (JList []) ;;
  inters <-? Py.iter inters ;;
  mapM (interaction_record gene) inters.

(** The two loops: the list [records] when they finish. *)
Definition extract_records (data : json) : result (list interaction_row) :=
  items <-? Py.iter data ;;
  per_item <-? mapM item_records items ;;
  Ok (concat per_item).

(** [extract_interactions(data)]: the DataFrame is the list of its rows. *)
Definition extract_interactions (data : json) : M (list interaction_row) :=
  df <- lift (extract_records data) ;;
  log INFO ("Extracted " +:+ pretty (length df) +:+ " drug–gene interactions.") ;;;
  ret df.

End Flatten.

(* ===================================================================== *)
(** * The pandas operations the drug-gene stage uses *)
(* ===================================================================== *)

Module Pd.

Section Keys.
Context {K : Type} `{EqDecision K}.

(** [Series.unique()]: the distinct values in order of first
    appearance. *)
Fixpoint unique_from (seen : list K) (l : list K) : list K :=
  match l with
  | [] => []
  | x :: r =>
      if bool_decide (x ∈ seen) then unique_from seen r
      else x :: unique_from (x :: seen) r
  end.

Definition unique (l : list K) : list K := unique_from [] l.

Variable leb : K -> K -> bool.

Fixpoint insert_sorted (x : K) (l : list K) : list K :=
  match l with
  | [] => [x]
  | y :: r => if leb x y then x :: l else y :: insert_sorted x r
  end.

Definition sort (l : list K) : list K := foldr insert_sorted [] l.

(** The keys of a [groupby] (with its default [sort=True]): the
    distinct values, ascending. *)
Definition group_keys (l : list K) : list K := sort (unique l).
End Keys.

(** Cells of the columns the chart reads: a string or a missing
    value. *)
Record bar_row : Type := BarRow {
  bar_Gene : option string;
  bar_Interaction_Types : option string;
  bar_Drug : option string
}.

(** A frame indexed by gene with one column per interaction type. *)
Record table (V : Type) : Type := Table {
  index : list string;
  columns : list string;
  values : list (list V)
}.
Arguments Table {V} index columns values.
Arguments index {V} t.
Arguments columns {V} t.
Arguments values {V} t.

(** [Series.dropna()] *)
Definition dropna {A} (l : list (option A)) : list A := omap id l.

(** [Series.nunique()]: missing values are not counted. *)
Definition nunique (l : list (option string)) : nat := length (unique (dropna l)).

(** [df[col].fillna("Unknown")] on the interaction-type column. *)
Definition fillna_types (rows : list bar_row) : list bar_row :=
  map (fun r => BarRow (bar_Gene r)
                       (Some (from_option id "Unknown" (bar_Interaction_Types r)))
                       (bar_Drug r)) rows.

Definition pair_leb (a b : string * string) : bool :=
  match String.compare a.1 b.1 with
  | Lt => true
  | Gt => false
  | Eq => String.leb a.2 b.2
  end.

(** The key of a row under [groupby(["Gene", "Interaction_Types"])];
    a row with a missing key cell belongs to no group. *)
Definition key2 (r : bar_row) : option (string * string) :=
  match bar_Gene r, bar_Interaction_Types r with
  | Some g, Some t => Some (g, t)
  | _, _ => None
  end.

(** [groupby(["Gene", "Interaction_Types"])["Drug"].nunique().reset_index()] *)
Definition nunique_by_gene_and_type (rows : list bar_row)
    : list (string * string * nat) :=
  map (fun k =>
         (k, nunique (map bar_Drug
                          (List.filter (fun r => bool_decide (key2 r = Some k)) rows))))
      (group_keys pair_leb (omap key2 rows)).

(** [groupby("Gene")["Drug"].nunique()] *)
Definition nunique_by_gene (rows : list bar_row) : list (string * nat) :=
  map (fun g =>
         (g, nunique (map bar_Drug
                          (List.filter (fun r => bool_decide (bar_Gene r = Some g)) rows))))
      (group_keys String.leb (omap bar_Gene rows)).

Fixpoint lookup_long (k : string * string) (long : list (string * string * nat))
    : option nat :=
  match long with
  | [] => None
  | (k', n) :: rest => if bool_decide (k = k') then Some n else lookup_long k rest
  end.

(** [long.pivot(index="Gene", columns="Interaction_Types", values="Drug")]:
    a cell without an entry is missing. *)
Definition pivot (long : list (string * string * nat)) : table (option nat) :=
  let idx := group_keys String.leb (map (fun e => e.1.1) long) in
  let cols := group_keys String.leb (map (fun e => e.1.2) long) in
  Table idx cols
        (map (fun g => map (fun t => lookup_long (g, t) long) cols) idx).

(** [.fillna(0)] *)
Definition fillna0 (t : table (option nat)) : table nat :=
  Table (index t) (columns t) (map (map (from_option id 0)) (values t)).

(** [t.loc[t.index.intersection(labels)]]: the rows of [t] whose label
    is among [labels], in the order of [t]. *)
Definition loc_intersection {V} (t : table V) (labels : list string) : table V :=
  let kept := List.filter (fun row => bool_decide (row.1 ∈ labels))
                          (combine (index t) (values t)) in
  Table (map fst kept) (columns t) (map snd kept).

Fixpoint position (x : string) (l : list string) : option nat :=
  match l with
  | [] => None
  | y :: r => if bool_decide (x = y) then Some 0 else S <$> position x r
  end.

(** [t.loc[g, c]] *)
Definition cell {V} (t : table V) (g c : string) : option V :=
  i ← position g (index t);
  j ← position c (columns t);
  row ← values t !! i;
  row !! j.

End Pd.

(** Number of top genes shown in the stacked bar chart. *)
Definition TOP_GENES : nat := 15.

Section StackedBar.
(** [Series.sort_values(ascending=False)]: the default sort is not
    stable, so the order among equal counts is left open. *)
Variable sort_values_desc : list (string * nat) -> list (string * nat).

(** [groupby("Gene")["Drug"].nunique().sort_values(ascending=False)
    .head(top).index]: the genes to keep, most drugs first. *)
Definition top_genes (top : nat) (stacked_df : list Pd.bar_row) : list string :=
  map fst (firstn top (sort_values_desc (Pd.nunique_by_gene stacked_df))).

(** The frame [draw_stacked_bar] hands to the plot, for [top] top
    genes. *)
Definition stacked_bar_data (top : nat) (df : list Pd.bar_row) : Pd.table nat :=
  let stacked_df := Pd.fillna_types df in
  let gene_interaction_counts := Pd.nunique_by_gene_and_type stacked_df in
  let pivot_df := Pd.fillna0 (Pd.pivot gene_interaction_counts) in
  Pd.loc_intersection pivot_df (top_genes top stacked_df).
End StackedBar.

(* ===================================================================== *)
(** * The outside world of the two scripts *)
(* ===================================================================== *)

(** An object owned by a collaborator, by identity. *)
Definition pyobj : Type := nat.

(** A parsed CSV: its columns in order, a cell being a string or a
    missing value. *)
Definition dataframe : Type := list (string * list (option string)).

(** What [requests.post] returns. *)
Record http_response : Type := Response {
  status_code : Z;
  text : string;
  json_body : outcome json
}.

Abbreviation filesystem := (gmap string node).

(** The behaviour of everything the two scripts call and do not define:
    the collaborating modules, pandas, requests, matplotlib and the
    clock. *)
Record env : Type := Env {
  repr_str : string -> string;
  sort_values_desc : list (string * nat) -> list (string * nat);
  script_dir : string;
  runtime_text : string;
  elapsed_text : string;
  run_SecondPipeline_init : list string -> filesystem -> outcome pyobj * filesystem;
  run_process_all_circs : pyobj -> filesystem -> outcome (list (string * nat)) * filesystem;
  run_find_strong_hits : pyobj -> filesystem -> outcome (pyobj * pyobj) * filesystem;
  run_match_mirnas : pyobj -> pyobj -> pyobj -> filesystem -> outcome unit * filesystem;
  run_analyze_mrna_overlap : pyobj -> filesystem -> outcome (option nat) * filesystem;
  run_create_comprehensive_excel : pyobj -> filesystem -> outcome unit * filesystem;
  run_construct_network :
    pyobj -> pyobj -> pyobj -> filesystem -> outcome (option (nat * nat)) * filesystem;
  run_extract_overlapping_genes :
    pyobj -> filesystem -> outcome (option (list string)) * filesystem;
  run_enrichment_main : string -> string -> filesystem -> outcome unit * filesystem;
  run_PPI_Analysis : string -> filesystem -> outcome unit * filesystem;
  run_read_csv : string -> filesystem -> outcome dataframe;
  http_post : string -> list string -> outcome http_response;
  run_to_csv : list interaction_row -> string -> filesystem -> outcome unit * filesystem;
  run_plot_savefig : Pd.table nat -> string -> filesystem -> outcome unit * filesystem
}.

Fixpoint for_each {A} (l : list A) (body : A -> M unit) : M unit :=
  match l with
  | [] => ret tt
  | x :: xs => body x ;;; for_each xs body
  end.

(** The truth value of a Python object. *)
Definition truthy (v : json) : bool :=
  match v with
  | JNull => false
  | JBool b => b
  | JInt z => negb (Z.eqb z 0)
  | JFloat r => negb (String.eqb r "0.0" || String.eqb r "-0.0")
  | JStr s => PyStr.truthy s
  | JList items => match items with [] => false | _ => true end
  | JDict fields => match fields with [] => false | _ => true end
  end.

(* ===================================================================== *)
(** * [drug_gene_script.py]: the stage *)
(* ===================================================================== *)

Module DrugGene.

(** The module globals that [main] assigns before [run_pipeline]. *)
Record config : Type := Config {
  INPUT_FILE : string;
  OUTPUT_DIR : string;
  OUTPUT_FULL_CSV : string;
  OUTPUT_BAR : string
}.

Definition dgidb_url : string := "https://dgidb.org/api/graphql".

Section Stage.
Variable E : env.

Fixpoint column (name : string) (df : dataframe) : option (list (option string)) :=
  match df with
  | [] => None
  | (c, cells) :: rest => if String.eqb name c then Some cells else column name rest
  end.

Definition load_gene_names (file_path : string) : M (list string) :=
  try_except
    (df <- call read_csv (fun f => (run_read_csv E file_path f, f)) ;;
     match column "Gene" df with
     | None => raise (Exception "ValueError" "CSV is missing a 'Gene' column.")
     | Some cells =>
         let genes := Pd.unique (Pd.dropna cells) in
         log INFO ("Loaded " +:+ pretty (length genes) +:+ " unique genes.") ;;;
         ret genes
     end)
    (fun _ msg =>
       log ERROR ("Failed to read input file: " +:+ msg) ;;;
       ret []).

(** The request is determined by the URL and by [genes], which
    [json.dumps] splices into the fixed query text. *)
Definition query_dgidb (genes : list string) : M json :=
  try_except
    (emit (HttpPost dgidb_url genes) ;;;
     r <- of_outcome (http_post E dgidb_url genes) ;;
     if negb (Z.eqb (status_code r) 200) then
       log ERROR ("DGIdb API error (" +:+ pretty (status_code r) +:+ "): " +:+ text r) ;;;
       ret (JList [])
     else
       body <- of_outcome (json_body r) ;;
       data <- lift (Py.get body "data" (JDict [])) ;;
       genes_obj <- lift (Py.get data "genes" (JDict [])) ;;
       lift (Py.get genes_obj "nodes" (JList [])))
    (fun _ msg =>
       log ERROR ("DGIdb request failed: " +:+ msg) ;;;
       ret (JList [])).

Definition export_full_csv (c : config) (df : list interaction_row) : M unit :=
  try_except
    (call to_csv (run_to_csv E df (OUTPUT_FULL_CSV c)) ;;;
     log INFO ("Full CSV saved → " +:+ OUTPUT_FULL_CSV c))
    (fun _ msg => log ERROR ("Failed to save full CSV: " +:+ msg)).

(** A cell of the [Gene] or [Drug] column as the chart reads it: the
    API types both as nullable strings. *)
Definition label_cell (v : json) : option string :=
  match v with
  | JStr s => Some s
  | _ => None
  end.

Definition bar_rows (df : list interaction_row) : list Pd.bar_row :=
  map (fun r => Pd.BarRow (label_cell (Gene r)) (Interaction_Types r)
                          (label_cell (Drug r))) df.

Definition draw_stacked_bar (c : config) (df : list interaction_row) : M unit :=
  let pivot_df := stacked_bar_data (sort_values_desc E) TOP_GENES (bar_rows df) in
  call plot_savefig (run_plot_savefig E pivot_df (OUTPUT_BAR c)) ;;;
  log INFO ("Stacked bar plot saved → " +:+ OUTPUT_BAR c).

Definition run_pipeline (c : config) : M unit :=
  log INFO "=== DGIdb Drug–Gene Interaction Pipeline Started ===" ;;;
  genes <- load_gene_names (INPUT_FILE c) ;;
  match genes with
  | [] => log WARNING "No valid gene names. Exiting."
  | _ =>
      log INFO ("Querying DGIdb for " +:+ pretty (length genes) +:+ " genes...") ;;;
      data <- query_dgidb genes ;;
      if negb (truthy data) then log WARNING "No interaction data retrieved."
      else
        df <- extract_interactions (repr_str E) data ;;
        match df with
        | [] => log WARNING "No interactions to process."
        | _ =>
            export_full_csv c df ;;;
            draw_stacked_bar c df ;;;
            log INFO ("Pipeline completed in " +:+ elapsed_text E +:+ ".")
        end
  end.

(** [main(hub_genes_path, output_dir)] *)
Definition main (hub_genes_path output_dir : string) : M unit :=
  let c := Config hub_genes_path output_dir
                  (Os.path_join output_dir "drug_gene_interactions.csv")
                  (Os.path_join output_dir "drug_gene_interaction_barplot.png") in
  Os.makedirs output_dir true ;;;
  run_pipeline c.

End Stage.
End DrugGene.

(* ===================================================================== *)
(** * [DeepRegulatoryNet.py]: [run_analysis] *)
(* ===================================================================== *)

Definition rule : string := "--------------------------------------------------".

Section RunAnalysis.
Variable E : env.
Variables circ_file mirna_file deg_file : string.
Variable debug : bool.

Definition model_path (name : string) : string :=
  Os.path_join (Os.path_join (script_dir E) "Model_Files") name.

Definition model_file : string := model_path "calibrated_catboost_site_type_model.pkl".
Definition encoder_file : string := model_path "label_encoder.pkl".
Definition scaler_file : string := model_path "robust_scaler.pkl".

Definition required_files : list string :=
  [circ_file; mirna_file; deg_file; model_file; encoder_file; scaler_file].

(** [if not os.path.exists(f): raise FileNotFoundError(...)] *)
Definition require_file (f : string) : M unit :=
  e <- Os.path_exists f ;;
  if e then ret tt
  else raise (Exception "FileNotFoundError" ("Missing file: " +:+ f)).

(** The body of the loop over ["temp"] and ["output"]. *)
Definition reset_folder (folder : string) : M unit :=
  e <- Os.path_exists folder ;;
  when e (Os.rmtree folder) ;;;
  Os.makedirs folder false.

Definition inputs_message (circ_ids mirna_ids deg_ids : list string) : string :=
  "[INFO] Inputs: " +:+ pretty (length circ_ids) +:+ " circRNAs, "
    +:+ pretty (length mirna_ids) +:+ " miRNAs, "
    +:+ pretty (length deg_ids) +:+ " DEGs".

(** Validation of the three inputs, the check of the six required
    files and the reset of the two working directories. *)
Definition validate_and_prepare : M unit :=
  circ_ids <- validate_input_format circ_file (Some "hsa_circ_") ;;
  mirna_ids <- validate_input_format mirna_file (Some "hsa-miR") ;;
  deg_ids <- validate_input_format deg_file None ;;
  log INFO (inputs_message circ_ids mirna_ids deg_ids) ;;;
  for_each required_files require_file ;;;
  for_each ["temp"; "output"] reset_folder.

(** The prediction engine; what it leaves for the later steps. *)
Record predicted : Type := Predicted {
  pipe : pyobj;
  results : list (string * nat);
  strong : pyobj;
  allstrong : pyobj;
  total_circs : nat;
  total_sites : nat
}.

Definition predict_stage : M predicted :=
  log INFO rule ;;;
  log INFO "[STEP 1] Predicting circRNA–miRNA binding sites..." ;;;
  pipe <- call SecondPipeline_init
            (run_SecondPipeline_init E
               [circ_file; mirna_file; deg_file; model_file; encoder_file;
                scaler_file; "temp"; "output"]) ;;
  results <- call process_all_circs (run_process_all_circs E pipe) ;;
  hits <- call find_strong_hits (run_find_strong_hits E pipe) ;;
  call match_mirnas (run_match_mirnas E pipe hits.1 hits.2) ;;;
  let total_circs := length results in
  let total_sites := list_sum (map snd results) in
  log INFO ("[INFO] Processed " +:+ pretty total_circs +:+ " circRNAs") ;;;
  log INFO ("[INFO] Strong/Medium binding sites: " +:+ pretty total_sites) ;;;
  ret (Predicted pipe results hits.1 hits.2 total_circs total_sites).

(** The inner [try] around [construct_network]. *)
Definition construct_network_stage (p : predicted) : M unit :=
  log INFO rule ;;;
  log INFO "[STEP 2.5] Constructing circRNA–miRNA–mRNA regulatory network..." ;;;
  try_except
    (G <- call construct_network
            (run_construct_network E (pipe p) (strong p) (allstrong p)) ;;
     match G with
     | None =>
         log WARNING "[WARN] ⚠ Network construction returned no graph (missing files?)"
     | Some (nodes, edges) =>
         log INFO ("[INFO] Regulatory network constructed: nodes=" +:+ pretty nodes
                     +:+ " edges=" +:+ pretty edges)
     end)
    (fun cls msg =>
       log WARNING ("[WARN] Network construction failed: " +:+ msg) ;;;
       when debug (emit (LogTraceback DEBUG cls msg))).

(** The overlap analysis with the Excel export and the network. *)
Definition overlap_stage (p : predicted) : M unit :=
  overlap_df <- call analyze_mrna_overlap (run_analyze_mrna_overlap E (pipe p)) ;;
  match overlap_df with
  | Some (S _) =>
      call create_comprehensive_excel (run_create_comprehensive_excel E (pipe p)) ;;;
      log INFO "[INFO] Comprehensive interaction Excel generated" ;;;
      construct_network_stage p
  | _ => log WARNING "[WARN] ⚠ No overlapping genes found"
  end.

(** [genes = pipe.extract_overlapping_genes() or []] in its [try]. *)
Definition extract_overlap_stage (p : predicted) : M (list string) :=
  try_except
    (g <- call extract_overlapping_genes (run_extract_overlapping_genes E (pipe p)) ;;
     ret (from_option id [] g))
    (fun cls msg =>
       log WARNING ("[WARN] Failed to extract overlapping genes: " +:+ msg) ;;;
       when debug (emit (LogTraceback DEBUG cls msg)) ;;;
       ret []).

Definition overlapping_path : string := Os.path_join "output" "overlapping_genes.csv".
Definition hub_genes_path : string := Os.path_join "output" "hub_genes.csv".

Definition enrich_stage : M unit :=
  log INFO rule ;;;
  log INFO "[STEP 3] Performing enrichment analysis..." ;;;
  e <- Os.path_exists overlapping_path ;;
  if e then
    call enrichment_main
      (run_enrichment_main E overlapping_path (Os.path_join "output" "enrichment_results"))
  else
    log WARNING ("[WARN] ⚠ Skipped enrichment: no overlapping genes file found ("
                   +:+ overlapping_path +:+ ")").

Definition ppi_stage : M unit :=
  log INFO rule ;;;
  log INFO "[STEP 4] Building PPI network..." ;;;
  e <- Os.path_exists overlapping_path ;;
  if e then call PPI_Analysis (run_PPI_Analysis E overlapping_path)
  else
    log WARNING ("[WARN] ⚠ Skipped PPI analysis: no overlapping genes file found ("
                   +:+ overlapping_path +:+ ")").

Definition drug_gene_stage : M unit :=
  log INFO rule ;;;
  log INFO "[STEP 5] Analyzing drug–gene interactions..." ;;;
  e <- Os.path_exists hub_genes_path ;;
  if e then DrugGene.main E hub_genes_path "output"
  else
    log WARNING ("[WARN] ⚠ Skipped drug–gene analysis: no hub genes file found ("
                   +:+ hub_genes_path +:+ ")").

Definition success_message (p : predicted) (genes : list string) : string :=
  "[SUCCESS] Completed | circRNAs: " +:+ pretty (total_circs p)
    +:+ " | Sites: " +:+ pretty (total_sites p)
    +:+ " | Overlapping genes: " +:+ pretty (length genes)
    +:+ " | Runtime: " +:+ runtime_text E +:+ " min".

Definition summary (p : predicted) (genes : list string) : M unit :=
  log INFO rule ;;;
  log INFO (success_message p genes).

(** The body of the outer [try], cut at the stage boundaries. *)
Definition through_predict : M predicted :=
  validate_and_prepare ;;; predict_stage.

Definition through_overlap : M (predicted * list string) :=
  p <- through_predict ;;
  overlap_stage p ;;;
  genes <- extract_overlap_stage p ;;
  ret (p, genes).

Definition through_enrich : M (predicted * list string) :=
  v <- through_overlap ;; enrich_stage ;;; ret v.

Definition through_ppi : M (predicted * list string) :=
  v <- through_enrich ;; ppi_stage ;;; ret v.

Definition through_drug_gene : M (predicted * list string) :=
  v <- through_ppi ;; drug_gene_stage ;;; ret v.

Definition run_body : M unit :=
  v <- through_drug_gene ;; summary v.1 v.2.

(** The outer [except Exception]. *)
Definition abort (cls msg : string) : M unit :=
  log ERROR ("[ERROR] Pipeline failed: " +:+ msg) ;;;
  when debug (emit (LogTraceback ERROR cls msg)) ;;;
  raise (SystemExit 1).

Definition run_analysis : M unit := try_except run_body abort.

(** The exit status of the process that runs [run_analysis] last. *)
Definition exit_status (r : result unit) : Z :=
  match r with
  | Ok _ => 0
  | Raise (SystemExit code) => code
  | Raise (Exception _ _) => 1
  end.

End RunAnalysis.

(* ===================================================================== *)
(** * The shape of a DGIdb response *)
(* ===================================================================== *)

(** The response the GraphQL query asks for: a list of gene nodes, each
    with a list of interactions.  A key may be absent ([None]); a leaf
    holds any JSON value, except [sourceDbName], which is a string. *)
Module Api.

Record drug : Type := MkDrug {
  drug_name : option json;
  drug_conceptId : option json
}.

Record interaction_type : Type := MkType {
  type_type : option json;
  type_directionality : option json
}.

Record attribute : Type := MkAttribute {
  attribute_name : option json;
  attribute_value : option json
}.

Record publication : Type := MkPublication { publication_pmid : option json }.

Record source : Type := MkSource { source_sourceDbName : option string }.

Record interaction : Type := MkInteraction {
  interaction_drug : option drug;
  interactionScore : option json;
  interactionTypes : option (list interaction_type);
  interactionAttributes : option (list attribute);
  publications : option (list publication);
  sources : option (list source)
}.

Record gene : Type := MkGene {
  gene_name : option json;
  gene_interactions : option (list interaction)
}.

(** The JSON object of a gene node and of its parts: the keys that are
    present, in the order of the query. *)
Definition field (k : string) (v : option json) : list (string * json) :=
  match v with
  | Some x => [(k, x)]
  | None => []
  end.

Definition encode_drug (d : drug) : json :=
  JDict (field "name" (drug_name d) ++ field "conceptId" (drug_conceptId d)).

Definition encode_type (t : interaction_type) : json :=
  JDict (field "type" (type_type t) ++ field "directionality" (type_directionality t)).

Definition encode_attribute (a : attribute) : json :=
  JDict (field "name" (attribute_name a) ++ field "value" (attribute_value a)).

Definition encode_publication (p : publication) : json :=
  JDict (field "pmid" (publication_pmid p)).

Definition encode_source (s : source) : json :=
  JDict (field "sourceDbName" (JStr <$> source_sourceDbName s)).

Definition encode_list {A} (enc : A -> json) (l : option (list A)) : option json :=
  (fun xs => JList (map enc xs)) <$> l.

Definition encode_interaction (i : interaction) : json :=
  JDict (field "drug" (encode_drug <$> interaction_drug i)
         ++ field "interactionScore" (interactionScore i)
         ++ field "interactionTypes" (encode_list encode_type (interactionTypes i))
         ++ field "interactionAttributes"
              (encode_list encode_attribute (interactionAttributes i))
         ++ field "publications" (encode_list encode_publication (publications i))
         ++ field "sources" (encode_list encode_source (sources i))).

Definition encode_gene (g : gene) : json :=
  JDict (field "name" (gene_name g)
         ++ field "interactions" (encode_list encode_interaction (gene_interactions g))).

Definition encode (nodes : list gene) : json := JList (map encode_gene nodes).

(** The number of (gene, interaction) pairs of a response. *)
Definition pairs (nodes : list gene) : nat :=
  list_sum (map (fun g => length (from_option id [] (gene_interactions g))) nodes).

Section Rows.
Variable repr_str : string -> string.

Definition show (v : option json) : string :=
  Py.str repr_str (from_option id (JStr "") v).

Definition type_text (t : interaction_type) : string :=
  show (type_type t) +:+ " (" +:+ show (type_directionality t) +:+ ")".

Definition attribute_text (a : attribute) : string :=
  show (attribute_name a) +:+ "=" +:+ show (attribute_value a).

Definition publication_text (p : publication) : string := show (publication_pmid p).

Definition source_text (s : source) : string :=
  from_option id "" (source_sourceDbName s).

(** The entries of a sub-list joined with "; " in their order; an
    absent sub-list gives the empty string. *)
Definition joined {A} (text : A -> string) (l : option (list A)) : string :=
  PyStr.join "; " (map text (from_option id [] l)).

(** The row of one (gene, interaction) pair: an absent or empty list
    of interaction types gives the null marker. *)
Definition row_of (g : gene) (i : interaction) : interaction_row :=
  Row (from_option id (JStr "") (gene_name g))
      (from_option id (JStr "") (interaction_drug i ≫= drug_name))
      (from_option id (JStr "") (interaction_drug i ≫= drug_conceptId))
      (from_option id (JInt 0) (interactionScore i))
      (match interactionTypes i with
       | None | Some [] => None
       | Some ts => Some (joined type_text (Some ts))
       end)
      (joined attribute_text (interactionAttributes i))
      (joined publication_text (publications i))
      (joined source_text (sources i)).

(** One row per (gene, interaction) pair, in the order of the
    response. *)
Definition rows (nodes : list gene) : list interaction_row :=
  concat (map (fun g => map (row_of g) (from_option id [] (gene_interactions g))) nodes).
End Rows.

End Api.

(** The number of distinct values of a list. *)
Definition distinct (l : list string) : nat := size (list_to_set l : gset string).

(* ===================================================================== *)
(** * Vocabulary of the properties *)
(* ===================================================================== *)

Definition types_null_or_nonempty (r : interaction_row) : Prop :=
  Interaction_Types r = None \/
  exists s, Interaction_Types r = Some s /\ s <> "".

(** A line that holds white space only. *)
Fixpoint blank (s : string) : bool :=
  match s with
  | EmptyString => true
  | String a r => PyStr.isspace a && blank r
  end.

(** The lines of a text file as Python reads them. *)
Definition file_lines (text : string) : list string :=
  PyStr.iter_lines (PyStr.universal_newlines text).

Definition first_char (s : string) : option ascii :=
  match s with
  | EmptyString => None
  | String a _ => Some a
  end.

Fixpoint last_char (s : string) : option ascii :=
  match s with
  | EmptyString => None
  | String a r =>
      match r with
      | EmptyString => Some a
      | _ => last_char r
      end
  end.

(** [l] is [raw] without the white space around it: [raw] is [l] between
    two runs of white space, and [l] begins and ends with a character
    that is not white space. *)
Definition stripped_of (raw l : string) : Prop :=
  exists before after,
    raw = before +:+ l +:+ after
    /\ blank before = true /\ blank after = true
    /\ (exists c, first_char l = Some c /\ PyStr.isspace c = false)
    /\ (exists c, last_char l = Some c /\ PyStr.isspace c = false).

(** A line of a text: not empty, with no line feed before its last
    character. *)
Definition text_line (l : string) : Prop :=
  l <> "" /\ forall a b, l = a +:+ String PyStr.LF b -> b = "".

(** [ls] cuts [s] into its lines: put together they give [s], and each
    of them but the last ends with the line feed. *)
Definition lines_of (s : string) (ls : list string) : Prop :=
  String.concat "" ls = s
  /\ Forall text_line ls
  /\ Forall (fun l => last_char l = Some PyStr.LF) (removelast ls).

(** The non-blank lines of a file, each stripped of the white space
    around it, in the order of the file. *)
Definition nonblank_stripped_lines (text : string) : list string :=
  map PyStr.strip (List.filter (fun line => negb (blank line)) (file_lines text)).

(** What [validate_input_format] returns or raises on a file system. *)
Definition validate_result (f : filesystem) (file_path : string)
    (expected_prefix : option string) : result (list string) :=
  match f !! file_path with
  | Some (File text) =>
      let lines := read_stripped_lines text in
      match expected_prefix with
      | Some p =>
          if PyStr.truthy p then
            match first_offending p lines with
            | Some line =>
                Raise (Exception "ValueError" (invalid_id_message file_path line))
            | None => Ok lines
            end
          else Ok lines
      | None => Ok lines
      end
  | Some Undecodable => Raise (Exception "UnicodeDecodeError" "invalid start byte")
  | Some Dir => Raise (Exception "IsADirectoryError" file_path)
  | None => Raise (Exception "FileNotFoundError" file_path)
  end.

(** The first of [files] that does not exist. *)
Fixpoint first_missing (f : filesystem) (files : list string) : option string :=
  match files with
  | [] => None
  | p :: ps => if bool_decide (is_Some (f !! p)) then first_missing f ps else Some p
  end.

(** What the outer handler leaves behind: the error line, the stack
    trace under the debug flag. *)
Definition abort_lines (debug : bool) (cls msg : string) : list event :=
  Log ERROR ("[ERROR] Pipeline failed: " +:+ msg)
    :: (if debug then [LogTraceback ERROR cls msg] else []).

Definition is_call (e : event) : bool :=
  match e with
  | Call _ => true
  | _ => false
  end.

(** All three inputs pass validation and all six required files exist. *)
Definition inputs_ready (E : env) (circ_file mirna_file deg_file : string)
    (f : filesystem) : Prop :=
  (exists ids, validate_result f circ_file (Some "hsa_circ_") = Ok ids)
  /\ (exists ids, validate_result f mirna_file (Some "hsa-miR") = Ok ids)
  /\ (exists ids, validate_result f deg_file None = Ok ids)
  /\ Forall (fun p => is_Some (f !! p))
            (required_files E circ_file mirna_file deg_file).

(** The file system after the loop body for [folder]. *)
Definition reset_fs (folder : string) (f : filesystem) : filesystem :=
  match f !! folder with
  | Some Dir => <[folder := Dir]> (filter (fun kv => Os.under folder kv.1 = false) f)
  | _ => <[folder := Dir]> f
  end.

Definition dir_or_absent (f : filesystem) (p : string) : Prop :=
  f !! p = None \/ f !! p = Some Dir.

(** The run stopped before any stage: the file system is as it was and
    the log gained lines only. *)
Definition aborted_before_stages (w w' : world) : Prop :=
  fs w' = fs w
  /\ take (length (trace w)) (trace w') = trace w
  /\ Forall (fun e => is_call e = false) (drop (length (trace w)) (trace w')).

(** The lines an inner handler adds for a caught exception. *)
Definition skip_lines (debug : bool) (warning cls msg : string) : list event :=
  Log WARNING (warning +:+ msg)
    :: (if debug then [LogTraceback DEBUG cls msg] else []).

Definition is_request (e : event) : bool :=
  match e with
  | HttpPost _ _ => true
  | _ => false
  end.

(** Writing the CSV or saving the plot. *)
Definition is_write (e : event) : bool :=
  match e with
  | Call to_csv | Call plot_savefig => true
  | _ => false
  end.

Definition missing_gene_column : string := "CSV is missing a 'Gene' column.".

Definition started : event :=
  Log INFO "=== DGIdb Drug–Gene Interaction Pipeline Started ===".

(** The label a row is counted under: a missing interaction type is
    "Unknown". *)
Definition label (r : Pd.bar_row) : string :=
  from_option id "Unknown" (Pd.bar_Interaction_Types r).

(** The drugs of the rows of gene [g] with label [t]. *)
Definition drugs_of (g t : string) (df : list Pd.bar_row) : list string :=
  omap Pd.bar_Drug
       (List.filter (fun r => bool_decide (Pd.bar_Gene r = Some g /\ label r = t)) df).

(** The drugs of all rows of gene [g]. *)
Definition drugs_of_gene (g : string) (df : list Pd.bar_row) : list string :=
  omap Pd.bar_Drug (List.filter (fun r => bool_decide (Pd.bar_Gene r = Some g)) df).

(** The genes of a frame. *)
Definition genes_of (df : list Pd.bar_row) : list string := omap Pd.bar_Gene df.

(** Descending by count. *)
Definition count_ge (a b : string * nat) : Prop := b.2 <= a.2.

Definition fill (r : Pd.bar_row) : Pd.bar_row :=
  Pd.BarRow (Pd.bar_Gene r) (Some (label r)) (Pd.bar_Drug r).

(** The comparison of an insertion sort that is descending by count. *)
Definition count_geb (a b : string * nat) : bool := b.2 <=? a.2.

(* ===================================================================== *)
(** * A sample run *)
(* ===================================================================== *)

Definition sample_repr (s : string) : string := "'" +:+ s +:+ "'".

Definition sample_circ_text : string := "hsa_circ_0001
  hsa_circ_0002  

".

Definition sample_bad_circ_text : string := "hsa_circ_0001
circ_42
".

Definition sample_fs : filesystem :=
  list_to_map
    [("circ.txt", File sample_circ_text);
     ("mirna.txt", File "hsa-miR-21-5p
");
     ("deg.txt", File "TP53
EGFR
");
     ("app/Model_Files/calibrated_catboost_site_type_model.pkl", Undecodable);
     ("app/Model_Files/label_encoder.pkl", Undecodable);
     ("app/Model_Files/robust_scaler.pkl", Undecodable);
     ("output", Dir);
     ("output/stale.csv", File "old")].

Definition sample_world : world := World sample_fs [].

(** The value of a result that is known to be [Ok]. *)
Definition ok_value {A} (default : A) (r : result A) : A :=
  match r with
  | Ok a => a
  | Raise _ => default
  end.

(** A run whose inputs are in place, whose network construction fails,
    and whose enrichment, gene table and endpoint behave as given. *)
Definition sample_env (enrichment : outcome unit) (csv : outcome dataframe)
    (response : outcome http_response) : env :=
  Env sample_repr
      (Pd.sort count_geb)
      "app" "0.02" "0:00:01.5"
      (fun _ f => (Returns 1, f))
      (fun _ f => (Returns [("hsa_circ_0001", 3); ("hsa_circ_0002", 2)], f))
      (fun _ f => (Returns (2, 3), f))
      (fun _ _ _ f => (Returns tt, f))
      (fun _ f => (Returns (Some 4), f))
      (fun _ f => (Returns tt, f))
      (fun _ _ _ f => (Throws "KeyError" "'mirna'", f))
      (fun _ f => (Returns (Some ["TP53"; "EGFR"]),
                   <["output/overlapping_genes.csv" := File "Gene"]> f))
      (fun _ _ f => (enrichment, f))
      (fun _ f => (Returns tt, <["output/hub_genes.csv" := File "Gene"]> f))
      (fun _ _ => csv)
      (fun _ _ => response)
      (fun _ p f => (Returns tt, <[p := File "csv"]> f))
      (fun _ p f => (Returns tt, <[p := Undecodable]> f)).

Definition sample_genes : dataframe :=
  [("Rank", [Some "1"; Some "2"; Some "3"; Some "4"]);
   ("Gene", [Some "TP53"; None; Some "TP53"; Some "EGFR"])].

Definition sample_error_response : http_response :=
  Response 500 "Internal Server Error" (Throws "JSONDecodeError" "Expecting value").

(** Enrichment fails. *)
Definition sample_env_enrichment_fails : env :=
  sample_env (Throws "ConnectionError" "enrichment service unreachable")
             (Returns sample_genes) (Returns sample_error_response).

(** The endpoint answers 500. *)
Definition sample_env_http_500 : env :=
  sample_env (Returns tt) (Returns sample_genes) (Returns sample_error_response).

(** The hub-genes CSV cannot be read. *)
Definition sample_env_no_csv : env :=
  sample_env (Returns tt) (Throws "FileNotFoundError" "No such file: hub_genes.csv")
             (Returns sample_error_response).

Definition sample_config : DrugGene.config :=
  DrugGene.Config "output/hub_genes.csv" "output"
                  "output/drug_gene_interactions.csv"
                  "output/drug_gene_interaction_barplot.png".

(** A response with one gene, whose only interaction lists no types. *)
Definition sample_response : json :=
  JList [JDict [("name", JStr "TP53");
                ("interactions",
                 JList [JDict [("drug", JDict [("name", JStr "NUTLIN-3")]);
                               ("interactionTypes", JList [])]])]].

Definition sample_rows : list Pd.bar_row :=
  [Pd.BarRow (Some "TP53") (Some "inhibitor (INHIBITORY)") (Some "NUTLIN-3");
   Pd.BarRow (Some "TP53") None (Some "CISPLATIN");
   Pd.BarRow (Some "TP53") None (Some "NUTLIN-3");
   Pd.BarRow (Some "TP53") None (Some "CISPLATIN");
   Pd.BarRow (Some "EGFR") (Some "inhibitor (INHIBITORY)") (Some "GEFITINIB");
   Pd.BarRow None None (Some "ASPIRIN")].

(* ===================================================================== *)
(** * [DeepRegulatoryNet.py]: the console filter *)
(* ===================================================================== *)

(** [record.levelname] *)
Definition levelname (lvl : level) : string :=
  match lvl with
  | DEBUG => "DEBUG"
  | INFO => "INFO"
  | WARNING => "WARNING"
  | ERROR => "ERROR"
  end.

(** [ConciseConsoleFilter.filter(record)] on the level and the formatted
    message of the record. *)
Definition ConciseConsoleFilter_filter (lvl : level) (msg : string) : bool :=
  existsb (String.eqb (levelname lvl)) ["ERROR"; "WARNING"]
  || existsb (PyStr.startswith msg)
             ["[START]"; "[STEP"; "[SUCCESS]"; "[INFO]"; "[WELCOME]"].

(* ===================================================================== *)
(** * Vocabulary of the further properties *)
(* ===================================================================== *)

(** A result that is not [SystemExit]. *)
Definition no_exit {A} (r : result A) : Prop :=
  forall code, r <> Raise (SystemExit code).

(** [m] never raises [SystemExit], and all it does to the log is to add
    events that satisfy [P]. *)
Definition appends (P : event -> bool) {A} (m : M A) : Prop :=
  forall w r w',
    m w = (r, w') ->
    no_exit r /\ exists added, trace w' = trace w ++ added /\ forallb P added = true.

Definition any_event (e : event) : bool := true.

(** What the drug-gene stage may add to the log: its library calls, its
    one kind of request, warnings and errors, and lines below the
    warning level that the console filter rejects. *)
Definition stage_event (e : event) : bool :=
  match e with
  | Log WARNING _ | Log ERROR _ => true
  | Log lvl msg => negb (ConciseConsoleFilter_filter lvl msg)
  | LogTraceback _ _ _ => false
  | Call read_csv | Call to_csv | Call plot_savefig => true
  | Call _ => false
  | HttpPost _ _ => true
  end.

(** What the stage may add once the request is out. *)
Definition report_event (e : event) : bool :=
  stage_event e && negb (is_request e).

(** A string without white space at either end. *)
Definition trimmed (s : string) : Prop := PyStr.strip s = s.

(** The collaborator and library calls among the events, in order. *)
Definition calls_of (l : list event) : list extfn :=
  omap (fun e => match e with Call f => Some f | _ => None end) l.

(** The order in which [run_analysis] reaches its collaborators and the
    drug-gene stage its libraries. *)
Definition pipeline_order : list extfn :=
  [SecondPipeline_init; process_all_circs; find_strong_hits; match_mirnas;
   analyze_mrna_overlap; create_comprehensive_excel; construct_network;
   extract_overlapping_genes; enrichment_main; PPI_Analysis;
   read_csv; to_csv; plot_savefig].

(** All that [m] adds to the log is added at its end, and the calls
    among it are calls of [order], in that order, each at most once. *)
Definition calls_within (order : list extfn) {A} (m : M A) : Prop :=
  forall w r w',
    m w = (r, w') ->
    exists added, trace w' = trace w ++ added /\ sublist (calls_of added) order.

Definition no_call (e : event) : bool := negb (is_call e).

Definition is_traceback (e : event) : bool :=
  match e with
  | LogTraceback _ _ _ => true
  | _ => false
  end.

(** The log without the stack traces. *)
Definition without_tracebacks (l : list event) : list event :=
  List.filter (fun e => negb (is_traceback e)) l.

(** Two worlds with the same file system and, stack traces apart, the
    same log. *)
Definition same_but_tracebacks (w1 w2 : world) : Prop :=
  fs w1 = fs w2 /\ without_tracebacks (trace w1) = without_tracebacks (trace w2).

(** Two computations that, started in such worlds, end alike and in
    such worlds. *)
Definition alike {A} (m1 m2 : M A) : Prop :=
  forall w1 w2,
    same_but_tracebacks w1 w2 ->
    (m1 w1).1 = (m2 w2).1 /\ same_but_tracebacks (m1 w1).2 (m2 w2).2.

(** The sum of the cells of the row of [g]. *)
Definition bar_height (t : Pd.table nat) (g : string) : nat :=
  list_sum (omap (Pd.cell t g) (Pd.columns t)).

(** A response body with the nodes at their place. *)
Definition body_with_nodes (nodes : json) : json :=
  JDict [("data", JDict [("genes", JDict [("nodes", nodes)])])].

(** The response of the endpoint is the given one. *)
Definition sample_env_response (response : outcome http_response) : env :=
  sample_env (Returns tt) (Returns sample_genes) response.

Definition sample_ok_response (body : json) : http_response :=
  Response 200 "" (Returns body).


(** Two sources of one interaction, the second with a null name. *)
Definition sample_source_fields : list (list (string * json)) :=
  [[("sourceDbName", JStr "ChEMBL")]; [("sourceDbName", JNull)]].

(** A response whose only interaction has a source with a null name. *)
Definition sample_null_source_nodes : json :=
  JList [JDict [("name", JStr "TP53");
                ("interactions",
                 JList [JDict [("sources", JList (map JDict sample_source_fields))]])]].

(** Two genes without interactions. *)
Definition sample_idle_nodes : list Api.gene :=
  [Api.MkGene (Some (JStr "TP53")) (Some []); Api.MkGene (Some (JStr "EGFR")) None].

(* ===================================================================== *)
(** * Properties of the flattening *)
(* ===================================================================== *)

Section FlattenFacts.
Variable repr_str : string -> string.

Lemma mapM_map_ok {A B C} (enc : A -> B) (f : B -> result C) (g : A -> C) (l : list A) :
  (forall x, f (enc x) = Ok (g x)) ->
  mapM f (map enc l) = Ok (map g l).
Proof.
  intros Hf. induction l as [|x l IH]; simpl; [reflexivity|].
  rewrite Hf. simpl. rewrite IH. reflexivity.
Qed.

Lemma type_label_encode t :
  type_label repr_str (Api.encode_type t) = Ok (Api.type_text repr_str t).
Proof. destruct t as [[a|] [b|]]; reflexivity. Qed.

Lemma attribute_label_encode a :
  attribute_label repr_str (Api.encode_attribute a) = Ok (Api.attribute_text repr_str a).
Proof. destruct a as [[n|] [v|]]; reflexivity. Qed.

Lemma pmid_label_encode p :
  pmid_label repr_str (Api.encode_publication p) = Ok (Api.publication_text repr_str p).
Proof. destruct p as [[v|]]; reflexivity. Qed.

Lemma source_get_encode s :
  Py.get (Api.encode_source s) "sourceDbName" (JStr "") = Ok (JStr (Api.source_text s)).
Proof. destruct s as [[v|]]; reflexivity. Qed.

Lemma join_items_strs i (l : list string) :
  Py.join_items i (map JStr l) = Ok l.
Proof.
  revert i. induction l as [|x l IH]; intros i; simpl; [reflexivity|].
  rewrite IH. reflexivity.
Qed.

Lemma truthy_app_nonempty a b c : PyStr.truthy (a +:+ String b c) = true.
Proof. induction a; reflexivity. Qed.

(** A type label is never empty: it always holds " (" and ")". *)
Lemma type_label_truthy t s : type_label repr_str t = Ok s -> PyStr.truthy s = true.
Proof.
  unfold type_label, Py.get. destruct t; simpl; try discriminate.
  intros [= <-]. apply truthy_app_nonempty.
Qed.

Lemma truthy_join_cons sep s l :
  PyStr.truthy s = true -> PyStr.truthy (PyStr.join sep (s :: l)) = true.
Proof.
  intros Hs. destruct l; simpl; [exact Hs|].
  destruct s; [discriminate|reflexivity].
Qed.

Lemma mapM_cons_inv {A B} (f : A -> result B) x l ys :
  mapM f (x :: l) = Ok ys ->
  exists y ys', f x = Ok y /\ mapM f l = Ok ys' /\ ys = y :: ys'.
Proof.
  simpl. destruct (f x) as [y|]; simpl; [|discriminate].
  destruct (mapM f l) as [ys'|]; simpl; [|discriminate].
  intros [= <-]. eauto.
Qed.

Lemma mapM_Forall {A B} (f : A -> result B) (P : B -> Prop) l ys :
  (forall x y, f x = Ok y -> P y) ->
  mapM f l = Ok ys -> Forall P ys.
Proof.
  intros Hf. revert ys. induction l as [|x l IH]; intros ys.
  - intros [= <-]. constructor.
  - intros (y & ys' & Hy & Hl & ->)%mapM_cons_inv.
    constructor; eauto.
Qed.

(** The value of the entry is never the empty string. *)
Lemma interaction_types_field_nonempty inter v :
  interaction_types_field repr_str inter = Ok v -> v <> Some "".
Proof.
  unfold interaction_types_field.
  destruct (Py.get inter "interactionTypes" (JList [])) as [ts|]; simpl; [|discriminate].
  destruct (Py.iter ts) as [l|]; simpl; [|discriminate].
  destruct (mapM (type_label repr_str) l) as [labels|] eqn:Hl; simpl; [|discriminate].
  intros [= <-]. unfold or_None.
  destruct (PyStr.truthy (PyStr.join "; " labels)) eqn:Ht; [|discriminate].
  intros [= Hj]. rewrite Hj in Ht. discriminate.
Qed.

End FlattenFacts.

Section FlattenTheorems.
Variable repr_str : string -> string.

Lemma joined_types_truthy t ts :
  PyStr.truthy (Api.joined (Api.type_text repr_str) (Some (t :: ts))) = true.
Proof.
  unfold Api.joined. simpl map. apply truthy_join_cons.
  unfold Api.type_text. apply truthy_app_nonempty.
Qed.

Lemma get_interactionTypes_encode i :
  Py.get (Api.encode_interaction i) "interactionTypes" (JList [])
  = Ok (JList (map Api.encode_type (from_option id [] (Api.interactionTypes i)))).
Proof. destruct i as [[d|] [sc|] [ty|] [at'|] [pu|] [so|]]; reflexivity. Qed.

Lemma get_interactionAttributes_encode i :
  Py.get (Api.encode_interaction i) "interactionAttributes" (JList [])
  = Ok (JList (map Api.encode_attribute (from_option id [] (Api.interactionAttributes i)))).
Proof. destruct i as [[d|] [sc|] [ty|] [at'|] [pu|] [so|]]; reflexivity. Qed.

Lemma get_publications_encode i :
  Py.get (Api.encode_interaction i) "publications" (JList [])
  = Ok (JList (map Api.encode_publication (from_option id [] (Api.publications i)))).
Proof. destruct i as [[d|] [sc|] [ty|] [at'|] [pu|] [so|]]; reflexivity. Qed.

Lemma get_sources_encode i :
  Py.get (Api.encode_interaction i) "sources" (JList [])
  = Ok (JList (map Api.encode_source (from_option id [] (Api.sources i)))).
Proof. destruct i as [[d|] [sc|] [ty|] [at'|] [pu|] [so|]]; reflexivity. Qed.

Lemma get_drug_encode i :
  Py.get (Api.encode_interaction i) "drug" (JDict [])
  = Ok (from_option Api.encode_drug (JDict []) (Api.interaction_drug i)).
Proof. destruct i as [[d|] [sc|] [ty|] [at'|] [pu|] [so|]]; reflexivity. Qed.

Lemma get_score_encode i :
  Py.get (Api.encode_interaction i) "interactionScore" (JInt 0)
  = Ok (from_option id (JInt 0) (Api.interactionScore i)).
Proof. destruct i as [[d|] [sc|] [ty|] [at'|] [pu|] [so|]]; reflexivity. Qed.

Lemma types_field_encode g i :
  interaction_types_field repr_str (Api.encode_interaction i)
  = Ok (Interaction_Types (Api.row_of repr_str g i)).
Proof.
  unfold interaction_types_field. rewrite get_interactionTypes_encode.
  cbn [rbind Py.iter].
  rewrite (mapM_map_ok _ _ _ _ (type_label_encode repr_str)).
  cbn [rbind]. unfold Api.row_of. cbn [Interaction_Types].
  destruct (Api.interactionTypes i) as [[|t ts]|]; [reflexivity| |reflexivity].
  pose proof (joined_types_truthy t ts) as Ht.
  unfold or_None, Api.joined in *. rewrite Ht. reflexivity.
Qed.

Lemma attributes_field_encode i :
  interaction_attributes_field repr_str (Api.encode_interaction i)
  = Ok (Api.joined (Api.attribute_text repr_str) (Api.interactionAttributes i)).
Proof.
  unfold interaction_attributes_field. rewrite get_interactionAttributes_encode.
  cbn [rbind Py.iter].
  rewrite (mapM_map_ok _ _ _ _ (attribute_label_encode repr_str)). reflexivity.
Qed.

Lemma publications_field_encode i :
  publications_field repr_str (Api.encode_interaction i)
  = Ok (Api.joined (Api.publication_text repr_str) (Api.publications i)).
Proof.
  unfold publications_field. rewrite get_publications_encode.
  cbn [rbind Py.iter].
  rewrite (mapM_map_ok _ _ _ _ (pmid_label_encode repr_str)). reflexivity.
Qed.

Lemma sources_field_encode i :
  sources_field (Api.encode_interaction i)
  = Ok (Api.joined Api.source_text (Api.sources i)).
Proof.
  unfold sources_field. rewrite get_sources_encode. cbn [rbind Py.iter].
  rewrite (mapM_map_ok Api.encode_source _ (fun s => JStr (Api.source_text s)) _
             source_get_encode).
  cbn [rbind]. rewrite <- (map_map Api.source_text JStr), join_items_strs.
  reflexivity.
Qed.

Lemma interaction_record_encode g i :
  interaction_record repr_str (from_option id (JStr "") (Api.gene_name g))
                     (Api.encode_interaction i)
  = Ok (Api.row_of repr_str g i).
Proof.
  unfold interaction_record.
  rewrite get_drug_encode, get_score_encode, (types_field_encode g),
    attributes_field_encode, publications_field_encode, sources_field_encode.
  cbn [rbind]. unfold Api.row_of.
  destruct (Api.interaction_drug i) as [[[n|] [c|]]|]; reflexivity.
Qed.

Lemma item_records_encode g :
  item_records repr_str (Api.encode_gene g)
  = Ok (map (Api.row_of repr_str g) (from_option id [] (Api.gene_interactions g))).
Proof.
  unfold item_records.
  assert (Py.get (Api.encode_gene g) "name" (JStr "")
          = Ok (from_option id (JStr "") (Api.gene_name g))) as ->.
  { destruct g as [[n|] [l|]]; reflexivity. }
  assert (Py.get (Api.encode_gene g) "interactions" (JList [])
          = Ok (JList (map Api.encode_interaction
                           (from_option id [] (Api.gene_interactions g))))) as ->.
  { destruct g as [[n|] [l|]]; reflexivity. }
  cbn [rbind Py.iter]. apply mapM_map_ok. intros i. apply interaction_record_encode.
Qed.

Lemma extract_records_encode nodes :
  extract_records repr_str (Api.encode nodes) = Ok (Api.rows repr_str nodes).
Proof.
  unfold extract_records, Api.encode, Api.rows. cbn [rbind Py.iter].
  rewrite (mapM_map_ok _ _ _ _ item_records_encode). reflexivity.
Qed.

Lemma length_rows nodes : length (Api.rows repr_str nodes) = Api.pairs nodes.
Proof.
  unfold Api.rows, Api.pairs. induction nodes as [|g l IH]; simpl; [reflexivity|].
  rewrite length_app, length_map, IH. reflexivity.
Qed.

End FlattenTheorems.

Section FlattenClaims.
Variable repr_str : string -> string.

Lemma interaction_record_types gene inter r :
  interaction_record repr_str gene inter = Ok r -> types_null_or_nonempty r.
Proof.
  unfold interaction_record.
  destruct (Py.get inter "drug" (JDict [])) as [d|]; cbn [rbind]; [|discriminate].
  destruct (Py.get d "name" (JStr "")) as [n|]; cbn [rbind]; [|discriminate].
  destruct (Py.get d "conceptId" (JStr "")) as [c|]; cbn [rbind]; [|discriminate].
  destruct (Py.get inter "interactionScore" (JInt 0)) as [sc|]; cbn [rbind]; [|discriminate].
  destruct (interaction_types_field repr_str inter) as [ty|] eqn:Hty;
    cbn [rbind]; [|discriminate].
  destruct (interaction_attributes_field repr_str inter); cbn [rbind]; [|discriminate].
  destruct (publications_field repr_str inter); cbn [rbind]; [|discriminate].
  destruct (sources_field inter); cbn [rbind]; [|discriminate].
  intros [= <-]. apply interaction_types_field_nonempty in Hty.
  unfold types_null_or_nonempty. cbn [Interaction_Types].
  destruct ty as [s|]; [right|left; reflexivity].
  exists s. split; [reflexivity|]. intros ->. apply Hty. reflexivity.
Qed.

Lemma extract_records_types data rows :
  extract_records repr_str data = Ok rows -> Forall types_null_or_nonempty rows.
Proof.
  unfold extract_records.
  destruct (Py.iter data) as [items|]; cbn [rbind]; [|discriminate].
  destruct (mapM (item_records repr_str) items) as [per|] eqn:Hper;
    cbn [rbind]; [|discriminate].
  intros [= <-]. apply Forall_concat.
  eapply mapM_Forall; [|exact Hper].
  intros item rs. unfold item_records.
  destruct (Py.get item "name" (JStr "")) as [gene|]; cbn [rbind]; [|discriminate].
  destruct (Py.get item "interactions" (JList [])) as [l|]; cbn [rbind]; [|discriminate].
  destruct (Py.iter l) as [inters|]; cbn [rbind]; [|discriminate].
  apply mapM_Forall. apply interaction_record_types.
Qed.

Lemma extract_interactions_run data w :
  extract_interactions repr_str data w
  = match extract_records repr_str data with
    | Ok df =>
        (Ok df,
         World (fs w)
               (trace w ++ [Log INFO ("Extracted " +:+ pretty (length df)
                                        +:+ " drug–gene interactions.")]))
    | Raise e => (Raise e, w)
    end.
Proof.
  unfold extract_interactions, bind, lift.
  destruct (extract_records repr_str data); reflexivity.
Qed.

(** C1: on every response of the shape the query asks for,
    [extract_interactions] returns one row per (gene, interaction) pair,
    in the order of the response; each sub-list is joined with "; " in the
    order of its entries; an absent list of interaction types gives the
    null marker, an absent list of attributes, publications or sources
    the empty string. *)
Theorem extract_interactions_one_row_per_pair (nodes : list Api.gene) (w : world) :
  (exists w', extract_interactions repr_str (Api.encode nodes) w
              = (Ok (Api.rows repr_str nodes), w') /\ fs w' = fs w)
  /\ length (Api.rows repr_str nodes) = Api.pairs nodes
  /\ (forall g d sc t ts at' pu so,
        Interaction_Types
          (Api.row_of repr_str g (Api.MkInteraction d sc (Some (t :: ts)) at' pu so))
        = Some (PyStr.join "; " (map (Api.type_text repr_str) (t :: ts))))
  /\ (forall g d sc ty l pu so,
        Interaction_Attributes
          (Api.row_of repr_str g (Api.MkInteraction d sc ty (Some l) pu so))
        = PyStr.join "; " (map (Api.attribute_text repr_str) l))
  /\ (forall g d sc ty at' l so,
        Publications_PMIDs
          (Api.row_of repr_str g (Api.MkInteraction d sc ty at' (Some l) so))
        = PyStr.join "; " (map (Api.publication_text repr_str) l))
  /\ (forall g d sc ty at' pu l,
        Sources (Api.row_of repr_str g (Api.MkInteraction d sc ty at' pu (Some l)))
        = PyStr.join "; " (map Api.source_text l))
  /\ (forall g d sc at' pu so,
        Interaction_Types
          (Api.row_of repr_str g (Api.MkInteraction d sc None at' pu so)) = None)
  /\ (forall g d sc ty pu so,
        Interaction_Attributes
          (Api.row_of repr_str g (Api.MkInteraction d sc ty None pu so)) = "")
  /\ (forall g d sc ty at' so,
        Publications_PMIDs
          (Api.row_of repr_str g (Api.MkInteraction d sc ty at' None so)) = "")
  /\ (forall g d sc ty at' pu,
        Sources (Api.row_of repr_str g (Api.MkInteraction d sc ty at' pu None)) = "").
Proof.
  split.
  { rewrite extract_interactions_run, extract_records_encode. eauto. }
  split; [apply length_rows|].
  repeat split; intros; reflexivity.
Qed.

(** C10: whatever the response, every row that [extract_interactions]
    produces has [Interaction_Types] equal to the null marker or to a
    non-empty string; a list of interaction types that is present and
    empty gives the null marker too; and on a response of the expected
    shape rows are produced. *)
Theorem interaction_types_never_empty_string (data : json) (w w' : world)
    (rows : list interaction_row) :
  extract_interactions repr_str data w = (Ok rows, w') ->
  Forall types_null_or_nonempty rows
  /\ (forall d sc at' pu so,
        interaction_types_field repr_str
          (Api.encode_interaction (Api.MkInteraction d sc (Some []) at' pu so))
        = Ok None)
  /\ (forall nodes : list Api.gene,
        extract_records repr_str (Api.encode nodes) = Ok (Api.rows repr_str nodes)
        /\ Forall types_null_or_nonempty (Api.rows repr_str nodes)).
Proof.
  intros Hrun. rewrite extract_interactions_run in Hrun.
  split; [|split].
  - destruct (extract_records repr_str data) as [df|] eqn:Hdf; [|discriminate].
    injection Hrun as <- _. eapply extract_records_types, Hdf.
  - intros. rewrite (types_field_encode repr_str (Api.MkGene None None)). reflexivity.
  - intros nodes. split; [apply extract_records_encode|].
    eapply extract_records_types, extract_records_encode.
Qed.

End FlattenClaims.

(* ===================================================================== *)
(** * Properties of the input validation *)
(* ===================================================================== *)

Lemma bind_ok {A B} (m : M A) (k : A -> M B) w a w' :
  m w = (Ok a, w') -> bind m k w = k a w'.
Proof. unfold bind. intros ->. reflexivity. Qed.

Lemma bind_raise {A B} (m : M A) (k : A -> M B) w e w' :
  m w = (Raise e, w') -> bind m k w = (Raise e, w').
Proof. unfold bind. intros ->. reflexivity. Qed.

Lemma lstrip_blank s : blank s = true -> PyStr.lstrip s = "".
Proof.
  induction s as [|a r IH]; simpl; [reflexivity|].
  intros [Ha Hr]%andb_true_iff. rewrite Ha. auto.
Qed.

Lemma lstrip_nonblank s :
  blank s = false ->
  exists a r, PyStr.lstrip s = String a r /\ PyStr.isspace a = false.
Proof.
  induction s as [|a r IH]; simpl; [discriminate|].
  destruct (PyStr.isspace a) eqn:Ha; simpl; eauto.
Qed.

Lemma rstrip_keeps_head a r :
  PyStr.isspace a = false -> PyStr.truthy (PyStr.rstrip (String a r)) = true.
Proof.
  intros Ha. simpl. rewrite Ha. destruct (PyStr.rstrip r); reflexivity.
Qed.

(** A line is kept by the filter of the source exactly when it is not
    blank. *)
Lemma truthy_strip s : PyStr.truthy (PyStr.strip s) = negb (blank s).
Proof.
  unfold PyStr.strip. destruct (blank s) eqn:Hb.
  - rewrite (lstrip_blank _ Hb). reflexivity.
  - destruct (lstrip_nonblank _ Hb) as (a & r & -> & Ha).
    apply rstrip_keeps_head, Ha.
Qed.

Lemma read_stripped_lines_spec text :
  read_stripped_lines text = nonblank_stripped_lines text.
Proof.
  unfold read_stripped_lines, nonblank_stripped_lines, file_lines.
  f_equal. apply List.filter_ext. intros l. apply truthy_strip.
Qed.

Lemma validate_input_format_run file_path expected_prefix w :
  validate_input_format file_path expected_prefix w
  = (validate_result (fs w) file_path expected_prefix, w).
Proof.
  unfold validate_input_format, validate_result, Os.read_text, bind, get_fs.
  destruct (fs w !! file_path) as [[text| |]|] eqn:Hfile; try reflexivity.
  unfold ret, check_prefix.
  destruct expected_prefix as [p|]; [|reflexivity].
  destruct (PyStr.truthy p); [|reflexivity].
  destruct (first_offending p (read_stripped_lines text)); reflexivity.
Qed.

Lemma first_offending_None p lines :
  Forall (fun l => PyStr.startswith l p = true) lines ->
  first_offending p lines = None.
Proof.
  induction 1 as [|l ls Hl _ IH]; simpl; [reflexivity|].
  rewrite Hl. exact IH.
Qed.

Lemma first_offending_Some p lines :
  Exists (fun l => PyStr.startswith l p = false) lines ->
  exists line, first_offending p lines = Some line
               /\ In line lines /\ PyStr.startswith line p = false.
Proof.
  induction 1 as [l ls Hl|l ls _ IH]; simpl.
  - rewrite Hl. eauto.
  - destruct (PyStr.startswith l p) eqn:Hs; [|eauto].
    destruct IH as (line & -> & Hin & Hline). eauto.
Qed.

Lemma append_cons a (b c : string) : String a b +:+ c = String a (b +:+ c).
Proof. reflexivity. Qed.

Lemma append_nil (c : string) : "" +:+ c = c.
Proof. reflexivity. Qed.

(** What [lstrip] and [rstrip] take away is white space, and what they
    leave has none at that end. *)
Lemma lstrip_split s : exists before, s = before +:+ PyStr.lstrip s /\ blank before = true.
Proof.
  induction s as [|a r IH]; [exists ""; split; reflexivity|].
  cbn [PyStr.lstrip]. destruct (PyStr.isspace a) eqn:Ha.
  - destruct IH as (before & Hr & Hb). exists (String a before). split.
    + rewrite append_cons. f_equal. exact Hr.
    + cbn. rewrite Ha. exact Hb.
  - exists "". split; reflexivity.
Qed.

Lemma rstrip_split s : exists after, s = PyStr.rstrip s +:+ after /\ blank after = true.
Proof.
  induction s as [|a r IH]; [exists ""; split; reflexivity|].
  destruct IH as (after & Hr & Hb). cbn [PyStr.rstrip].
  destruct (PyStr.rstrip r) as [|c r'] eqn:Hstrip.
  - rewrite append_nil in Hr. subst after. destruct (PyStr.isspace a) eqn:Ha.
    + exists (String a r). split; [reflexivity|]. cbn. rewrite Ha. exact Hb.
    + exists r. split; [reflexivity|exact Hb].
  - exists after. split; [|exact Hb]. rewrite append_cons. f_equal. exact Hr.
Qed.

Lemma rstrip_last s :
  PyStr.rstrip s = ""
  \/ exists c, last_char (PyStr.rstrip s) = Some c /\ PyStr.isspace c = false.
Proof.
  induction s as [|a r IH]; [left; reflexivity|]. cbn [PyStr.rstrip].
  destruct (PyStr.rstrip r) as [|c r'] eqn:Hstrip.
  - destruct (PyStr.isspace a) eqn:Ha; [left; reflexivity|].
    right. exists a. split; [reflexivity|exact Ha].
  - right. destruct IH as [[=]|(d & Hd & Hs)]. exists d. split; [exact Hd|exact Hs].
Qed.

Lemma rstrip_first a r :
  PyStr.isspace a = false -> first_char (PyStr.rstrip (String a r)) = Some a.
Proof.
  intros Ha. cbn [PyStr.rstrip]. rewrite Ha. destruct (PyStr.rstrip r); reflexivity.
Qed.

(** [strip] gives the line without the white space around it. *)
Lemma strip_stripped_of raw : blank raw = false -> stripped_of raw (PyStr.strip raw).
Proof.
  intros Hraw. unfold PyStr.strip.
  destruct (lstrip_split raw) as (before & Hsplit & Hbefore).
  destruct (lstrip_nonblank raw Hraw) as (c & r & Hl & Hc).
  destruct (rstrip_split (PyStr.lstrip raw)) as (after & Hrest & Hafter).
  exists before, after. split; [|split; [exact Hbefore|split; [exact Hafter|split]]].
  - rewrite <- Hrest. exact Hsplit.
  - exists c. split; [|exact Hc]. rewrite Hl. apply rstrip_first, Hc.
  - destruct (rstrip_last (PyStr.lstrip raw)) as [Hempty|Hlast]; [|exact Hlast].
    exfalso. pose proof (rstrip_first c r Hc) as Hfirst.
    rewrite <- Hl, Hempty in Hfirst. discriminate.
Qed.

(** A line has one stripped form only. *)
Lemma blank_prefix_unique (a1 a2 l1 l2 : string) c1 c2 :
  a1 +:+ l1 = a2 +:+ l2 ->
  blank a1 = true -> blank a2 = true ->
  first_char l1 = Some c1 -> PyStr.isspace c1 = false ->
  first_char l2 = Some c2 -> PyStr.isspace c2 = false ->
  l1 = l2.
Proof.
  revert a2. induction a1 as [|x a1 IH]; intros [|y a2];
    rewrite ?append_cons, ?append_nil; cbn [blank].
  - auto.
  - intros -> _ [Hy _]%andb_true_iff [= <-] Hc. rewrite Hy in Hc. discriminate.
  - intros <- [Hx _]%andb_true_iff _ _ _ [= <-] Hc. rewrite Hx in Hc. discriminate.
  - intros [= <- Heq] [_ H1]%andb_true_iff [_ H2]%andb_true_iff F1 S1 F2 S2.
    exact (IH a2 Heq H1 H2 F1 S1 F2 S2).
Qed.

Lemma last_char_cons a r c : last_char r = Some c -> last_char (String a r) = Some c.
Proof. destruct r; [discriminate|]. intros H. exact H. Qed.

(** A string that ends with a character that is not white space is not
    the beginning of a blank one. *)
Lemma blank_append_last (l b : string) c :
  last_char l = Some c -> PyStr.isspace c = false -> blank (l +:+ b) = false.
Proof.
  induction l as [|x l IH]; [discriminate|]. intros Hl Hc.
  rewrite append_cons. cbn [blank]. destruct l as [|y l].
  - injection Hl as ->. rewrite Hc. reflexivity.
  - rewrite (IH Hl Hc). apply andb_false_r.
Qed.

Lemma blank_suffix_unique (l1 l2 b1 b2 : string) c1 c2 :
  l1 +:+ b1 = l2 +:+ b2 ->
  blank b1 = true -> blank b2 = true ->
  last_char l1 = Some c1 -> PyStr.isspace c1 = false ->
  last_char l2 = Some c2 -> PyStr.isspace c2 = false ->
  l1 = l2.
Proof.
  revert l2. induction l1 as [|x l1 IH]; intros [|y l2]; try discriminate.
  rewrite !append_cons. intros [= <- Heq] B1 B2 L1 S1 L2 S2.
  f_equal. destruct l1 as [|x1 l1], l2 as [|y1 l2].
  - reflexivity.
  - exfalso. rewrite append_nil in Heq. subst b1.
    rewrite (blank_append_last (String y1 l2) b2 c2 L2 S2) in B1. discriminate.
  - exfalso. rewrite append_nil in Heq. subst b2.
    rewrite (blank_append_last (String x1 l1) b1 c1 L1 S1) in B2. discriminate.
  - apply (IH (String y1 l2) Heq B1 B2); assumption.
Qed.

Lemma stripped_of_unique raw l1 l2 : stripped_of raw l1 -> stripped_of raw l2 -> l1 = l2.
Proof.
  intros (a1 & b1 & H1 & Ba1 & Bb1 & (c1 & F1 & S1) & (d1 & L1 & T1))
         (a2 & b2 & H2 & Ba2 & Bb2 & (c2 & F2 & S2) & (d2 & L2 & T2)).
  rewrite H1 in H2.
  assert (first_char (l1 +:+ b1) = Some c1) as G1 by (destruct l1; [discriminate|exact F1]).
  assert (first_char (l2 +:+ b2) = Some c2) as G2 by (destruct l2; [discriminate|exact F2]).
  pose proof (blank_prefix_unique _ _ _ _ _ _ H2 Ba1 Ba2 G1 S1 G2 S2) as Heq.
  exact (blank_suffix_unique _ _ _ _ _ _ Heq Bb1 Bb2 L1 T1 L2 T2).
Qed.

Lemma Forall2_map_of {A B} (R : A -> B -> Prop) (f : A -> B) (l : list A) :
  (forall x, In x l -> R x (f x)) -> Forall2 R l (map f l).
Proof.
  induction l as [|x l IH]; intros HR; cbn [map]; constructor.
  - apply HR. left. reflexivity.
  - apply IH. intros y Hy. apply HR. right. exact Hy.
Qed.

Lemma nonblank_lines_stripped text :
  Forall2 stripped_of (List.filter (fun line => negb (blank line)) (file_lines text))
          (nonblank_stripped_lines text).
Proof.
  unfold nonblank_stripped_lines. apply Forall2_map_of.
  intros raw [_ Hraw]%filter_In. apply strip_stripped_of.
  apply negb_true_iff, Hraw.
Qed.

(** Iterating over a text cuts it into its lines. *)
Lemma concat_iter_lines s : String.concat "" (PyStr.iter_lines s) = s.
Proof.
  induction s as [|a r IH]; [reflexivity|]. cbn [PyStr.iter_lines].
  destruct (Ascii.eqb a PyStr.LF).
  - destruct (PyStr.iter_lines r) as [|l ls]; cbn [String.concat] in IH |- *;
      rewrite <- IH, ?append_cons, ?append_nil; reflexivity.
  - destruct (PyStr.iter_lines r) as [|l [|l' ls]]; cbn [String.concat] in IH |- *;
      rewrite <- IH, ?append_cons, ?append_nil; reflexivity.
Qed.

Lemma text_line_LF : text_line (String PyStr.LF "").
Proof.
  split; [discriminate|]. intros [|x a] b; rewrite ?append_cons, ?append_nil.
  - intros [= <-]. reflexivity.
  - intros [= _ Hb]. destruct a; discriminate.
Qed.

Lemma text_line_cons a l :
  Ascii.eqb a PyStr.LF = false -> text_line l -> text_line (String a l).
Proof.
  intros Ha [_ Hl]. split; [discriminate|].
  intros [|x p] b; rewrite ?append_cons, ?append_nil.
  - intros [= -> _]. rewrite Ascii.eqb_refl in Ha. discriminate.
  - intros [= _ Hb]. exact (Hl p b Hb).
Qed.

Lemma text_line_single a : Ascii.eqb a PyStr.LF = false -> text_line (String a "").
Proof.
  intros Ha. split; [discriminate|].
  intros [|x p] b; rewrite ?append_cons, ?append_nil.
  - intros [= -> _]. rewrite Ascii.eqb_refl in Ha. discriminate.
  - intros [= _ Hb]. destruct p; discriminate.
Qed.

Lemma iter_lines_text_lines s : Forall text_line (PyStr.iter_lines s).
Proof.
  induction s as [|a r IH]; [constructor|]. cbn [PyStr.iter_lines].
  destruct (Ascii.eqb a PyStr.LF) eqn:Ha.
  - constructor; [|exact IH]. apply Ascii.eqb_eq in Ha as ->. apply text_line_LF.
  - destruct (PyStr.iter_lines r) as [|l ls].
    + constructor; [apply text_line_single, Ha|constructor].
    + apply Forall_cons in IH as [Hl Hls].
      constructor; [apply text_line_cons; assumption|exact Hls].
Qed.

Lemma iter_lines_terminated s :
  Forall (fun l => last_char l = Some PyStr.LF) (removelast (PyStr.iter_lines s)).
Proof.
  induction s as [|a r IH]; [constructor|]. cbn [PyStr.iter_lines].
  destruct (Ascii.eqb a PyStr.LF) eqn:Ha.
  - destruct (PyStr.iter_lines r) as [|l ls]; [constructor|].
    cbn [removelast] in IH |- *. constructor; [|exact IH].
    apply Ascii.eqb_eq in Ha as ->. reflexivity.
  - destruct (PyStr.iter_lines r) as [|l [|l' ls]]; [constructor|constructor|].
    cbn [removelast] in IH |- *. apply Forall_cons in IH as [Hl Hls].
    constructor; [apply last_char_cons, Hl|exact Hls].
Qed.

Lemma file_lines_cut text : lines_of (PyStr.universal_newlines text) (file_lines text).
Proof.
  unfold lines_of, file_lines.
  split; [apply concat_iter_lines|]. split; [apply iter_lines_text_lines|].
  apply iter_lines_terminated.
Qed.

(** C4: when no prefix is given, or every non-blank stripped line starts
    with the given prefix, [validate_input_format] returns the non-blank
    lines of the file, each stripped, in the order of the file, and leaves
    the file system and the log as they were.  The lines are those the
    text (its line ends read as line feeds) is cut into at its line
    feeds; a line is left out when it is white space only; and the
    stripped form of a line is the line between its leading and its
    trailing white space, which is pinned by [stripped_of]: the result
    has one entry for each non-blank line, in order, and each entry
    begins and ends with a character that is not white space. *)
Theorem validate_input_format_returns_lines (file_path : string)
    (expected_prefix : option string) (text : string) (w : world) :
  fs w !! file_path = Some (File text) ->
  (forall p, expected_prefix = Some p ->
             Forall (fun l => PyStr.startswith l p = true)
                    (nonblank_stripped_lines text)) ->
  validate_input_format file_path expected_prefix w
  = (Ok (nonblank_stripped_lines text), w)
  /\ lines_of (PyStr.universal_newlines text) (file_lines text)
  /\ Forall2 stripped_of
             (List.filter (fun line => negb (blank line)) (file_lines text))
             (nonblank_stripped_lines text)
  /\ (forall raw l l', stripped_of raw l -> stripped_of raw l' -> l = l').
Proof.
  intros Hfile Hprefix.
  split; [|split; [apply file_lines_cut|split; [apply nonblank_lines_stripped|]]].
  - rewrite validate_input_format_run.
    unfold validate_result. rewrite Hfile, read_stripped_lines_spec.
    destruct expected_prefix as [p|]; [|reflexivity].
    destruct (PyStr.truthy p); [|reflexivity].
    rewrite (first_offending_None _ _ (Hprefix p eq_refl)). reflexivity.
  - apply stripped_of_unique.
Qed.

(* ===================================================================== *)
(** * Properties of [run_analysis] *)
(* ===================================================================== *)

Section RunFacts.
Variable E : env.
Variables circ_file mirna_file deg_file : string.
Variable debug : bool.

Local Abbreviation files := (required_files E circ_file mirna_file deg_file).
Local Abbreviation prepare := (validate_and_prepare E circ_file mirna_file deg_file).
Local Abbreviation run := (run_analysis E circ_file mirna_file deg_file debug).

Lemma require_files_run l w :
  for_each l require_file w
  = match first_missing (fs w) l with
    | None => (Ok tt, w)
    | Some p => (Raise (Exception "FileNotFoundError" ("Missing file: " +:+ p)), w)
    end.
Proof.
  induction l as [|p ps IH]; [reflexivity|].
  cbn [for_each first_missing]. unfold bind at 1.
  unfold require_file, Os.path_exists, bind, get_fs, ret.
  destruct (bool_decide (is_Some (fs w !! p))); [apply IH|reflexivity].
Qed.

Lemma first_missing_None f l :
  first_missing f l = None <-> Forall (fun p => is_Some (f !! p)) l.
Proof.
  induction l as [|p ps IH]; simpl.
  - split; [constructor|reflexivity].
  - destruct (bool_decide_reflect (is_Some (f !! p))) as [Hp|Hp].
    + rewrite IH. split; [constructor; assumption|]. intros H. inversion H; assumption.
    + split; [discriminate|]. intros H. inversion H; contradiction.
Qed.

Lemma abort_run cls msg w :
  abort debug cls msg w
  = (Raise (SystemExit 1), World (fs w) (trace w ++ abort_lines debug cls msg)).
Proof.
  unfold abort, abort_lines, bind, log, emit, when, raise, ret.
  destruct debug; simpl; rewrite <- ?app_assoc; reflexivity.
Qed.

(** The outer handler turns any exception of the body into exit 1. *)
Lemma run_analysis_raises cls msg w w1 :
  run_body E circ_file mirna_file deg_file debug w = (Raise (Exception cls msg), w1) ->
  run w = (Raise (SystemExit 1), World (fs w1) (trace w1 ++ abort_lines debug cls msg)).
Proof.
  intros Hbody. unfold run_analysis, try_except. rewrite Hbody. apply abort_run.
Qed.

Lemma run_body_prepare_raises e w w1 :
  prepare w = (Raise e, w1) ->
  run_body E circ_file mirna_file deg_file debug w = (Raise e, w1).
Proof.
  intros Hp. unfold run_body, through_drug_gene, through_ppi, through_enrich,
    through_overlap, through_predict.
  do 6 apply bind_raise. exact Hp.
Qed.

(** [validate_and_prepare] up to the reset of the directories. *)
Lemma validate_and_prepare_run w :
  prepare w
  = match validate_result (fs w) circ_file (Some "hsa_circ_") with
    | Raise e => (Raise e, w)
    | Ok c =>
        match validate_result (fs w) mirna_file (Some "hsa-miR") with
        | Raise e => (Raise e, w)
        | Ok m =>
            match validate_result (fs w) deg_file None with
            | Raise e => (Raise e, w)
            | Ok d =>
                let w1 := World (fs w) (trace w ++ [Log INFO (inputs_message c m d)]) in
                match first_missing (fs w) files with
                | Some p =>
                    (Raise (Exception "FileNotFoundError" ("Missing file: " +:+ p)), w1)
                | None => for_each ["temp"; "output"] reset_folder w1
                end
            end
        end
    end.
Proof.
  unfold validate_and_prepare.
  unfold bind at 1. rewrite validate_input_format_run.
  destruct (validate_result (fs w) circ_file (Some "hsa_circ_")) as [c|e]; [|reflexivity].
  unfold bind at 1. rewrite validate_input_format_run.
  destruct (validate_result (fs w) mirna_file (Some "hsa-miR")) as [m|e]; [|reflexivity].
  unfold bind at 1. rewrite validate_input_format_run.
  destruct (validate_result (fs w) deg_file None) as [d|e]; [|reflexivity].
  unfold bind at 1. unfold log, emit. cbn beta iota zeta.
  unfold bind at 1. rewrite require_files_run. cbn [fs].
  destruct (first_missing (fs w) files); reflexivity.
Qed.

Lemma validate_result_raises f file_path expected_prefix e :
  validate_result f file_path expected_prefix = Raise e ->
  exists cls msg, e = Exception cls msg.
Proof.
  unfold validate_result.
  destruct (f !! file_path) as [[text| |]|]; try (intros [= <-]; eauto).
  destruct expected_prefix as [p|]; [|discriminate].
  destruct (PyStr.truthy p); [|discriminate].
  destruct (first_offending p (read_stripped_lines text)); [|discriminate].
  intros [= <-]. eauto.
Qed.

(** A failed validation or a missing file stops [validate_and_prepare]
    with the file system as it was and at most the line that counts the
    inputs added to the log. *)
Lemma validate_and_prepare_not_ready w :
  ~ inputs_ready E circ_file mirna_file deg_file (fs w) ->
  exists cls msg w1,
    prepare w = (Raise (Exception cls msg), w1)
    /\ fs w1 = fs w
    /\ Forall (fun e => is_call e = false) (drop (length (trace w)) (trace w1))
    /\ take (length (trace w)) (trace w1) = trace w.
Proof.
  intros Hnot. rewrite validate_and_prepare_run.
  destruct (validate_result (fs w) circ_file (Some "hsa_circ_")) as [c|e] eqn:Hc.
  2:{ destruct (validate_result_raises _ _ _ _ Hc) as (cls & msg & ->).
      exists cls, msg, w. rewrite drop_all, take_ge by lia. auto. }
  destruct (validate_result (fs w) mirna_file (Some "hsa-miR")) as [m|e] eqn:Hm.
  2:{ destruct (validate_result_raises _ _ _ _ Hm) as (cls & msg & ->).
      exists cls, msg, w. rewrite drop_all, take_ge by lia. auto. }
  destruct (validate_result (fs w) deg_file None) as [d|e] eqn:Hd.
  2:{ destruct (validate_result_raises _ _ _ _ Hd) as (cls & msg & ->).
      exists cls, msg, w. rewrite drop_all, take_ge by lia. auto. }
  cbn zeta.
  destruct (first_missing (fs w) files) as [p|] eqn:Hmiss.
  - eexists _, _, _. split; [reflexivity|]. cbn [fs trace].
    rewrite drop_app_length, take_app_length.
    repeat split. repeat constructor.
  - exfalso. apply Hnot. unfold inputs_ready.
    apply first_missing_None in Hmiss. eauto 10.
Qed.

Lemma under_self p : Os.under p p = true.
Proof. unfold Os.under. rewrite bool_decide_eq_true_2; reflexivity. Qed.

Lemma reset_folder_run folder w :
  dir_or_absent (fs w) folder ->
  reset_folder folder w = (Ok tt, World (reset_fs folder (fs w)) (trace w)).
Proof.
  unfold reset_folder, reset_fs, Os.path_exists, Os.rmtree, Os.makedirs, bind,
    get_fs, set_fs, ret, when.
  intros [Hf|Hf]; rewrite Hf; cbn.
  - rewrite Hf. reflexivity.
  - rewrite Hf. cbn.
    rewrite (proj2 (map_lookup_filter_None _ (fs w) folder)); [reflexivity|].
    right. intros x _. cbn. rewrite under_self. discriminate.
Qed.

Lemma reset_fs_folder folder f : reset_fs folder f !! folder = Some Dir.
Proof.
  unfold reset_fs. destruct (f !! folder) as [[| |]|]; apply lookup_insert_eq.
Qed.

Lemma reset_fs_outside folder f k :
  Os.under folder k = false -> reset_fs folder f !! k = f !! k.
Proof.
  intros Hk. assert (folder <> k) as Hne.
  { intros ->. rewrite under_self in Hk. discriminate. }
  unfold reset_fs.
  destruct (f !! folder) as [[| |]|]; rewrite lookup_insert_ne by exact Hne;
    try reflexivity.
  destruct (f !! k) as [x|] eqn:Hfk.
  - apply map_lookup_filter_Some. split; [exact Hfk|exact Hk].
  - apply map_lookup_filter_None. left. exact Hfk.
Qed.

Lemma reset_fs_inside folder f k :
  f !! folder = Some Dir -> Os.under folder k = true -> k <> folder ->
  reset_fs folder f !! k = None.
Proof.
  intros Hf Hk Hne. unfold reset_fs. rewrite Hf.
  rewrite lookup_insert_ne by congruence.
  apply map_lookup_filter_None. right. intros x _. cbn. rewrite Hk. discriminate.
Qed.

Lemma reset_folders_run w :
  dir_or_absent (fs w) "temp" -> dir_or_absent (fs w) "output" ->
  for_each ["temp"; "output"] reset_folder w
  = (Ok tt, World (reset_fs "output" (reset_fs "temp" (fs w))) (trace w)).
Proof.
  intros Ht Ho. cbn [for_each]. unfold bind at 1.
  rewrite (reset_folder_run _ _ Ht). unfold bind at 1.
  rewrite reset_folder_run; [reflexivity|].
  unfold dir_or_absent. cbn [fs]. rewrite reset_fs_outside by reflexivity. exact Ho.
Qed.

Lemma run_not_ready w :
  ~ inputs_ready E circ_file mirna_file deg_file (fs w) ->
  exists w', run w = (Raise (SystemExit 1), w') /\ aborted_before_stages w w'.
Proof.
  intros Hnot.
  destruct (validate_and_prepare_not_ready w Hnot)
    as (cls & msg & w1 & Hp & Hfs & Hcalls & Htake).
  eexists. split.
  - apply run_analysis_raises, run_body_prepare_raises, Hp.
  - unfold aborted_before_stages. cbn [fs trace]. split; [exact Hfs|].
    assert (length (trace w) <= length (trace w1)) as Hlen.
    { rewrite <- Htake at 1. rewrite length_take. lia. }
    split.
    + rewrite take_app_le by exact Hlen. exact Htake.
    + rewrite drop_app_le by exact Hlen. apply Forall_app. split; [exact Hcalls|].
      unfold abort_lines. destruct debug; repeat constructor.
Qed.

(** C9: the two working directories are reset only when all three inputs
    have passed validation and all six required files exist: otherwise
    the run ends with exit status 1 and the file system, the two
    directories included, is as it was; and when the inputs are ready the
    directories are emptied and recreated while every path outside them
    is kept. *)
Theorem working_dirs_reset_only_when_ready (w : world) :
  (~ inputs_ready E circ_file mirna_file deg_file (fs w) ->
   (exists e w1, prepare w = (Raise e, w1) /\ fs w1 = fs w)
   /\ exists w', run w = (Raise (SystemExit 1), w')
                 /\ exit_status (Raise (SystemExit 1)) = 1%Z
                 /\ fs w' = fs w)
  /\ (forall r w1, prepare w = (r, w1) -> fs w1 <> fs w -> inputs_ready E circ_file mirna_file deg_file (fs w))
  /\ (inputs_ready E circ_file mirna_file deg_file (fs w) ->
      dir_or_absent (fs w) "temp" -> dir_or_absent (fs w) "output" ->
      exists w1, prepare w = (Ok tt, w1)
                 /\ fs w1 !! "temp" = Some Dir
                 /\ fs w1 !! "output" = Some Dir
                 /\ (forall k, Os.under "temp" k = false -> Os.under "output" k = false ->
                               fs w1 !! k = fs w !! k)
                 /\ (forall k, fs w !! "temp" = Some Dir -> Os.under "temp" k = true ->
                               k <> "temp" -> fs w1 !! k = None)
                 /\ (forall k, fs w !! "output" = Some Dir -> Os.under "output" k = true ->
                               k <> "output" -> fs w1 !! k = None)).
Proof.
  split; [|split].
  - intros Hnot. split.
    + destruct (validate_and_prepare_not_ready w Hnot) as (cls & msg & w1 & Hp & Hfs & _).
      eauto.
    + destruct (run_not_ready w Hnot) as (w' & Hrun & Hfs & _). eauto.
  - intros r w1 Hp Hchanged.
    rewrite validate_and_prepare_run in Hp.
    destruct (validate_result (fs w) circ_file (Some "hsa_circ_")) as [c|e] eqn:Hc;
      [|injection Hp as _ <-; contradiction].
    destruct (validate_result (fs w) mirna_file (Some "hsa-miR")) as [m|e] eqn:Hm;
      [|injection Hp as _ <-; contradiction].
    destruct (validate_result (fs w) deg_file None) as [d|e] eqn:Hd;
      [|injection Hp as _ <-; contradiction].
    cbn zeta in Hp.
    destruct (first_missing (fs w) files) as [p|] eqn:Hmiss;
      [injection Hp as _ <-; contradiction|].
    apply first_missing_None in Hmiss. unfold inputs_ready. eauto 10.
  - intros (( c & Hc) & (m & Hm) & (d & Hd) & Hall) Ht Ho.
    rewrite validate_and_prepare_run, Hc, Hm, Hd. cbn zeta.
    rewrite (proj2 (first_missing_None _ _) Hall).
    rewrite reset_folders_run by assumption.
    eexists. split; [reflexivity|]. cbn [fs].
    split; [rewrite reset_fs_outside by reflexivity; apply reset_fs_folder|].
    split; [apply reset_fs_folder|].
    split; [intros k Hkt Hko; rewrite !reset_fs_outside by assumption; reflexivity|].
    split.
    + intros k Hdir Hk Hne.
      destruct (Os.under "output" k) eqn:Hko.
      * destruct (decide (k = "output")) as [->|Hne']; [discriminate Hk|].
        destruct Ho as [Ho|Ho].
        -- unfold reset_fs at 1. rewrite reset_fs_outside by reflexivity. rewrite Ho.
           rewrite lookup_insert_ne by congruence. apply reset_fs_inside; assumption.
        -- apply reset_fs_inside; [|assumption..].
           rewrite reset_fs_outside by reflexivity. exact Ho.
      * rewrite reset_fs_outside by assumption. apply reset_fs_inside; assumption.
    + intros k Hdir Hk Hne. apply reset_fs_inside; [|assumption..].
      rewrite reset_fs_outside by reflexivity. exact Hdir.
Qed.

End RunFacts.

Section ValidationAbort.
Variable E : env.
Variables circ_file mirna_file deg_file : string.
Variable debug : bool.

Local Abbreviation prepare := (validate_and_prepare E circ_file mirna_file deg_file).
Local Abbreviation run := (run_analysis E circ_file mirna_file deg_file debug).

Lemma aborted_with_lines w cls msg :
  aborted_before_stages w (World (fs w) (trace w ++ abort_lines debug cls msg)).
Proof.
  unfold aborted_before_stages. cbn [fs trace].
  rewrite take_app_length, drop_app_length. repeat split.
  unfold abort_lines. destruct debug; repeat constructor.
Qed.

Lemma run_prepare_raises w cls msg :
  prepare w = (Raise (Exception cls msg), w) ->
  run w = (Raise (SystemExit 1), World (fs w) (trace w ++ abort_lines debug cls msg)).
Proof.
  intros Hp. apply (run_analysis_raises E circ_file mirna_file deg_file debug cls msg w w).
  apply run_body_prepare_raises, Hp.
Qed.

Lemma validate_result_offending f file_path p text :
  f !! file_path = Some (File text) ->
  PyStr.truthy p = true ->
  Exists (fun l => PyStr.startswith l p = false) (nonblank_stripped_lines text) ->
  exists line,
    In line (nonblank_stripped_lines text)
    /\ PyStr.startswith line p = false
    /\ first_offending p (nonblank_stripped_lines text) = Some line
    /\ validate_result f file_path (Some p)
       = Raise (Exception "ValueError" (invalid_id_message file_path line)).
Proof.
  intros Hfile Hp Hex.
  destruct (first_offending_Some _ _ Hex) as (line & Hfirst & Hin & Hline).
  exists line. repeat split; try assumption.
  unfold validate_result. rewrite Hfile, read_stripped_lines_spec, Hp, Hfirst.
  reflexivity.
Qed.

(** C3: when some non-blank stripped line of an input file does not
    start with the required prefix, validation raises a [ValueError]
    whose message holds the path of that file and the first such line;
    for the circRNA and the miRNA file of a run this ends the run with
    exit status 1 before any stage is called, the error line naming the
    file and the line (for the miRNA file, when the circRNA file passed
    validation before it). *)
Theorem invalid_prefix_aborts_run (file_path p text : string) (w : world) :
  fs w !! file_path = Some (File text) ->
  Exists (fun l => PyStr.startswith l p = false) (nonblank_stripped_lines text) ->
  exists line,
    In line (nonblank_stripped_lines text)
    /\ PyStr.startswith line p = false
    /\ validate_input_format file_path (Some p) w
       = (Raise (Exception "ValueError"
                   ("Invalid ID format in " +:+ file_path +:+ ": '" +:+ line +:+ "'")), w)
    /\ ((file_path = circ_file /\ p = "hsa_circ_")
        \/ (file_path = mirna_file /\ p = "hsa-miR") ->
        exists w',
          run w = (Raise (SystemExit 1), w')
          /\ exit_status (Raise (SystemExit 1)) = 1%Z
          /\ aborted_before_stages w w'
          /\ ((file_path = circ_file /\ p = "hsa_circ_")
              \/ (exists ids, validate_result (fs w) circ_file (Some "hsa_circ_") = Ok ids) ->
              trace w'
              = (trace w ++ abort_lines debug "ValueError"
                              (invalid_id_message file_path line))%list)).
Proof.
  intros Hfile Hex.
  assert (PyStr.truthy p = true) as Hp.
  { destruct p; [|reflexivity]. exfalso.
    induction Hex as [l ls Hl|l ls _ IH]; [|exact IH].
    unfold PyStr.startswith in Hl. destruct l; discriminate Hl. }
  destruct (validate_result_offending (fs w) _ _ _ Hfile Hp Hex)
    as (line & Hin & Hline & _ & Hres).
  exists line. split; [exact Hin|]. split; [exact Hline|]. split.
  { rewrite validate_input_format_run, Hres. reflexivity. }
  intros [[-> ->]|[-> ->]].
  - assert (prepare w
            = (Raise (Exception "ValueError" (invalid_id_message circ_file line)), w))
      as Hprep.
    { rewrite validate_and_prepare_run, Hres. reflexivity. }
    eexists. split; [apply run_prepare_raises, Hprep|].
    split; [reflexivity|]. split; [apply aborted_with_lines|]. reflexivity.
  - destruct (validate_result (fs w) circ_file (Some "hsa_circ_")) as [c|e] eqn:Hc.
    + assert (prepare w
              = (Raise (Exception "ValueError" (invalid_id_message mirna_file line)), w))
        as Hprep.
      { rewrite validate_and_prepare_run, Hc, Hres. reflexivity. }
      eexists. split; [apply run_prepare_raises, Hprep|].
      split; [reflexivity|]. split; [apply aborted_with_lines|]. reflexivity.
    + destruct (validate_result_raises _ _ _ _ Hc) as (cls & msg & ->).
      assert (prepare w = (Raise (Exception cls msg), w)) as Hprep.
      { rewrite validate_and_prepare_run, Hc. reflexivity. }
      eexists. split; [apply run_prepare_raises, Hprep|].
      split; [reflexivity|]. split; [apply aborted_with_lines|].
      intros [[_ Hp']|[ids Hids]]; [discriminate Hp'|discriminate Hids].
Qed.

End ValidationAbort.

Section StagePolicy.
Variable E : env.
Variables circ_file mirna_file deg_file : string.
Variable debug : bool.

Local Abbreviation prepare := (validate_and_prepare E circ_file mirna_file deg_file).
Local Abbreviation run := (run_analysis E circ_file mirna_file deg_file debug).
Local Abbreviation predict := (predict_stage E circ_file mirna_file deg_file).
Local Abbreviation to_overlap := (through_overlap E circ_file mirna_file deg_file debug).
Local Abbreviation to_enrich := (through_enrich E circ_file mirna_file deg_file debug).
Local Abbreviation to_ppi := (through_ppi E circ_file mirna_file deg_file debug).

Lemma call_run {A} (f : extfn) (oracle : filesystem -> outcome A * filesystem) w :
  call f oracle w
  = match oracle (fs w) with
    | (Returns a, f') => (Ok a, World f' (trace w ++ [Call f]))
    | (Throws cls msg, f') => (Raise (Exception cls msg), World f' (trace w ++ [Call f]))
    end.
Proof.
  unfold call, bind, emit, get_fs, set_fs, of_outcome, ret, raise. cbn [fs trace].
  destruct (oracle (fs w)) as [[a|cls msg] f']; reflexivity.
Qed.

Lemma construct_network_stage_run p w :
  construct_network_stage E debug p w
  = let t := trace w ++ [Log INFO rule;
                         Log INFO "[STEP 2.5] Constructing circRNA–miRNA–mRNA regulatory network...";
                         Call construct_network] in
    match run_construct_network E (pipe p) (strong p) (allstrong p) (fs w) with
    | (Returns None, f') =>
        (Ok tt, World f' (t ++ [Log WARNING
           "[WARN] ⚠ Network construction returned no graph (missing files?)"]))
    | (Returns (Some (nodes, edges)), f') =>
        (Ok tt, World f' (t ++ [Log INFO
           ("[INFO] Regulatory network constructed: nodes=" +:+ pretty nodes
              +:+ " edges=" +:+ pretty edges)]))
    | (Throws cls msg, f') =>
        (Ok tt, World f' (t ++ skip_lines debug "[WARN] Network construction failed: " cls msg))
    end.
Proof.
  unfold construct_network_stage, skip_lines.
  unfold bind at 1. unfold log at 1, emit at 1. cbn beta iota.
  unfold bind at 1. unfold log at 1, emit at 1. cbn beta iota.
  unfold try_except. unfold bind at 1. rewrite call_run. cbn [fs trace].
  rewrite <- !app_assoc. cbn [app].
  destruct (run_construct_network E (pipe p) (strong p) (allstrong p) (fs w))
    as [[[[nodes edges]|]|cls msg] f'].
  - unfold log, emit. cbn [fs trace]. rewrite <- !app_assoc. reflexivity.
  - unfold log, emit. cbn [fs trace]. rewrite <- !app_assoc. reflexivity.
  - unfold bind, log, emit, when, ret. cbn [fs trace].
    destruct debug; cbn [fs trace]; rewrite <- !app_assoc; reflexivity.
Qed.

Lemma extract_overlap_stage_run p w :
  extract_overlap_stage E debug p w
  = let t := trace w ++ [Call extract_overlapping_genes] in
    match run_extract_overlapping_genes E (pipe p) (fs w) with
    | (Returns g, f') => (Ok (from_option id [] g), World f' t)
    | (Throws cls msg, f') =>
        (Ok [], World f' (t ++ skip_lines debug "[WARN] Failed to extract overlapping genes: "
                                 cls msg))
    end.
Proof.
  unfold extract_overlap_stage, skip_lines, try_except.
  unfold bind at 1. rewrite call_run.
  destruct (run_extract_overlapping_genes E (pipe p) (fs w)) as [[g|cls msg] f'].
  - reflexivity.
  - unfold bind, log, emit, when, ret. cbn [fs trace].
    destruct debug; cbn [fs trace]; rewrite <- !app_assoc; reflexivity.
Qed.

Lemma run_through_drug_gene_raises cls msg w w2 :
  through_drug_gene E circ_file mirna_file deg_file debug w
    = (Raise (Exception cls msg), w2) ->
  run w = (Raise (SystemExit 1), World (fs w2) (trace w2 ++ abort_lines debug cls msg)).
Proof.
  intros H. apply run_analysis_raises. unfold run_body. apply bind_raise, H.
Qed.

Lemma stage_raises {A} (before : M A) (stage : M unit) w v w1 e w2 :
  before w = (Ok v, w1) -> stage w1 = (Raise e, w2) ->
  (x <- before ;; stage ;;; ret x) w = (Raise e, w2).
Proof.
  intros Hb Hs. rewrite (bind_ok _ _ _ _ _ Hb). apply bind_raise, Hs.
Qed.

(** C2 as the code has it: an exception of the collaborator is caught
    inside the Construct-Network stage and inside the Extract-Overlap
    stage, logged as a warning (with the stack trace under the debug
    flag), and the stage returns, so the run goes on; an exception that
    leaves the Predict, Enrich, PPI or Drug-Gene stage reaches the outer
    handler, which logs the error and ends the run with exit status 1,
    nothing after that stage being run. *)
Theorem stage_exceptions_skip_or_abort :
  (forall p w, exists w',
      construct_network_stage E debug p w = (Ok tt, w')
      /\ forall cls msg f',
           run_construct_network E (pipe p) (strong p) (allstrong p) (fs w)
             = (Throws cls msg, f') ->
           w' = World f'
                  (trace w
                   ++ [Log INFO rule;
                       Log INFO "[STEP 2.5] Constructing circRNA–miRNA–mRNA regulatory network...";
                       Call construct_network]
                   ++ skip_lines debug "[WARN] Network construction failed: " cls msg))
  /\ (forall p w, exists genes w',
        extract_overlap_stage E debug p w = (Ok genes, w')
        /\ forall cls msg f',
             run_extract_overlapping_genes E (pipe p) (fs w) = (Throws cls msg, f') ->
             genes = []
             /\ w' = World f'
                      (trace w ++ [Call extract_overlapping_genes]
                       ++ skip_lines debug "[WARN] Failed to extract overlapping genes: "
                            cls msg))
  /\ (forall w w1 w2 cls msg,
        prepare w = (Ok tt, w1) ->
        predict w1 = (Raise (Exception cls msg), w2) ->
        run w = (Raise (SystemExit 1),
                 World (fs w2) (trace w2 ++ abort_lines debug cls msg)))
  /\ (forall w v w1 w2 cls msg,
        to_overlap w = (Ok v, w1) ->
        enrich_stage E w1 = (Raise (Exception cls msg), w2) ->
        run w = (Raise (SystemExit 1),
                 World (fs w2) (trace w2 ++ abort_lines debug cls msg)))
  /\ (forall w v w1 w2 cls msg,
        to_enrich w = (Ok v, w1) ->
        ppi_stage E w1 = (Raise (Exception cls msg), w2) ->
        run w = (Raise (SystemExit 1),
                 World (fs w2) (trace w2 ++ abort_lines debug cls msg)))
  /\ (forall w v w1 w2 cls msg,
        to_ppi w = (Ok v, w1) ->
        drug_gene_stage E w1 = (Raise (Exception cls msg), w2) ->
        run w = (Raise (SystemExit 1),
                 World (fs w2) (trace w2 ++ abort_lines debug cls msg))).
Proof.
  split; [|split; [|split; [|split; [|split]]]].
  - intros p w. rewrite construct_network_stage_run. cbn zeta.
    destruct (run_construct_network E (pipe p) (strong p) (allstrong p) (fs w))
      as [[[[nodes edges]|]|cls msg] f']; eexists; (split; [reflexivity|]);
      intros cls' msg' f'' [= ? ? ?]; subst.
    rewrite <- app_assoc. reflexivity.
  - intros p w. rewrite extract_overlap_stage_run. cbn zeta.
    destruct (run_extract_overlapping_genes E (pipe p) (fs w)) as [[g|cls msg] f'];
      eexists _, _; (split; [reflexivity|]);
      intros cls' msg' f'' [= ? ? ?]; subst.
    rewrite <- app_assoc. split; reflexivity.
  - intros w w1 w2 cls msg Hp Hs. apply run_through_drug_gene_raises.
    unfold through_drug_gene, through_ppi, through_enrich, through_overlap.
    do 4 apply bind_raise. unfold through_predict.
    rewrite (bind_ok _ _ _ _ _ Hp). exact Hs.
  - intros w v w1 w2 cls msg Hb Hs. apply run_through_drug_gene_raises.
    unfold through_drug_gene, through_ppi. do 2 apply bind_raise.
    exact (stage_raises _ _ _ _ _ _ _ Hb Hs).
  - intros w v w1 w2 cls msg Hb Hs. apply run_through_drug_gene_raises.
    unfold through_drug_gene. apply bind_raise.
    exact (stage_raises _ _ _ _ _ _ _ Hb Hs).
  - intros w v w1 w2 cls msg Hb Hs. apply run_through_drug_gene_raises.
    exact (stage_raises _ _ _ _ _ _ _ Hb Hs).
Qed.

End StagePolicy.

(* ===================================================================== *)
(** * Properties of the drug-gene stage *)
(* ===================================================================== *)

Section UniqueFacts.
Context {K : Type} `{EqDecision K}.

Lemma elem_of_unique_from (seen l : list K) x :
  x ∈ Pd.unique_from seen l <-> x ∈ l /\ x ∉ seen.
Proof.
  revert seen. induction l as [|y r IH]; intros seen; simpl.
  - split; [intros Hx; inversion Hx|intros [Hx _]; inversion Hx].
  - destruct (bool_decide_reflect (y ∈ seen)) as [Hy|Hy].
    + rewrite IH. rewrite elem_of_cons. split; [tauto|].
      intros [[->|Hx] Hn]; [contradiction|tauto].
    + rewrite !elem_of_cons, IH, elem_of_cons. split.
      * intros [->|[Hx Hn]]; [tauto|]. split; [tauto|]. tauto.
      * intros [[->|Hx] Hn]; [tauto|].
        destruct (decide (x = y)) as [->|Hne]; [tauto|]. right. tauto.
Qed.

Lemma NoDup_unique_from (seen l : list K) : NoDup (Pd.unique_from seen l).
Proof.
  revert seen. induction l as [|y r IH]; intros seen; simpl; [constructor|].
  destruct (bool_decide (y ∈ seen)); [apply IH|].
  constructor; [|apply IH].
  rewrite elem_of_unique_from, elem_of_cons. tauto.
Qed.

Lemma elem_of_unique (l : list K) x : x ∈ Pd.unique l <-> x ∈ l.
Proof.
  unfold Pd.unique. rewrite elem_of_unique_from. split; [tauto|].
  intros Hx. split; [exact Hx|]. intros Hn. inversion Hn.
Qed.

Lemma NoDup_unique (l : list K) : NoDup (Pd.unique l).
Proof. apply NoDup_unique_from. Qed.

End UniqueFacts.

Lemma elem_of_dropna {A} (l : list (option A)) x : x ∈ Pd.dropna l <-> Some x ∈ l.
Proof.
  unfold Pd.dropna. rewrite list_elem_of_omap. split.
  - intros (o & Ho & Hx). simpl in Hx. subst o. exact Ho.
  - intros Hx. exists (Some x). split; [exact Hx|reflexivity].
Qed.

Section StageFacts.
Variable E : env.

Lemma load_gene_names_run file_path w :
  DrugGene.load_gene_names E file_path w
  = match run_read_csv E file_path (fs w) with
    | Throws cls msg =>
        (Ok [], World (fs w)
                      (trace w ++ [Call read_csv;
                                   Log ERROR ("Failed to read input file: " +:+ msg)]))
    | Returns df =>
        match DrugGene.column "Gene" df with
        | None =>
            (Ok [], World (fs w)
                          (trace w ++ [Call read_csv;
                                       Log ERROR ("Failed to read input file: "
                                                    +:+ missing_gene_column)]))
        | Some cells =>
            let genes := Pd.unique (Pd.dropna cells) in
            (Ok genes,
             World (fs w)
                   (trace w ++ [Call read_csv;
                                Log INFO ("Loaded " +:+ pretty (length genes)
                                            +:+ " unique genes.")]))
        end
    end.
Proof.
  unfold DrugGene.load_gene_names, try_except. unfold bind at 1. rewrite call_run.
  destruct (run_read_csv E file_path (fs w)) as [df|cls msg].
  - destruct (DrugGene.column "Gene" df) as [cells|].
    + unfold bind, log, emit, ret. cbn [fs trace]. rewrite <- app_assoc. reflexivity.
    + unfold raise, bind, log, emit, ret. cbn [fs trace]. rewrite <- app_assoc.
      reflexivity.
  - unfold bind, log, emit, ret. cbn [fs trace]. rewrite <- app_assoc. reflexivity.
Qed.

(** C7: [load_gene_names] never raises and leaves the file system as it
    was; when the CSV cannot be read or has no "Gene" column it logs an
    error and returns the empty list; otherwise it returns the non-null
    cells of the column, each once. *)
Theorem load_gene_names_never_raises (file_path : string) (w : world) :
  exists genes w',
    DrugGene.load_gene_names E file_path w = (Ok genes, w')
    /\ fs w' = fs w
    /\ NoDup genes
    /\ (forall cls msg,
          run_read_csv E file_path (fs w) = Throws cls msg ->
          genes = []
          /\ trace w' = trace w ++ [Call read_csv;
                                    Log ERROR ("Failed to read input file: " +:+ msg)])
    /\ (forall df,
          run_read_csv E file_path (fs w) = Returns df ->
          DrugGene.column "Gene" df = None ->
          genes = []
          /\ trace w' = trace w ++ [Call read_csv;
                                    Log ERROR ("Failed to read input file: "
                                                 +:+ "CSV is missing a 'Gene' column.")])
    /\ (forall df cells,
          run_read_csv E file_path (fs w) = Returns df ->
          DrugGene.column "Gene" df = Some cells ->
          forall g, g ∈ genes <-> Some g ∈ cells).
Proof.
  rewrite load_gene_names_run.
  destruct (run_read_csv E file_path (fs w)) as [df|cls msg] eqn:Hread.
  - destruct (DrugGene.column "Gene" df) as [cells|] eqn:Hcol.
    + eexists _, _. split; [reflexivity|]. split; [reflexivity|].
      split; [apply NoDup_unique|].
      split; [discriminate|]. split; [intros df' [= <-] Hcol'; congruence|].
      intros df' cells' [= <-] Hcol' g.
      assert (cells' = cells) as -> by congruence.
      rewrite elem_of_unique. apply elem_of_dropna.
    + eexists _, _. split; [reflexivity|]. split; [reflexivity|].
      split; [constructor|].
      split; [discriminate|]. split; [intros; split; reflexivity|].
      intros df' cells' [= <-] Hcol'. congruence.
  - eexists _, _. split; [reflexivity|]. split; [reflexivity|].
    split; [constructor|].
    split; [intros ? ? [= <- <-]; split; reflexivity|].
    split; discriminate.
Qed.

End StageFacts.

Section StageClaims.
Variable E : env.

Lemma run_pipeline_start c w :
  DrugGene.run_pipeline E c w
  = match DrugGene.load_gene_names E (DrugGene.INPUT_FILE c)
            (World (fs w) (trace w ++ [started])) with
    | (Ok [], w1) =>
        (Ok tt, World (fs w1) (trace w1 ++ [Log WARNING "No valid gene names. Exiting."]))
    | (Ok genes, w1) =>
        (log INFO ("Querying DGIdb for " +:+ pretty (length genes) +:+ " genes...") ;;;
         data <- DrugGene.query_dgidb E genes ;;
         if negb (truthy data) then log WARNING "No interaction data retrieved."
         else
           df <- extract_interactions (repr_str E) data ;;
           match df with
           | [] => log WARNING "No interactions to process."
           | _ =>
               DrugGene.export_full_csv E c df ;;;
               DrugGene.draw_stacked_bar E c df ;;;
               log INFO ("Pipeline completed in " +:+ elapsed_text E +:+ ".")
           end) w1
    | (Raise e, w1) => (Raise e, w1)
    end.
Proof.
  unfold DrugGene.run_pipeline. unfold bind at 1. unfold log at 1, emit at 1.
  cbn beta iota. unfold bind at 1. fold started.
  destruct (DrugGene.load_gene_names E (DrugGene.INPUT_FILE c)
              (World (fs w) (trace w ++ [started]))) as [[[|g gs]|e] w1]; reflexivity.
Qed.

(** C8: when [load_gene_names] gives the empty list, [run_pipeline]
    logs the warning and returns; between its start and its end the log
    holds no request to the endpoint, and the file system is as it
    was. *)
Theorem empty_gene_list_sends_no_request (c : DrugGene.config) (w w1 : world) :
  DrugGene.load_gene_names E (DrugGene.INPUT_FILE c)
    (World (fs w) (trace w ++ [started])) = (Ok [], w1) ->
  exists added,
    DrugGene.run_pipeline E c w
    = (Ok tt, World (fs w) (trace w ++ added))
    /\ last added = Some (Log WARNING "No valid gene names. Exiting.")
    /\ forallb (fun e => negb (is_request e)) added = true.
Proof.
  intros Hload. rewrite run_pipeline_start, Hload.
  rewrite load_gene_names_run in Hload. cbn [fs trace] in Hload.
  destruct (run_read_csv E (DrugGene.INPUT_FILE c) (fs w)) as [df|cls msg].
  - destruct (DrugGene.column "Gene" df) as [cells|];
      [injection Hload as _ <-|injection Hload as <-];
      cbn [fs trace]; rewrite <- !app_assoc;
      eexists; (split; [reflexivity|]); split; reflexivity.
  - injection Hload as <-. cbn [fs trace]. rewrite <- !app_assoc.
    eexists. split; [reflexivity|]. split; reflexivity.
Qed.

Lemma query_dgidb_error_status genes r w :
  http_post E DrugGene.dgidb_url genes = Returns r ->
  status_code r <> 200%Z ->
  DrugGene.query_dgidb E genes w
  = (Ok (JList []),
     World (fs w)
           (trace w ++ [HttpPost DrugGene.dgidb_url genes;
                        Log ERROR ("DGIdb API error (" +:+ pretty (status_code r)
                                     +:+ "): " +:+ text r)])).
Proof.
  intros Hpost Hstatus. unfold DrugGene.query_dgidb, try_except.
  unfold bind at 1. unfold emit at 1. cbn beta iota.
  unfold bind at 1. rewrite Hpost. cbn [of_outcome]. unfold ret at 1.
  apply Z.eqb_neq in Hstatus. rewrite Hstatus. cbn [negb].
  unfold bind, log, emit, ret. cbn [fs trace]. rewrite <- app_assoc. reflexivity.
Qed.


End StageClaims.

Section ErrorStatusRun.
Variable E : env.
Variables circ_file mirna_file deg_file : string.
Variable debug : bool.

Local Abbreviation run := (run_analysis E circ_file mirna_file deg_file debug).
Local Abbreviation to_ppi := (through_ppi E circ_file mirna_file deg_file debug).



End ErrorStatusRun.

(* ===================================================================== *)
(** * Properties of the data behind the stacked bar chart *)
(* ===================================================================== *)

Section KeyFacts.
Context {K : Type} `{EqDecision K}.
Variable leb : K -> K -> bool.

Lemma insert_sorted_perm x (l : list K) : Pd.insert_sorted leb x l ≡ₚ x :: l.
Proof.
  induction l as [|y r IH]; simpl; [reflexivity|].
  destruct (leb x y); [reflexivity|].
  rewrite IH. apply Permutation_swap.
Qed.

Lemma sort_perm (l : list K) : Pd.sort leb l ≡ₚ l.
Proof.
  induction l as [|x r IH]; simpl; [reflexivity|].
  rewrite insert_sorted_perm, IH. reflexivity.
Qed.

Lemma group_keys_perm (l : list K) : Pd.group_keys leb l ≡ₚ Pd.unique l.
Proof. apply sort_perm. Qed.

Lemma elem_of_group_keys (l : list K) x : x ∈ Pd.group_keys leb l <-> x ∈ l.
Proof. rewrite group_keys_perm. apply elem_of_unique. Qed.

Lemma NoDup_group_keys (l : list K) : NoDup (Pd.group_keys leb l).
Proof. rewrite group_keys_perm. apply NoDup_unique. Qed.

End KeyFacts.

Section SortedKeys.
Context {K : Type}.
Variable leb : K -> K -> bool.
Hypothesis leb_total : forall x y, leb x y = true \/ leb y x = true.
Hypothesis leb_trans : forall x y z, leb x y = true -> leb y z = true -> leb x z = true.

Local Abbreviation ascending := (StronglySorted (fun a b => leb a b = true)).

Lemma insert_sorted_ascending x (l : list K) :
  ascending l -> ascending (Pd.insert_sorted leb x l).
Proof.
  induction 1 as [|y r Hs IH Hall]; cbn [Pd.insert_sorted]; [repeat constructor|].
  destruct (leb x y) eqn:Hxy.
  - constructor; [constructor; assumption|].
    constructor; [exact Hxy|].
    eapply List.Forall_impl; [|exact Hall]. intros z Hz. exact (leb_trans _ _ _ Hxy Hz).
  - constructor; [exact IH|].
    rewrite List.Forall_forall in *. intros z Hz.
    assert (In z (x :: r)) as [<-|Hr].
    { clear -Hz. revert Hz. induction r as [|u r IHr]; cbn [Pd.insert_sorted].
      - intros [<-|[]]. left. reflexivity.
      - destruct (leb x u).
        + intros [<-|Hz]; [left; reflexivity|right; exact Hz].
        + intros [<-|Hz]; [right; left; reflexivity|].
          destruct (IHr Hz) as [<-|Hin]; [left; reflexivity|right; right; exact Hin]. }
    + destruct (leb_total x y) as [H0|H0]; [rewrite H0 in Hxy; discriminate|exact H0].
    + exact (Hall z Hr).
Qed.

Lemma sort_ascending (l : list K) : ascending (Pd.sort leb l).
Proof.
  induction l as [|x r IH]; cbn [Pd.sort foldr]; [constructor|].
  apply insert_sorted_ascending, IH.
Qed.

End SortedKeys.

Lemma StronglySorted_filter {A} (R : A -> A -> Prop) (P : A -> bool) (l : list A) :
  StronglySorted R l -> StronglySorted R (List.filter P l).
Proof.
  induction 1 as [|x r Hs IH Hall]; cbn [List.filter]; [constructor|].
  destruct (P x); [|exact IH]. constructor; [exact IH|].
  rewrite List.Forall_forall in *. intros y [Hy _]%filter_In. exact (Hall y Hy).
Qed.

(** The order of gene names and labels: strings by their characters'
    codes. *)
Lemma ascii_compare_refl a : Ascii.compare a a = Eq.
Proof. unfold Ascii.compare. apply N.compare_refl. Qed.

Lemma ascii_compare_Lt_trans a b c :
  Ascii.compare a b = Lt -> Ascii.compare b c = Lt -> Ascii.compare a c = Lt.
Proof.
  unfold Ascii.compare. rewrite !N.compare_lt_iff. apply N.lt_trans.
Qed.

Lemma string_compare_trans (a b c : string) :
  String.compare a b <> Gt -> String.compare b c <> Gt -> String.compare a c <> Gt.
Proof.
  revert b c. induction a as [|x a IH]; intros [|y b] [|z c]; cbn [String.compare];
    try congruence.
  destruct (Ascii.compare x y) eqn:Hxy; [|clear IH|congruence].
  - apply Ascii.compare_eq_iff in Hxy as <-.
    destruct (Ascii.compare x z); [apply IH|congruence|congruence].
  - destruct (Ascii.compare y z) eqn:Hyz; [| |congruence].
    + apply Ascii.compare_eq_iff in Hyz as <-. rewrite Hxy. congruence.
    + rewrite (ascii_compare_Lt_trans _ _ _ Hxy Hyz). congruence.
Qed.

Lemma string_leb_trans (a b c : string) :
  String.leb a b = true -> String.leb b c = true -> String.leb a c = true.
Proof.
  unfold String.leb. intros Hab Hbc.
  pose proof (string_compare_trans a b c) as Htrans.
  destruct (String.compare a b), (String.compare b c), (String.compare a c);
    try reflexivity; try discriminate; exfalso; apply Htrans; congruence.
Qed.

Lemma group_keys_ascending (l : list string) :
  StronglySorted (fun a b => String.leb a b = true) (Pd.group_keys String.leb l).
Proof. apply sort_ascending; [apply String.leb_total|apply string_leb_trans]. Qed.

Lemma length_unique_distinct (l : list string) : length (Pd.unique l) = distinct l.
Proof.
  unfold distinct.
  rewrite <- (size_list_to_set (C := gset string) (Pd.unique l)) by apply NoDup_unique.
  f_equal. apply set_eq. intros x.
  rewrite !elem_of_list_to_set. apply elem_of_unique.
Qed.

Lemma nunique_distinct (l : list (option string)) : Pd.nunique l = distinct (Pd.dropna l).
Proof. apply length_unique_distinct. Qed.

Lemma position_elem x (l : list string) :
  x ∈ l -> exists i, Pd.position x l = Some i /\ l !! i = Some x.
Proof.
  induction l as [|y r IH]; [intros Hx; inversion Hx|].
  intros Hx. simpl. destruct (bool_decide_reflect (x = y)) as [->|Hne].
  - exists 0. split; reflexivity.
  - apply elem_of_cons in Hx as [Hx|Hx]; [contradiction|].
    destruct (IH Hx) as (i & -> & Hi). exists (S i). split; [reflexivity|exact Hi].
Qed.

(** Reading a cell of a frame whose values are given by [f]. *)
Lemma cell_of_map {V} (f : string -> string -> V) idx cols g t :
  g ∈ idx -> t ∈ cols ->
  Pd.cell (Pd.Table idx cols (map (fun g => map (f g) cols) idx)) g t = Some (f g t).
Proof.
  intros Hg Ht. unfold Pd.cell. cbn [Pd.index Pd.columns Pd.values].
  destruct (position_elem g idx Hg) as (i & -> & Hi).
  destruct (position_elem t cols Ht) as (j & -> & Hj).
  cbn [mbind option_bind].
  change (map (fun g0 => map (f g0) cols) idx) with ((fun g0 => map (f g0) cols) <$> idx).
  rewrite list_lookup_fmap, Hi. cbn [fmap option_fmap option_map mbind option_bind].
  change (map (f g) cols) with (f g <$> cols).
  rewrite list_lookup_fmap, Hj. reflexivity.
Qed.

Lemma filter_combine_map {V} (F : string -> V) (P : string -> bool) idx :
  List.filter (fun row : string * V => P row.1) (combine idx (map F idx))
  = map (fun g => (g, F g)) (List.filter P idx).
Proof.
  induction idx as [|g r IH]; simpl; [reflexivity|].
  destruct (P g); simpl; rewrite IH; reflexivity.
Qed.

Lemma loc_intersection_map {V} (F : string -> list V) idx cols (labels : list string) :
  Pd.loc_intersection (Pd.Table idx cols (map F idx)) labels
  = let kept := List.filter (fun g => bool_decide (g ∈ labels)) idx in
    Pd.Table kept cols (map F kept).
Proof.
  unfold Pd.loc_intersection. cbn [Pd.index Pd.columns Pd.values].
  pose proof (filter_combine_map F (fun g => bool_decide (g ∈ labels)) idx) as Hf.
  cbn beta in Hf. rewrite Hf.
  cbn zeta. rewrite !map_map. cbn [fst snd].
  rewrite map_id. reflexivity.
Qed.

Lemma lookup_long_map (c : string * string -> nat) keys k :
  Pd.lookup_long k (map (fun k => (k, c k)) keys)
  = if bool_decide (k ∈ keys) then Some (c k) else None.
Proof.
  induction keys as [|k' r IH]; cbn [map Pd.lookup_long].
  - case_bool_decide as Hk; [inversion Hk|reflexivity].
  - destruct (bool_decide_reflect (k = k')) as [->|Hne].
    + rewrite bool_decide_eq_true_2 by left. reflexivity.
    + rewrite IH. destruct (bool_decide_reflect (k ∈ r)) as [Hk|Hk].
      * rewrite bool_decide_eq_true_2 by (right; exact Hk). reflexivity.
      * rewrite bool_decide_eq_false_2; [reflexivity|].
        intros [?|?]%elem_of_cons; contradiction.
Qed.

Lemma filter_map_comm {A B} (f : A -> B) (P : B -> bool) (l : list A) :
  List.filter P (map f l) = map f (List.filter (fun x => P (f x)) l).
Proof.
  induction l as [|x r IH]; simpl; [reflexivity|].
  destruct (P (f x)); simpl; rewrite IH; reflexivity.
Qed.

Lemma filter_none {A} (P : A -> bool) (l : list A) :
  (forall x, x ∈ l -> P x = false) -> List.filter P l = [].
Proof.
  induction l as [|x r IH]; intros H; simpl; [reflexivity|].
  rewrite (H x) by left. apply IH. intros y Hy. apply H. right. exact Hy.
Qed.

Lemma omap_over_map {X Y Z} (g : Y -> option Z) (f : X -> Y) (xs : list X) :
  omap g (map f xs) = omap (fun x => g (f x)) xs.
Proof.
  induction xs as [|x rest IH]; [reflexivity|].
  cbn [map]. csimpl. rewrite IH. reflexivity.
Qed.

Lemma dropna_map {A B} (f : A -> option B) (l : list A) : Pd.dropna (map f l) = omap f l.
Proof. unfold Pd.dropna. rewrite omap_over_map. reflexivity. Qed.

Lemma elem_of_filter_bool {A} (P : A -> bool) (l : list A) x :
  x ∈ List.filter P l <-> x ∈ l /\ P x = true.
Proof. rewrite !list_elem_of_In. apply filter_In. Qed.

Lemma NoDup_filter_bool {A} (P : A -> bool) (l : list A) :
  NoDup l -> NoDup (List.filter P l).
Proof.
  induction 1 as [|x r Hx _ IH]; simpl; [constructor|].
  destruct (P x); [|exact IH].
  constructor; [|exact IH]. rewrite elem_of_filter_bool. tauto.
Qed.

Lemma key2_fill r : Pd.key2 (fill r) = (fun g => (g, label r)) <$> Pd.bar_Gene r.
Proof. unfold Pd.key2, fill. cbn. destruct (Pd.bar_Gene r); reflexivity. Qed.

Lemma key2_fill_Some r g t :
  Pd.key2 (fill r) = Some (g, t) <-> Pd.bar_Gene r = Some g /\ label r = t.
Proof.
  rewrite key2_fill. destruct (Pd.bar_Gene r) as [g'|]; cbn.
  - split; [intros [= -> ->]; auto|intros [[= ->] ->]; reflexivity].
  - split; [discriminate|intros [? _]; discriminate].
Qed.

Section BarFacts.
Variable df : list Pd.bar_row.

Local Abbreviation filled := (Pd.fillna_types df).

Lemma fillna_types_fill : filled = map fill df.
Proof. reflexivity. Qed.

(** The count of a (gene, type) group is the number of distinct drugs of
    the rows of that gene and label. *)
Lemma group_count g t :
  Pd.nunique (map Pd.bar_Drug
                  (List.filter (fun r => bool_decide (Pd.key2 r = Some (g, t))) filled))
  = distinct (drugs_of g t df).
Proof.
  rewrite nunique_distinct, fillna_types_fill, filter_map_comm, map_map, dropna_map.
  unfold drugs_of. cbn [fill Pd.bar_Drug]. do 2 f_equal.
  apply List.filter_ext. intros r. apply bool_decide_ext, key2_fill_Some.
Qed.

Lemma gene_count g :
  Pd.nunique (map Pd.bar_Drug
                  (List.filter (fun r => bool_decide (Pd.bar_Gene r = Some g)) filled))
  = distinct (drugs_of_gene g df).
Proof.
  rewrite nunique_distinct, fillna_types_fill, filter_map_comm, map_map, dropna_map.
  reflexivity.
Qed.

Lemma genes_filled : omap Pd.bar_Gene filled = genes_of df.
Proof. rewrite fillna_types_fill, omap_over_map. reflexivity. Qed.

Lemma elem_of_keys g t :
  (g, t) ∈ omap Pd.key2 filled
  <-> exists r, r ∈ df /\ Pd.bar_Gene r = Some g /\ label r = t.
Proof.
  rewrite fillna_types_fill, omap_over_map, list_elem_of_omap.
  split; intros (r & Hr & Hk); exists r; (split; [exact Hr|]); apply key2_fill_Some, Hk.
Qed.

Lemma elem_of_genes_of g :
  g ∈ genes_of df <-> exists r, r ∈ df /\ Pd.bar_Gene r = Some g.
Proof. unfold genes_of. apply list_elem_of_omap. Qed.

Lemma nunique_by_gene_and_type_filled :
  Pd.nunique_by_gene_and_type filled
  = map (fun k => (k, distinct (drugs_of k.1 k.2 df)))
        (Pd.group_keys Pd.pair_leb (omap Pd.key2 filled)).
Proof.
  unfold Pd.nunique_by_gene_and_type. apply map_ext. intros [g t].
  rewrite group_count. reflexivity.
Qed.

Lemma nunique_by_gene_filled :
  Pd.nunique_by_gene filled
  = map (fun g => (g, distinct (drugs_of_gene g df)))
        (Pd.group_keys String.leb (genes_of df)).
Proof.
  unfold Pd.nunique_by_gene. rewrite genes_filled. apply map_ext. intros g.
  rewrite gene_count. reflexivity.
Qed.

(** A (gene, type) pair without rows has no drugs. *)
Lemma drugs_of_no_rows g t :
  (g, t) ∉ omap Pd.key2 filled -> drugs_of g t df = [].
Proof.
  intros Hk. unfold drugs_of. rewrite filter_none; [reflexivity|].
  intros r Hr. apply bool_decide_eq_false_2. intros [Hg Ht].
  apply Hk, elem_of_keys. eauto.
Qed.

End BarFacts.

Lemma StronglySorted_app_inv {A} (R : A -> A -> Prop) (l1 l2 : list A) x y :
  StronglySorted R (l1 ++ l2) -> x ∈ l1 -> y ∈ l2 -> R x y.
Proof.
  induction l1 as [|a r IH]; intros Hs Hx Hy; [inversion Hx|].
  cbn [app] in Hs. apply StronglySorted_inv in Hs as [Hs Hall].
  apply elem_of_cons in Hx as [->|Hx]; [|exact (IH Hs Hx Hy)].
  rewrite List.Forall_forall in Hall. apply Hall, in_or_app. right.
  apply list_elem_of_In, Hy.
Qed.

Lemma StronglySorted_prefix {A} (R : A -> A -> Prop) (l1 l2 : list A) :
  StronglySorted R (l1 ++ l2) -> StronglySorted R l1.
Proof.
  induction l1 as [|a r IH]; intros Hs; [constructor|].
  cbn [app] in Hs. apply StronglySorted_inv in Hs as [Hs Hall].
  constructor; [exact (IH Hs)|].
  apply List.Forall_app in Hall as [Hall _]. exact Hall.
Qed.

(** A list of (gene, count) pairs that is descending by count and whose
    counts are given by [total] has its genes ranked by [total]. *)
Lemma ranked_genes (total : string -> nat) (l : list (string * nat)) :
  (forall x, x ∈ l -> x.2 = total x.1) ->
  StronglySorted count_ge l ->
  StronglySorted (fun g g' => total g' <= total g) (map fst l).
Proof.
  intros Htotal Hs. induction Hs as [|x r Hs IH Hall]; cbn [map]; [constructor|].
  constructor.
  - apply IH. intros y Hy. apply Htotal. right. exact Hy.
  - rewrite List.Forall_forall in Hall. apply List.Forall_forall.
    intros g (y & <- & Hy)%in_map_iff.
    rewrite <- (Htotal x) by left.
    rewrite <- (Htotal y) by (right; apply list_elem_of_In, Hy).
    exact (Hall y Hy).
Qed.

Section StackedBarClaim.
Variable sort_desc : list (string * nat) -> list (string * nat).
Hypothesis sort_desc_perm : forall l, sort_desc l ≡ₚ l.
Hypothesis sort_desc_sorted : forall l, StronglySorted count_ge (sort_desc l).
Variable top : nat.
Variable df : list Pd.bar_row.

Local Abbreviation keys := (Pd.group_keys Pd.pair_leb (omap Pd.key2 (Pd.fillna_types df))).
Local Abbreviation long := (map (fun k => (k, distinct (drugs_of k.1 k.2 df))) keys).
Local Abbreviation idx :=
  (Pd.group_keys String.leb (map (fun e : string * string * nat => e.1.1) long)).
Local Abbreviation cols :=
  (Pd.group_keys String.leb (map (fun e : string * string * nat => e.1.2) long)).
Local Abbreviation genes := (Pd.group_keys String.leb (genes_of df)).
Local Abbreviation per_gene := (map (fun g => (g, distinct (drugs_of_gene g df))) genes).
Local Abbreviation chosen := (map fst (firstn top (sort_desc per_gene))).
Local Abbreviation kept := (List.filter (fun g => bool_decide (g ∈ chosen)) idx).

Lemma filled_cell g t :
  from_option id 0 (Pd.lookup_long (g, t) long) = distinct (drugs_of g t df).
Proof.
  rewrite (lookup_long_map (fun k => distinct (drugs_of k.1 k.2 df))).
  case_bool_decide as Hk; [reflexivity|].
  rewrite elem_of_group_keys in Hk. rewrite (drugs_of_no_rows df g t Hk). reflexivity.
Qed.

(** The frame handed to the plot, in closed form. *)
Lemma stacked_bar_data_table :
  stacked_bar_data sort_desc top df
  = Pd.Table kept cols (map (fun g => map (fun t => distinct (drugs_of g t df)) cols) kept).
Proof.
  unfold stacked_bar_data, top_genes.
  rewrite nunique_by_gene_and_type_filled, nunique_by_gene_filled.
  unfold Pd.pivot, Pd.fillna0. cbn [Pd.index Pd.columns Pd.values].
  rewrite (map_map (fun g : string => map (fun t : string => Pd.lookup_long (g, t) long) cols)
                   (map (from_option id 0))).
  rewrite (loc_intersection_map
             (fun g => map (from_option id 0)
                           (map (fun t => Pd.lookup_long (g, t) long) cols))).
  cbn zeta. f_equal. apply map_ext. intros g. rewrite map_map.
  apply map_ext. intros t. apply filled_cell.
Qed.

Lemma elem_of_idx g : g ∈ idx <-> g ∈ genes.
Proof.
  rewrite !elem_of_group_keys, map_map. cbn [fst].
  rewrite elem_of_genes_of. split.
  - intros ([g' t] & <- & Hk%list_elem_of_In)%list_elem_of_In%in_map_iff.
    rewrite elem_of_group_keys, elem_of_keys in Hk.
    destruct Hk as (r & Hr & Hg & _). eauto.
  - intros (r & Hr & Hg). apply list_elem_of_In, in_map_iff.
    exists (g, label r). split; [reflexivity|]. apply list_elem_of_In.
    rewrite elem_of_group_keys, elem_of_keys. eauto.
Qed.

Lemma elem_of_cols t :
  t ∈ cols <-> exists r, r ∈ df /\ is_Some (Pd.bar_Gene r) /\ label r = t.
Proof.
  rewrite elem_of_group_keys, map_map. cbn [fst snd]. split.
  - intros ([g t'] & <- & Hk%list_elem_of_In)%list_elem_of_In%in_map_iff.
    rewrite elem_of_group_keys, elem_of_keys in Hk.
    destruct Hk as (r & Hr & Hg & Ht). exists r. rewrite Hg. eauto.
  - intros (r & Hr & [g Hg] & Ht). apply list_elem_of_In, in_map_iff.
    exists (g, t). split; [reflexivity|]. apply list_elem_of_In.
    rewrite elem_of_group_keys, elem_of_keys. eauto.
Qed.

Lemma elem_of_per_gene g c :
  (g, c) ∈ per_gene <-> g ∈ genes /\ c = distinct (drugs_of_gene g df).
Proof.
  rewrite list_elem_of_In, in_map_iff. split.
  - intros (g' & [= -> ->] & Hg%list_elem_of_In). auto.
  - intros [Hg ->]. exists g. split; [reflexivity|]. apply list_elem_of_In, Hg.
Qed.

Lemma sorted_split :
  sort_desc per_gene = firstn top (sort_desc per_gene) ++ skipn top (sort_desc per_gene).
Proof. symmetry. apply firstn_skipn. Qed.

Lemma elem_of_chosen g :
  g ∈ chosen <->
  (g, distinct (drugs_of_gene g df)) ∈ firstn top (sort_desc per_gene).
Proof.
  rewrite list_elem_of_In, in_map_iff. split.
  - intros ([g' c] & Hfst & Hin%list_elem_of_In). cbn in Hfst. subst g'.
    assert ((g, c) ∈ per_gene) as Hp.
    { rewrite <- (sort_desc_perm per_gene), sorted_split. apply elem_of_app. auto. }
    apply elem_of_per_gene in Hp as [_ ->]. exact Hin.
  - intros Hin. eexists. split; [|apply list_elem_of_In, Hin]. reflexivity.
Qed.

Lemma chosen_are_genes g : g ∈ chosen -> g ∈ genes.
Proof.
  intros Hg%elem_of_chosen.
  assert ((g, distinct (drugs_of_gene g df)) ∈ per_gene) as Hp.
  { rewrite <- (sort_desc_perm per_gene), sorted_split. apply elem_of_app. auto. }
  apply elem_of_per_gene in Hp as [Hp _]. exact Hp.
Qed.

Lemma elem_of_kept g : g ∈ kept <-> g ∈ chosen.
Proof.
  rewrite elem_of_filter_bool, bool_decide_eq_true, elem_of_idx. split; [tauto|].
  intros Hg. split; [apply chosen_are_genes, Hg|exact Hg].
Qed.

Lemma top_genes_chosen : top_genes sort_desc top (Pd.fillna_types df) = chosen.
Proof. unfold top_genes. rewrite nunique_by_gene_filled. reflexivity. Qed.

(** The genes to keep are ranked by their number of distinct drugs,
    most first. *)
Lemma chosen_ranked :
  StronglySorted (fun g g' => distinct (drugs_of_gene g' df) <= distinct (drugs_of_gene g df))
                 chosen.
Proof.
  apply (ranked_genes (fun g => distinct (drugs_of_gene g df))).
  - intros [g c] Hin. cbn [fst snd].
    assert ((g, c) ∈ per_gene) as Hp.
    { rewrite <- (sort_desc_perm per_gene), sorted_split. apply elem_of_app. auto. }
    apply elem_of_per_gene in Hp as [_ ->]. reflexivity.
  - apply StronglySorted_prefix with (l2 := skipn top (sort_desc per_gene)).
    rewrite <- sorted_split. apply sort_desc_sorted.
Qed.

Lemma NoDup_kept : NoDup kept.
Proof. apply NoDup_filter_bool, NoDup_group_keys. Qed.

(** The rows that are kept stay in the order of the pivot. *)
Lemma kept_ascending : StronglySorted (fun g g' => String.leb g g' = true) kept.
Proof. apply StronglySorted_filter, group_keys_ascending. Qed.

Lemma NoDup_chosen : NoDup chosen.
Proof.
  rewrite <- firstn_map.
  assert (NoDup (map fst (sort_desc per_gene))) as Hnd.
  { change (NoDup (fst <$> sort_desc per_gene)).
    rewrite (sort_desc_perm per_gene).
    change (NoDup (map fst per_gene)). rewrite map_map. cbn [fst]. rewrite map_id.
    apply NoDup_group_keys. }
  rewrite <- (firstn_skipn top (map fst (sort_desc per_gene))) in Hnd.
  apply NoDup_app in Hnd as [Hnd _]. exact Hnd.
Qed.

Lemma length_kept : length kept = Nat.min top (distinct (genes_of df)).
Proof.
  assert (kept ≡ₚ chosen) as ->.
  { apply NoDup_Permutation; [apply NoDup_kept|apply NoDup_chosen|].
    intros g. apply elem_of_kept. }
  rewrite length_map, length_firstn, (sort_desc_perm per_gene), length_map.
  rewrite (group_keys_perm String.leb (genes_of df)), length_unique_distinct.
  reflexivity.
Qed.

Lemma kept_outranks g g' :
  g ∈ kept -> g' ∈ genes -> g' ∉ kept ->
  distinct (drugs_of_gene g' df) <= distinct (drugs_of_gene g df).
Proof.
  rewrite !elem_of_kept. intros Hg Hg' Hout.
  apply elem_of_chosen in Hg.
  assert ((g', distinct (drugs_of_gene g' df)) ∈ skipn top (sort_desc per_gene)) as Hskip.
  { assert ((g', distinct (drugs_of_gene g' df)) ∈ sort_desc per_gene) as Hin.
    { rewrite (sort_desc_perm per_gene). apply elem_of_per_gene. auto. }
    rewrite sorted_split in Hin. apply elem_of_app in Hin as [Hin|Hin]; [|exact Hin].
    exfalso. apply Hout, elem_of_chosen, Hin. }
  pose proof (sort_desc_sorted per_gene) as Hs. rewrite sorted_split in Hs.
  exact (StronglySorted_app_inv count_ge _ _ _ _ Hs Hg Hskip).
Qed.

End StackedBarClaim.

Section StackedBarTheorem.
Variable sort_desc : list (string * nat) -> list (string * nat).
Hypothesis sort_desc_perm : forall l, sort_desc l ≡ₚ l.
Hypothesis sort_desc_sorted : forall l, StronglySorted count_ge (sort_desc l).

(** C6: in the frame behind the chart a row with a missing interaction
    type is counted under "Unknown"; the columns are the labels that
    occur; the cell of a gene and a label is the number of distinct drugs
    of the rows of that gene and label; the frame is restricted to the
    genes of [top_genes], which are the [top] genes with the most
    distinct drugs in all (all genes when there are fewer), ranked in
    descending order of that number; [draw_stacked_bar] takes
    [TOP_GENES] = 15 of them.  The ranking selects the genes only: the
    rows of the frame are not in the order of the ranking but stay in
    the order of the pivot, ascending by gene name. *)
Theorem stacked_bar_data_counts_top_genes (top : nat) (df : list Pd.bar_row) :
  let T := stacked_bar_data sort_desc top df in
  let G := top_genes sort_desc top (Pd.fillna_types df) in
  let total := fun g => distinct (drugs_of_gene g df) in
  (forall t, t ∈ Pd.columns T <->
             exists r, r ∈ df /\ is_Some (Pd.bar_Gene r)
                       /\ from_option id "Unknown" (Pd.bar_Interaction_Types r) = t)
  /\ (forall g t, g ∈ Pd.index T -> t ∈ Pd.columns T ->
                  Pd.cell T g t = Some (distinct (drugs_of g t df)))
  /\ (forall g, g ∈ Pd.index T <-> g ∈ G)
  /\ NoDup (Pd.index T)
  /\ StronglySorted (fun g g' => String.leb g g' = true) (Pd.index T)
  /\ StronglySorted (fun g g' => total g' <= total g) G
  /\ (forall g, g ∈ G -> g ∈ genes_of df)
  /\ length G = Nat.min top (distinct (genes_of df))
  /\ length (Pd.index T) = Nat.min top (distinct (genes_of df))
  /\ (forall g g', g ∈ G -> g' ∈ genes_of df -> g' ∉ G -> total g' <= total g)
  /\ TOP_GENES = 15.
Proof.
  cbn zeta. rewrite (stacked_bar_data_table sort_desc top df), top_genes_chosen.
  cbn [Pd.index Pd.columns].
  split; [apply elem_of_cols|].
  split; [intros g t Hg Ht; apply cell_of_map; assumption|].
  split; [intros g; apply elem_of_kept; assumption|].
  split; [apply NoDup_kept|].
  split; [apply kept_ascending|].
  split; [apply chosen_ranked; assumption|].
  split.
  { intros g Hg. apply chosen_are_genes in Hg; [|assumption].
    rewrite elem_of_group_keys in Hg. exact Hg. }
  pose proof (length_kept sort_desc sort_desc_perm top df) as Hlen.
  split.
  { rewrite <- Hlen. symmetry. apply Permutation_length.
    apply NoDup_Permutation;
      [apply NoDup_kept|apply NoDup_chosen; assumption|].
    intros g. apply elem_of_kept; assumption. }
  split; [exact Hlen|].
  split; [|reflexivity].
  intros g g' Hg Hg' Hout.
  apply (kept_outranks sort_desc) with (top := top); try assumption.
  - apply elem_of_kept; assumption.
  - rewrite elem_of_group_keys. exact Hg'.
  - intros Hk. apply Hout. apply elem_of_kept in Hk; assumption.
Qed.

End StackedBarTheorem.

Lemma insert_count_sorted x l :
  StronglySorted count_ge l -> StronglySorted count_ge (Pd.insert_sorted count_geb x l).
Proof.
  induction 1 as [|y r Hs IH Hall]; simpl; [repeat constructor|].
  unfold count_geb at 1. destruct (Nat.leb_spec y.2 x.2) as [Hle|Hlt].
  - constructor; [constructor; assumption|].
    constructor; [exact Hle|].
    eapply List.Forall_impl; [|exact Hall]. unfold count_ge. intros z Hz. lia.
  - constructor; [exact IH|].
    rewrite (insert_sorted_perm count_geb x r).
    constructor; [unfold count_ge; lia|exact Hall].
Qed.

Lemma sort_count_sorted l : StronglySorted count_ge (Pd.sort count_geb l).
Proof.
  induction l as [|x r IH]; simpl; [constructor|]. apply insert_count_sorted, IH.
Qed.

(* ===================================================================== *)
(** * The properties on the sample run *)
(* ===================================================================== *)

Example sample_lines :
  nonblank_stripped_lines sample_circ_text = ["hsa_circ_0001"; "hsa_circ_0002"].
Proof. reflexivity. Qed.

Example sample_table :
  stacked_bar_data (Pd.sort count_geb) 1 sample_rows
  = Pd.Table ["TP53"] ["Unknown"; "inhibitor (INHIBITORY)"] [[2; 1]].
Proof. vm_compute. reflexivity. Qed.

(** With both genes kept the rows are in the order of the pivot, not in
    the order of [top_genes]. *)
Example sample_table_row_order :
  Pd.index (stacked_bar_data (Pd.sort count_geb) 5 sample_rows) = ["EGFR"; "TP53"]
  /\ top_genes (Pd.sort count_geb) 5 (Pd.fillna_types sample_rows) = ["TP53"; "EGFR"].
Proof. split; vm_compute; reflexivity. Qed.

Lemma sample_inputs_ready E :
  script_dir E = "app" ->
  inputs_ready E "circ.txt" "mirna.txt" "deg.txt" sample_fs.
Proof.
  intros Hdir. unfold inputs_ready.
  split; [eexists; vm_compute; reflexivity|].
  split; [eexists; vm_compute; reflexivity|].
  split; [eexists; vm_compute; reflexivity|].
  apply first_missing_None.
  unfold required_files, model_file, encoder_file, scaler_file, model_path.
  rewrite Hdir. vm_compute. reflexivity.
Qed.

Lemma interaction_types_never_empty_string_witness :
  Forall types_null_or_nonempty
         [Row (JStr "TP53") (JStr "NUTLIN-3") (JStr "") (JInt 0) None "" "" ""]
  /\ (forall d sc at' pu so,
        interaction_types_field sample_repr
          (Api.encode_interaction (Api.MkInteraction d sc (Some []) at' pu so))
        = Ok None)
  /\ (forall nodes : list Api.gene,
        extract_records sample_repr (Api.encode nodes) = Ok (Api.rows sample_repr nodes)
        /\ Forall types_null_or_nonempty (Api.rows sample_repr nodes)).
Proof.
  apply (interaction_types_never_empty_string sample_repr sample_response sample_world
           (World sample_fs [Log INFO "Extracted 1 drug–gene interactions."])).
  vm_compute. reflexivity.
Defined.

Lemma validate_input_format_returns_lines_witness :
  validate_input_format "circ.txt" (Some "hsa_circ_") sample_world
  = (Ok ["hsa_circ_0001"; "hsa_circ_0002"], sample_world)
  /\ lines_of sample_circ_text (file_lines sample_circ_text)
  /\ Forall2 stripped_of
             (List.filter (fun line => negb (blank line)) (file_lines sample_circ_text))
             ["hsa_circ_0001"; "hsa_circ_0002"]
  /\ (forall raw l l', stripped_of raw l -> stripped_of raw l' -> l = l').
Proof.
  apply (validate_input_format_returns_lines "circ.txt" (Some "hsa_circ_")
           sample_circ_text sample_world).
  - vm_compute. reflexivity.
  - intros p [= <-]. vm_compute. repeat constructor.
Defined.

Lemma invalid_prefix_aborts_run_witness :
  let w := World (<["circ.txt" := File sample_bad_circ_text]> sample_fs) [] in
  exists line,
    In line (nonblank_stripped_lines sample_bad_circ_text)
    /\ PyStr.startswith line "hsa_circ_" = false
    /\ validate_input_format "circ.txt" (Some "hsa_circ_") w
       = (Raise (Exception "ValueError"
                   ("Invalid ID format in " +:+ "circ.txt" +:+ ": '" +:+ line +:+ "'")), w)
    /\ (("circ.txt" = "circ.txt" /\ "hsa_circ_" = "hsa_circ_")
        \/ ("circ.txt" = "mirna.txt" /\ "hsa_circ_" = "hsa-miR") ->
        exists w',
          run_analysis sample_env_http_500 "circ.txt" "mirna.txt" "deg.txt" true w
            = (Raise (SystemExit 1), w')
          /\ exit_status (Raise (SystemExit 1)) = 1%Z
          /\ aborted_before_stages w w'
          /\ (("circ.txt" = "circ.txt" /\ "hsa_circ_" = "hsa_circ_")
              \/ (exists ids, validate_result (fs w) "circ.txt" (Some "hsa_circ_") = Ok ids) ->
              trace w'
              = trace w ++ abort_lines true "ValueError"
                             (invalid_id_message "circ.txt" line))).
Proof.
  cbn zeta.
  apply (invalid_prefix_aborts_run sample_env_http_500 "circ.txt" "mirna.txt" "deg.txt"
           true "circ.txt" "hsa_circ_" sample_bad_circ_text).
  - vm_compute. reflexivity.
  - vm_compute. apply Exists_cons_tl, Exists_cons_hd. reflexivity.
Defined.

Lemma working_dirs_reset_only_when_ready_witness :
  let w := World (delete "app/Model_Files/robust_scaler.pkl" sample_fs) [] in
  exists w',
    run_analysis sample_env_http_500 "circ.txt" "mirna.txt" "deg.txt" false w
      = (Raise (SystemExit 1), w')
    /\ exit_status (Raise (SystemExit 1)) = 1%Z
    /\ fs w' = fs w.
Proof.
  cbn zeta.
  apply (working_dirs_reset_only_when_ready sample_env_http_500 "circ.txt" "mirna.txt"
           "deg.txt" false
           (World (delete "app/Model_Files/robust_scaler.pkl" sample_fs) [])).
  intros (_ & _ & _ & Hall). apply first_missing_None in Hall.
  vm_compute in Hall. discriminate Hall.
Defined.

(** C2 as stated fails: with valid inputs and all required files in
    place, an exception of the enrichment stage is not skipped; the run
    ends with exit status 1 and neither the PPI nor the drug-gene stage
    is entered. *)
Lemma enrichment_exception_ends_run :
  let r := run_analysis sample_env_enrichment_fails "circ.txt" "mirna.txt" "deg.txt"
             false sample_world in
  inputs_ready sample_env_enrichment_fails "circ.txt" "mirna.txt" "deg.txt" sample_fs
  /\ r.1 = Raise (SystemExit 1)
  /\ exit_status r.1 = 1%Z
  /\ trace r.2
     = [Log INFO "[INFO] Inputs: 2 circRNAs, 1 miRNAs, 2 DEGs";
        Log INFO rule;
        Log INFO "[STEP 1] Predicting circRNA–miRNA binding sites...";
        Call SecondPipeline_init; Call process_all_circs;
        Call find_strong_hits; Call match_mirnas;
        Log INFO "[INFO] Processed 2 circRNAs";
        Log INFO "[INFO] Strong/Medium binding sites: 5";
        Call analyze_mrna_overlap; Call create_comprehensive_excel;
        Log INFO "[INFO] Comprehensive interaction Excel generated";
        Log INFO rule;
        Log INFO "[STEP 2.5] Constructing circRNA–miRNA–mRNA regulatory network...";
        Call construct_network;
        Log WARNING "[WARN] Network construction failed: 'mirna'";
        Call extract_overlapping_genes;
        Log INFO rule;
        Log INFO "[STEP 3] Performing enrichment analysis...";
        Call enrichment_main;
        Log ERROR "[ERROR] Pipeline failed: enrichment service unreachable"].
Proof.
  cbn zeta. split; [apply sample_inputs_ready; reflexivity|].
  split; [vm_compute; reflexivity|].
  split; vm_compute; reflexivity.
Qed.

Lemma stage_exceptions_skip_or_abort_witness :
  exists w',
    run_analysis sample_env_enrichment_fails "circ.txt" "mirna.txt" "deg.txt" false
      sample_world
    = (Raise (SystemExit 1), w')
    /\ last (trace w')
       = Some (Log ERROR "[ERROR] Pipeline failed: enrichment service unreachable").
Proof.
  destruct (stage_exceptions_skip_or_abort sample_env_enrichment_fails
              "circ.txt" "mirna.txt" "deg.txt" false)
    as (_ & _ & _ & Henrich & _).
  eexists. split.
  - eapply (Henrich sample_world
              (ok_value (Predicted 0 [] 0 0 0 0, [])
                 (through_overlap sample_env_enrichment_fails "circ.txt" "mirna.txt"
                    "deg.txt" false sample_world).1)
              (through_overlap sample_env_enrichment_fails "circ.txt" "mirna.txt"
                 "deg.txt" false sample_world).2
              (enrich_stage sample_env_enrichment_fails
                 (through_overlap sample_env_enrichment_fails "circ.txt" "mirna.txt"
                    "deg.txt" false sample_world).2).2
              "ConnectionError" "enrichment service unreachable").
    + vm_compute. reflexivity.
    + vm_compute. reflexivity.
  - vm_compute. reflexivity.
Defined.

Lemma empty_gene_list_sends_no_request_witness :
  exists added,
    DrugGene.run_pipeline sample_env_no_csv sample_config sample_world
    = (Ok tt, World (fs sample_world) (trace sample_world ++ added))
    /\ last added = Some (Log WARNING "No valid gene names. Exiting.")
    /\ forallb (fun e => negb (is_request e)) added = true.
Proof.
  apply (empty_gene_list_sends_no_request sample_env_no_csv sample_config sample_world
           (World sample_fs
                  [started; Call read_csv;
                   Log ERROR "Failed to read input file: No such file: hub_genes.csv"])).
  vm_compute. reflexivity.
Defined.

Lemma load_gene_names_never_raises_witness :
  exists genes w',
    DrugGene.load_gene_names sample_env_http_500 "output/hub_genes.csv" sample_world
    = (Ok genes, w')
    /\ fs w' = fs sample_world
    /\ NoDup genes
    /\ forall g, g ∈ genes <-> Some g ∈ [Some "TP53"; None; Some "TP53"; Some "EGFR"].
Proof.
  destruct (load_gene_names_never_raises sample_env_http_500 "output/hub_genes.csv"
              sample_world)
    as (genes & w' & Hrun & Hfs & Hnodup & _ & _ & Hcells).
  exists genes, w'. split; [exact Hrun|]. split; [exact Hfs|]. split; [exact Hnodup|].
  apply (Hcells sample_genes); reflexivity.
Defined.


Lemma stacked_bar_data_counts_top_genes_witness :
  let T := stacked_bar_data (Pd.sort count_geb) 1 sample_rows in
  let G := top_genes (Pd.sort count_geb) 1 (Pd.fillna_types sample_rows) in
  let total := fun g => distinct (drugs_of_gene g sample_rows) in
  (forall t, t ∈ Pd.columns T <->
             exists r, r ∈ sample_rows /\ is_Some (Pd.bar_Gene r)
                       /\ from_option id "Unknown" (Pd.bar_Interaction_Types r) = t)
  /\ (forall g t, g ∈ Pd.index T -> t ∈ Pd.columns T ->
                  Pd.cell T g t = Some (distinct (drugs_of g t sample_rows)))
  /\ (forall g, g ∈ Pd.index T <-> g ∈ G)
  /\ NoDup (Pd.index T)
  /\ StronglySorted (fun g g' => String.leb g g' = true) (Pd.index T)
  /\ StronglySorted (fun g g' => total g' <= total g) G
  /\ (forall g, g ∈ G -> g ∈ genes_of sample_rows)
  /\ length G = Nat.min 1 (distinct (genes_of sample_rows))
  /\ length (Pd.index T) = Nat.min 1 (distinct (genes_of sample_rows))
  /\ (forall g g', g ∈ G -> g' ∈ genes_of sample_rows -> g' ∉ G -> total g' <= total g)
  /\ TOP_GENES = 15.
Proof.
  apply (stacked_bar_data_counts_top_genes (Pd.sort count_geb)
           (sort_perm count_geb) sort_count_sorted 1 sample_rows).
Defined.

(** C6 as stated fails: the rows of the frame are not ranked in
    descending order of the distinct drug count.  With both genes of the
    sample kept, EGFR with its one drug comes before TP53 with its two:
    the frame is in the order of the pivot, while [top_genes] has TP53
    first. *)
Lemma stacked_bar_rows_not_ranked :
  let T := stacked_bar_data (Pd.sort count_geb) 5 sample_rows in
  let total := fun g => distinct (drugs_of_gene g sample_rows) in
  Pd.index T = ["EGFR"; "TP53"]
  /\ Pd.values T = [[0; 1]; [2; 1]]
  /\ total "EGFR" = 1
  /\ total "TP53" = 2
  /\ top_genes (Pd.sort count_geb) 5 (Pd.fillna_types sample_rows) = ["TP53"; "EGFR"]
  /\ ~ StronglySorted (fun g g' => total g' <= total g) (Pd.index T).
Proof.
  cbn zeta.
  assert (Pd.index (stacked_bar_data (Pd.sort count_geb) 5 sample_rows) = ["EGFR"; "TP53"])
    as Hindex by (vm_compute; reflexivity).
  assert (distinct (drugs_of_gene "EGFR" sample_rows) = 1) as Hegfr
    by (vm_compute; reflexivity).
  assert (distinct (drugs_of_gene "TP53" sample_rows) = 2) as Htp53
    by (vm_compute; reflexivity).
  split; [exact Hindex|]. split; [vm_compute; reflexivity|].
  split; [exact Hegfr|]. split; [exact Htp53|]. split; [vm_compute; reflexivity|].
  rewrite Hindex. intros Hs. apply StronglySorted_inv in Hs as [_ Hall].
  apply Forall_inv in Hall. rewrite Hegfr, Htp53 in Hall. lia.
Qed.


(* ===================================================================== *)
(** * What a computation adds to the log *)
(* ===================================================================== *)

Lemma bind_inv {A B} (m : M A) (k : A -> M B) w r w' :
  bind m k w = (r, w') ->
  (exists a w1, m w = (Ok a, w1) /\ k a w1 = (r, w'))
  \/ (exists e, m w = (Raise e, w') /\ r = Raise e).
Proof.
  unfold bind. destruct (m w) as [[a|e] w1].
  - intros Hk. left. eauto.
  - intros [= <- <-]. right. eauto.
Qed.

Section Appends.
Variable P : event -> bool.

Lemma appends_ret {A} (a : A) : appends P (ret a).
Proof.
  intros w r w' [= <- <-]. split; [discriminate|].
  exists []. rewrite app_nil_r. auto.
Qed.

Lemma appends_raise {A} cls msg : appends P (raise (A := A) (Exception cls msg)).
Proof.
  intros w r w' [= <- <-]. split; [discriminate|].
  exists []. rewrite app_nil_r. auto.
Qed.

Lemma appends_bind {A B} (m : M A) (k : A -> M B) :
  appends P m -> (forall a, appends P (k a)) -> appends P (bind m k).
Proof.
  intros Hm Hk w r w' [(a & w1 & Hrun & Hrest)|(e & Hrun & ->)]%bind_inv.
  - destruct (Hm _ _ _ Hrun) as (_ & added1 & Ht1 & HP1).
    destruct (Hk a _ _ _ Hrest) as (Hr & added2 & Ht2 & HP2).
    split; [exact Hr|]. exists (added1 ++ added2).
    rewrite Ht2, Ht1, <- app_assoc, forallb_app, HP1, HP2. auto.
  - destruct (Hm _ _ _ Hrun) as (Hr & Hadded).
    split; [|exact Hadded].
    intros code [= ->]. exact (Hr code eq_refl).
Qed.

Lemma appends_try_except {A} (body : M A) (handler : string -> string -> M A) :
  appends P body -> (forall cls msg, appends P (handler cls msg)) ->
  appends P (try_except body handler).
Proof.
  intros Hb Hh w r w'. unfold try_except.
  destruct (body w) as [[a|[cls msg|code]] w1] eqn:Hrun.
  - intros [= <- <-]. exact (Hb _ _ _ Hrun).
  - intros Hrest.
    destruct (Hb _ _ _ Hrun) as (_ & added1 & Ht1 & HP1).
    destruct (Hh cls msg _ _ _ Hrest) as (Hr & added2 & Ht2 & HP2).
    split; [exact Hr|]. exists (added1 ++ added2).
    rewrite Ht2, Ht1, <- app_assoc, forallb_app, HP1, HP2. auto.
  - intros [= <- <-]. exact (Hb _ _ _ Hrun).
Qed.

Lemma appends_emit e : P e = true -> appends P (emit e).
Proof.
  intros He w r w' [= <- <-]. split; [discriminate|].
  exists [e]. cbn. rewrite He. auto.
Qed.

Lemma appends_log lvl msg : P (Log lvl msg) = true -> appends P (log lvl msg).
Proof. apply appends_emit. Qed.

Lemma appends_get_fs : appends P get_fs.
Proof.
  intros w r w' [= <- <-]. split; [discriminate|].
  exists []. rewrite app_nil_r. auto.
Qed.

Lemma appends_set_fs f : appends P (set_fs f).
Proof.
  intros w r w' [= <- <-]. split; [discriminate|].
  exists []. cbn. rewrite app_nil_r. auto.
Qed.

Lemma appends_of_outcome {A} (o : outcome A) : appends P (of_outcome o).
Proof. destruct o; [apply appends_ret|apply appends_raise]. Qed.

Lemma appends_lift {A} (r : result A) : no_exit r -> appends P (lift r).
Proof.
  intros Hr w r' w' [= <- <-]. split; [exact Hr|].
  exists []. rewrite app_nil_r. auto.
Qed.

Lemma appends_call {A} f (oracle : filesystem -> outcome A * filesystem) :
  P (Call f) = true -> appends P (call f oracle).
Proof.
  intros Hf w r w'. rewrite call_run.
  destruct (oracle (fs w)) as [[a|cls msg] f']; intros [= <- <-];
    (split; [discriminate|]); exists [Call f]; cbn; rewrite Hf; auto.
Qed.

Lemma appends_when b (m : M unit) : appends P m -> appends P (when b m).
Proof. intros Hm. destruct b; [exact Hm|apply appends_ret]. Qed.

Lemma appends_for_each {A} (l : list A) (body : A -> M unit) :
  (forall x, appends P (body x)) -> appends P (for_each l body).
Proof.
  intros Hb. induction l as [|x xs IH]; cbn [for_each]; [apply appends_ret|].
  apply appends_bind; [apply Hb|intros _; exact IH].
Qed.

Lemma appends_path_exists p : appends P (Os.path_exists p).
Proof.
  unfold Os.path_exists. apply appends_bind; [apply appends_get_fs|].
  intros f. apply appends_ret.
Qed.

Lemma appends_rmtree p : appends P (Os.rmtree p).
Proof.
  unfold Os.rmtree. apply appends_bind; [apply appends_get_fs|]. intros f.
  destruct (f !! p) as [[| |]|];
    first [apply appends_set_fs|apply appends_raise].
Qed.

Lemma appends_makedirs p exist_ok : appends P (Os.makedirs p exist_ok).
Proof.
  unfold Os.makedirs. apply appends_bind; [apply appends_get_fs|]. intros f.
  destruct (f !! p) as [[| |]|]; try destruct exist_ok;
    first [apply appends_set_fs|apply appends_raise|apply appends_ret].
Qed.

Lemma appends_validate_input_format file_path expected_prefix :
  appends P (validate_input_format file_path expected_prefix).
Proof.
  intros w r w'. rewrite validate_input_format_run. intros [= <- <-].
  split; [|exists []; rewrite app_nil_r; auto].
  intros code Hr. destruct (validate_result_raises _ _ _ _ Hr) as (cls & msg & [=]).
Qed.

End Appends.

Lemma appends_weaken (P Q : event -> bool) {A} (m : M A) :
  (forall e, P e = true -> Q e = true) -> appends P m -> appends Q m.
Proof.
  intros HPQ Hm w r w' Hrun.
  destruct (Hm _ _ _ Hrun) as (Hr & added & Ht & HP).
  split; [exact Hr|]. exists added. split; [exact Ht|].
  rewrite forallb_forall in *. intros e He. apply HPQ, HP, He.
Qed.

Lemma no_exit_Ok {A} (a : A) : no_exit (Ok a).
Proof. discriminate. Qed.

Lemma no_exit_Exception {A} cls msg : no_exit (A := A) (Raise (Exception cls msg)).
Proof. discriminate. Qed.

Lemma no_exit_rbind {A B} (m : result A) (k : A -> result B) :
  no_exit m -> (forall a, no_exit (k a)) -> no_exit (rbind m k).
Proof.
  intros Hm Hk. destruct m as [a|e]; cbn [rbind]; [apply Hk|].
  intros code [= ->]. exact (Hm code eq_refl).
Qed.

Lemma no_exit_mapM {A B} (f : A -> result B) (l : list A) :
  (forall x, no_exit (f x)) -> no_exit (mapM f l).
Proof.
  intros Hf. induction l as [|x xs IH]; cbn [mapM]; [apply no_exit_Ok|].
  apply no_exit_rbind; [apply Hf|]. intros y.
  apply no_exit_rbind; [exact IH|]. intros ys. apply no_exit_Ok.
Qed.

Lemma no_exit_get v k d : no_exit (Py.get v k d).
Proof. destruct v; first [apply no_exit_Ok|apply no_exit_Exception]. Qed.

Lemma no_exit_iter v : no_exit (Py.iter v).
Proof. destruct v; first [apply no_exit_Ok|apply no_exit_Exception]. Qed.

Lemma no_exit_join_items i l : no_exit (Py.join_items i l).
Proof.
  revert i. induction l as [|v vs IH]; intros i; cbn [Py.join_items];
    [apply no_exit_Ok|].
  apply no_exit_rbind.
  - destruct v; first [apply no_exit_Ok|apply no_exit_Exception].
  - intros s. apply no_exit_rbind; [apply IH|]. intros ss. apply no_exit_Ok.
Qed.

Ltac no_exit_steps :=
  repeat first
    [ apply no_exit_Ok
    | apply no_exit_get
    | apply no_exit_iter
    | apply no_exit_join_items
    | apply no_exit_mapM; intros ?
    | apply no_exit_rbind; [|intros ?] ].

(** Flattening raises instances of [Exception] only. *)
Lemma no_exit_extract_records repr_str data : no_exit (extract_records repr_str data).
Proof.
  unfold extract_records, item_records, interaction_record, interaction_types_field,
    interaction_attributes_field, publications_field, sources_field, type_label,
    attribute_label, pmid_label.
  no_exit_steps.
Qed.

Section StageAppends.
Variable E : env.

Lemma appends_load_gene_names file_path :
  appends stage_event (DrugGene.load_gene_names E file_path).
Proof.
  unfold DrugGene.load_gene_names. apply appends_try_except.
  - apply appends_bind; [apply appends_call; reflexivity|]. intros df.
    destruct (DrugGene.column "Gene" df) as [cells|]; [|apply appends_raise].
    apply appends_bind; [apply appends_log; reflexivity|]. intros _. apply appends_ret.
  - intros cls msg. apply appends_bind; [apply appends_log; reflexivity|].
    intros _. apply appends_ret.
Qed.

Lemma appends_query_dgidb genes : appends stage_event (DrugGene.query_dgidb E genes).
Proof.
  unfold DrugGene.query_dgidb. apply appends_try_except.
  - apply appends_bind; [apply appends_emit; reflexivity|]. intros _.
    apply appends_bind; [apply appends_of_outcome|]. intros r.
    destruct (negb (status_code r =? 200)%Z).
    + apply appends_bind; [apply appends_log; reflexivity|]. intros _. apply appends_ret.
    + apply appends_bind; [apply appends_of_outcome|]. intros body.
      apply appends_bind; [apply appends_lift, no_exit_get|]. intros data.
      apply appends_bind; [apply appends_lift, no_exit_get|]. intros genes_obj.
      apply appends_lift, no_exit_get.
  - intros cls msg. apply appends_bind; [apply appends_log; reflexivity|].
    intros _. apply appends_ret.
Qed.

Lemma appends_extract_interactions data :
  appends report_event (extract_interactions (repr_str E) data).
Proof.
  unfold extract_interactions.
  apply appends_bind; [apply appends_lift, no_exit_extract_records|]. intros df.
  apply appends_bind; [apply appends_log; reflexivity|]. intros _. apply appends_ret.
Qed.

Lemma appends_export_full_csv c df :
  appends report_event (DrugGene.export_full_csv E c df).
Proof.
  unfold DrugGene.export_full_csv. apply appends_try_except.
  - apply appends_bind; [apply appends_call; reflexivity|]. intros _.
    apply appends_log. reflexivity.
  - intros cls msg. apply appends_log. reflexivity.
Qed.

Lemma appends_draw_stacked_bar c df :
  appends report_event (DrugGene.draw_stacked_bar E c df).
Proof.
  unfold DrugGene.draw_stacked_bar. cbn zeta.
  apply appends_bind; [apply appends_call; reflexivity|]. intros _.
  apply appends_log. reflexivity.
Qed.

(** What follows the request in [run_pipeline]. *)
Lemma appends_report c data :
  appends report_event
    (if negb (truthy data) then log WARNING "No interaction data retrieved."
     else
       df <- extract_interactions (repr_str E) data ;;
       match df with
       | [] => log WARNING "No interactions to process."
       | _ =>
           DrugGene.export_full_csv E c df ;;;
           DrugGene.draw_stacked_bar E c df ;;;
           log INFO ("Pipeline completed in " +:+ elapsed_text E +:+ ".")
       end).
Proof.
  destruct (negb (truthy data)); [apply appends_log; reflexivity|].
  apply appends_bind; [apply appends_extract_interactions|]. intros [|r df].
  - apply appends_log. reflexivity.
  - apply appends_bind; [apply appends_export_full_csv|]. intros _.
    apply appends_bind; [apply appends_draw_stacked_bar|]. intros _.
    apply appends_log. reflexivity.
Qed.

Lemma report_event_stage e : report_event e = true -> stage_event e = true.
Proof. unfold report_event. intros [H _]%andb_true_iff. exact H. Qed.

Lemma appends_run_pipeline c : appends stage_event (DrugGene.run_pipeline E c).
Proof.
  unfold DrugGene.run_pipeline.
  apply appends_bind; [apply appends_log; reflexivity|]. intros _.
  apply appends_bind; [apply appends_load_gene_names|]. intros [|g gs].
  - apply appends_log. reflexivity.
  - apply appends_bind; [apply appends_log; reflexivity|]. intros _.
    apply appends_bind; [apply appends_query_dgidb|]. intros data.
    apply (appends_weaken report_event); [apply report_event_stage|].
    apply appends_report.
Qed.

Lemma appends_main hub_genes_path output_dir :
  appends stage_event (DrugGene.main E hub_genes_path output_dir).
Proof.
  unfold DrugGene.main. cbn zeta.
  apply appends_bind; [apply appends_makedirs|]. intros _. apply appends_run_pipeline.
Qed.

End StageAppends.

Section RunAppends.
Variable E : env.
Variables circ_file mirna_file deg_file : string.
Variable debug : bool.

Local Abbreviation run := (run_analysis E circ_file mirna_file deg_file debug).
Local Abbreviation body := (run_body E circ_file mirna_file deg_file debug).

Lemma any_event_true e : any_event e = true.
Proof. reflexivity. Qed.

Ltac any_steps :=
  repeat first
    [ apply appends_ret
    | apply appends_raise
    | apply appends_log; reflexivity
    | apply appends_emit; reflexivity
    | apply appends_call; reflexivity
    | apply appends_path_exists
    | apply appends_rmtree
    | apply appends_makedirs
    | apply appends_validate_input_format
    | apply appends_when
    | apply appends_for_each; intros ?
    | apply appends_try_except; [|intros ? ?]
    | apply appends_bind; [|intros ?] ].

Lemma appends_validate_and_prepare :
  appends any_event (validate_and_prepare E circ_file mirna_file deg_file).
Proof.
  unfold validate_and_prepare, require_file, reset_folder. any_steps.
  lazymatch goal with |- appends _ (if ?b then _ else _) => destruct b end; any_steps.
Qed.

Lemma appends_predict_stage :
  appends any_event (predict_stage E circ_file mirna_file deg_file).
Proof. unfold predict_stage. any_steps. Qed.

Lemma appends_construct_network_stage p :
  appends any_event (construct_network_stage E debug p).
Proof.
  unfold construct_network_stage.
  apply appends_bind; [any_steps|intros _].
  apply appends_bind; [any_steps|intros _].
  apply appends_try_except; [|intros cls msg; any_steps].
  apply appends_bind; [any_steps|]. intros [[nodes edges]|]; any_steps.
Qed.

Lemma appends_overlap_stage p : appends any_event (overlap_stage E debug p).
Proof.
  unfold overlap_stage.
  apply appends_bind; [any_steps|]. intros [[|n]|]; [any_steps| |any_steps].
  apply appends_bind; [any_steps|intros _].
  apply appends_bind; [any_steps|intros _].
  apply appends_construct_network_stage.
Qed.

Lemma appends_extract_overlap_stage p :
  appends any_event (extract_overlap_stage E debug p).
Proof. unfold extract_overlap_stage. any_steps. Qed.

Lemma appends_enrich_stage : appends any_event (enrich_stage E).
Proof.
  unfold enrich_stage. any_steps.
  lazymatch goal with |- appends _ (if ?b then _ else _) => destruct b end; any_steps.
Qed.

Lemma appends_ppi_stage : appends any_event (ppi_stage E).
Proof.
  unfold ppi_stage. any_steps.
  lazymatch goal with |- appends _ (if ?b then _ else _) => destruct b end; any_steps.
Qed.

Lemma appends_drug_gene_stage : appends any_event (drug_gene_stage E).
Proof.
  unfold drug_gene_stage. any_steps.
  lazymatch goal with |- appends _ (if ?b then _ else _) => destruct b end;
    [|any_steps].
  apply (appends_weaken stage_event); [intros; reflexivity|]. apply appends_main.
Qed.

Lemma appends_through_drug_gene :
  appends any_event (through_drug_gene E circ_file mirna_file deg_file debug).
Proof.
  unfold through_drug_gene, through_ppi, through_enrich, through_overlap, through_predict.
  repeat first
    [ apply appends_validate_and_prepare
    | apply appends_predict_stage
    | apply appends_overlap_stage
    | apply appends_extract_overlap_stage
    | apply appends_enrich_stage
    | apply appends_ppi_stage
    | apply appends_drug_gene_stage
    | apply appends_ret
    | apply appends_bind; [|intros ?] ].
Qed.

Lemma appends_run_body : appends any_event body.
Proof.
  unfold run_body. apply appends_bind; [apply appends_through_drug_gene|].
  intros v. unfold summary. any_steps.
Qed.

End RunAppends.

(* ===================================================================== *)
(** * Further properties of [run_analysis] *)
(* ===================================================================== *)

Ltac bind_ok H :=
  apply bind_inv in H as [(? & ? & ? & H)|(? & _ & [=])].

Section RunOutcome.
Variable E : env.
Variables circ_file mirna_file deg_file : string.
Variable debug : bool.

Local Abbreviation run := (run_analysis E circ_file mirna_file deg_file debug).
Local Abbreviation body := (run_body E circ_file mirna_file deg_file debug).
Local Abbreviation to_drug_gene :=
  (through_drug_gene E circ_file mirna_file deg_file debug).

(** The outer handler of [run_analysis] turns every instance of
    [Exception] that the body raises into [SystemExit(1)], after the
    error line (and the stack trace under the debug flag); a normal
    return is passed on; and it does not catch [SystemExit]: an exit
    raised inside the body would leave with its own status.  This holds
    for any body in the place of the body.  The body of [run_analysis]
    itself raises no [SystemExit], its collaborators and libraries
    failing, as far as this development follows them, with instances of
    [Exception]: so such a run returns normally or exits with status 1,
    and the log it was given is kept, events being added at its end
    only. *)
Theorem outer_handler_turns_exceptions_into_exit_1 (m : M unit) (w : world) :
  let guarded := try_except m (abort debug) in
  (forall w1, m w = (Ok tt, w1) -> guarded w = (Ok tt, w1))
  /\ (forall cls msg w1,
        m w = (Raise (Exception cls msg), w1) ->
        guarded w
        = (Raise (SystemExit 1),
           World (fs w1)
                 (trace w1
                  ++ Log ERROR ("[ERROR] Pipeline failed: " +:+ msg)
                     :: (if debug then [LogTraceback ERROR cls msg] else []))))
  /\ (forall code w1,
        m w = (Raise (SystemExit code), w1) -> guarded w = (Raise (SystemExit code), w1))
  /\ run = try_except body (abort debug)
  /\ (forall code w1, body w <> (Raise (SystemExit code), w1))
  /\ (forall cls msg w', run w <> (Raise (Exception cls msg), w'))
  /\ exists w' added,
       trace w' = trace w ++ added
       /\ (run w = (Ok tt, w') \/ run w = (Raise (SystemExit 1), w')).
Proof.
  cbn zeta. split; [|split; [|split; [|split; [reflexivity|]]]].
  - intros w1 Hm. unfold try_except. rewrite Hm. reflexivity.
  - intros cls msg w1 Hm. unfold try_except. rewrite Hm. apply abort_run.
  - intros code w1 Hm. unfold try_except. rewrite Hm. reflexivity.
  - destruct (body w) as [r w1] eqn:Hbody.
    destruct (appends_run_body E circ_file mirna_file deg_file debug _ _ _ Hbody)
      as (Hr & added & Ht & _).
    split; [intros code w2 [= -> _]; exact (Hr code eq_refl)|].
    destruct r as [[]|[cls msg|code]].
    + assert (run w = (Ok tt, w1)) as Hrun.
      { unfold run_analysis, try_except. rewrite Hbody. reflexivity. }
      rewrite Hrun. split; [discriminate|].
      exists w1, added. split; [exact Ht|left; reflexivity].
    + rewrite (run_analysis_raises E circ_file mirna_file deg_file debug cls msg w w1 Hbody).
      split; [discriminate|].
      exists (World (fs w1) (trace w1 ++ abort_lines debug cls msg)),
        (added ++ abort_lines debug cls msg). cbn [trace].
      rewrite Ht, <- app_assoc. split; [reflexivity|right; reflexivity].
    + exfalso. exact (Hr code eq_refl).
Qed.






End RunOutcome.

Section RunGates.
Variable E : env.
Variables circ_file mirna_file deg_file : string.
Variable debug : bool.

Local Abbreviation run := (run_analysis E circ_file mirna_file deg_file debug).
Local Abbreviation prepare := (validate_and_prepare E circ_file mirna_file deg_file).
Local Abbreviation to_overlap := (through_overlap E circ_file mirna_file deg_file debug).

Lemma validate_result_Ok_exists f file_path expected_prefix ids :
  validate_result f file_path expected_prefix = Ok ids -> is_Some (f !! file_path).
Proof.
  unfold validate_result. destruct (f !! file_path) as [x|]; [eauto|discriminate].
Qed.

(** Once the three inputs have passed validation, the existence check
    can fail for a model artifact only: the file it reports missing is
    the classifier, the label encoder or the scaler, and it is reported
    after the line that counts the inputs. *)
Theorem missing_file_error_names_model_artifact (w : world) (c m d : list string)
    (p : string) :
  validate_result (fs w) circ_file (Some "hsa_circ_") = Ok c ->
  validate_result (fs w) mirna_file (Some "hsa-miR") = Ok m ->
  validate_result (fs w) deg_file None = Ok d ->
  first_missing (fs w) (required_files E circ_file mirna_file deg_file) = Some p ->
  p ∈ [model_file E; encoder_file E; scaler_file E]
  /\ prepare w
     = (Raise (Exception "FileNotFoundError" ("Missing file: " +:+ p)),
        World (fs w) (trace w ++ [Log INFO (inputs_message c m d)])).
Proof.
  intros Hc Hm Hd Hmiss. split.
  - unfold required_files in Hmiss. cbn [first_missing] in Hmiss.
    rewrite !bool_decide_eq_true_2 in Hmiss
      by eauto using validate_result_Ok_exists.
    repeat case_bool_decide; try discriminate; injection Hmiss as <-; set_solver.
  - rewrite validate_and_prepare_run, Hc, Hm, Hd. cbn zeta. rewrite Hmiss. reflexivity.
Qed.





End RunGates.

(* ===================================================================== *)
(** * Further properties of the input validation *)
(* ===================================================================== *)

Lemma rstrip_cons a r :
  PyStr.rstrip (String a r)
  = match PyStr.rstrip r with
    | EmptyString => if PyStr.isspace a then EmptyString else String a EmptyString
    | r' => String a r'
    end.
Proof. reflexivity. Qed.

Lemma rstrip_idempotent s : PyStr.rstrip (PyStr.rstrip s) = PyStr.rstrip s.
Proof.
  induction s as [|a r IH]; [reflexivity|]. rewrite (rstrip_cons a r).
  destruct (PyStr.rstrip r) as [|b r'] eqn:Hr.
  - destruct (PyStr.isspace a) eqn:Ha; [reflexivity|].
    rewrite rstrip_cons. cbn [PyStr.rstrip]. rewrite Ha. reflexivity.
  - rewrite rstrip_cons, IH. reflexivity.
Qed.

Lemma rstrip_head a r :
  PyStr.isspace a = false -> exists r', PyStr.rstrip (String a r) = String a r'.
Proof.
  intros Ha. rewrite rstrip_cons, Ha. destruct (PyStr.rstrip r); eauto.
Qed.

Lemma strip_idempotent s : PyStr.strip (PyStr.strip s) = PyStr.strip s.
Proof.
  unfold PyStr.strip. destruct (blank s) eqn:Hb.
  - rewrite (lstrip_blank _ Hb). reflexivity.
  - destruct (lstrip_nonblank _ Hb) as (a & r & -> & Ha).
    destruct (rstrip_head a r Ha) as (r' & Hr). rewrite Hr.
    cbn [PyStr.lstrip]. rewrite Ha, <- Hr. apply rstrip_idempotent.
Qed.

Lemma first_offending_None_inv p lines :
  first_offending p lines = None ->
  Forall (fun l => PyStr.startswith l p = true) lines.
Proof.
  induction lines as [|l ls IH]; cbn [first_offending]; [constructor|].
  destruct (PyStr.startswith l p) eqn:Hl; [|discriminate].
  intros H. constructor; auto.
Qed.

(** The lines [validate_input_format] returns are identifiers ready for
    use: none is empty, none has white space at either end, and each
    starts with the prefix when one is given. *)
Theorem validated_lines_are_trimmed_ids (file_path : string)
    (expected_prefix : option string) (w w' : world) (lines : list string) :
  validate_input_format file_path expected_prefix w = (Ok lines, w') ->
  Forall (fun l => l <> "" /\ trimmed l
                   /\ forall p, expected_prefix = Some p -> PyStr.startswith l p = true)
         lines.
Proof.
  rewrite validate_input_format_run. intros [= Hres _].
  unfold validate_result in Hres.
  destruct (fs w !! file_path) as [[text| |]|]; try discriminate.
  assert (Forall (fun l => l <> "" /\ trimmed l) (read_stripped_lines text)) as Hlines.
  { unfold read_stripped_lines. apply List.Forall_forall.
    intros l (raw & <- & [_ Hraw]%filter_In)%in_map_iff. split.
    - intros Hl. rewrite Hl in Hraw. discriminate.
    - apply strip_idempotent. }
  assert (lines = read_stripped_lines text
          /\ forall p, expected_prefix = Some p ->
                       Forall (fun l => PyStr.startswith l p = true) lines)
    as [-> Hprefix].
  { destruct expected_prefix as [p|]; [|injection Hres as <-; split; [reflexivity|discriminate]].
    destruct (PyStr.truthy p) eqn:Hp.
    - destruct (first_offending p (read_stripped_lines text)) eqn:Hfirst; [discriminate|].
      injection Hres as <-. split; [reflexivity|].
      intros p' [= <-]. apply first_offending_None_inv, Hfirst.
    - injection Hres as <-. split; [reflexivity|]. intros p' [= <-].
      destruct p; [|discriminate]. apply List.Forall_forall. intros l _.
      unfold PyStr.startswith. destruct l; reflexivity. }
  apply List.Forall_forall. intros l Hl.
  rewrite List.Forall_forall in Hlines. destruct (Hlines l Hl) as [Hne Htrim].
  split; [exact Hne|]. split; [exact Htrim|].
  intros p Hp. specialize (Hprefix p Hp). rewrite List.Forall_forall in Hprefix. auto.
Qed.

(* ===================================================================== *)
(** * Further properties of the drug-gene stage *)
(* ===================================================================== *)

Section StageOutcome.
Variable E : env.

Lemma lift_run {A} (r : result A) w : lift r w = (r, w).
Proof. reflexivity. Qed.

(** [query_dgidb] once the response has arrived with status 200 and a
    body that parses. *)
Lemma query_dgidb_parsed genes r body w :
  http_post E DrugGene.dgidb_url genes = Returns r ->
  status_code r = 200%Z ->
  json_body r = Returns body ->
  DrugGene.query_dgidb E genes w
  = match (data <-? Py.get body "data" (JDict []) ;;
           genes_obj <-? Py.get data "genes" (JDict []) ;;
           Py.get genes_obj "nodes" (JList [])) with
    | Ok nodes =>
        (Ok nodes, World (fs w) (trace w ++ [HttpPost DrugGene.dgidb_url genes]))
    | Raise (Exception cls msg) =>
        (Ok (JList []),
         World (fs w)
               (trace w ++ [HttpPost DrugGene.dgidb_url genes;
                            Log ERROR ("DGIdb request failed: " +:+ msg)]))
    | Raise (SystemExit code) =>
        (Raise (SystemExit code),
         World (fs w) (trace w ++ [HttpPost DrugGene.dgidb_url genes]))
    end.
Proof.
  intros Hpost Hstatus Hbody. unfold DrugGene.query_dgidb, try_except.
  unfold bind at 1. unfold emit at 1. cbn beta iota.
  unfold bind at 1. rewrite Hpost. cbn [of_outcome]. unfold ret at 1.
  rewrite Hstatus. cbn [Z.eqb Pos.eqb negb].
  unfold bind at 1. rewrite Hbody. cbn [of_outcome]. unfold ret at 1.
  unfold bind at 1. rewrite lift_run.
  destruct (Py.get body "data" (JDict [])) as [data|[cls msg|code]]; cbn [rbind].
  - unfold bind at 1. rewrite lift_run.
    destruct (Py.get data "genes" (JDict [])) as [genes_obj|[cls msg|code]]; cbn [rbind].
    + rewrite lift_run.
      destruct (Py.get genes_obj "nodes" (JList [])) as [nodes|[cls msg|code]].
      * reflexivity.
      * unfold bind, log, emit, ret. cbn [fs trace]. rewrite <- app_assoc. reflexivity.
      * reflexivity.
    + unfold bind, log, emit, ret. cbn [fs trace]. rewrite <- app_assoc. reflexivity.
    + reflexivity.
  - unfold bind, log, emit, ret. cbn [fs trace]. rewrite <- app_assoc. reflexivity.
  - reflexivity.
Qed.

Lemma query_dgidb_shape genes w :
  exists data logs,
    DrugGene.query_dgidb E genes w
    = (Ok data, World (fs w) (trace w ++ HttpPost DrugGene.dgidb_url genes :: logs))
    /\ (logs = [] \/ exists msg, logs = [Log ERROR msg] /\ data = JList []).
Proof.
  destruct (http_post E DrugGene.dgidb_url genes) as [r|cls msg] eqn:Hpost.
  2:{ exists (JList []), [Log ERROR ("DGIdb request failed: " +:+ msg)]. split; [|eauto].
      unfold DrugGene.query_dgidb, try_except.
      unfold bind at 1. unfold emit at 1. cbn beta iota.
      unfold bind at 1. rewrite Hpost. cbn [of_outcome]. unfold raise at 1.
      unfold bind, log, emit, ret. cbn [fs trace]. rewrite <- app_assoc. reflexivity. }
  destruct (Z.eq_dec (status_code r) 200%Z) as [Hstatus|Hstatus].
  2:{ eexists (JList []), [Log ERROR _]. split; [|eauto].
      rewrite (query_dgidb_error_status E genes r w Hpost Hstatus). reflexivity. }
  destruct (json_body r) as [body|cls msg] eqn:Hbody.
  2:{ exists (JList []), [Log ERROR ("DGIdb request failed: " +:+ msg)]. split; [|eauto].
      unfold DrugGene.query_dgidb, try_except.
      unfold bind at 1. unfold emit at 1. cbn beta iota.
      unfold bind at 1. rewrite Hpost. cbn [of_outcome]. unfold ret at 1.
      rewrite Hstatus. cbn [Z.eqb Pos.eqb negb].
      unfold bind at 1. rewrite Hbody. cbn [of_outcome]. unfold raise at 1.
      unfold bind, log, emit, ret. cbn [fs trace]. rewrite <- app_assoc. reflexivity. }
  rewrite (query_dgidb_parsed genes r body w Hpost Hstatus Hbody).
  assert (no_exit (data <-? Py.get body "data" (JDict []) ;;
                   genes_obj <-? Py.get data "genes" (JDict []) ;;
                   Py.get genes_obj "nodes" (JList []))) as Hne
    by no_exit_steps.
  destruct (data <-? Py.get body "data" (JDict []) ;;
            genes_obj <-? Py.get data "genes" (JDict []) ;;
            Py.get genes_obj "nodes" (JList [])) as [nodes|[cls msg|code]].
  - exists nodes, []. split; [reflexivity|auto].
  - eexists (JList []), [Log ERROR _]. split; [reflexivity|eauto].
  - exfalso. exact (Hne code eq_refl).
Qed.

(** [query_dgidb] never raises and never touches the file system; it
    sends one request, for the genes it was given; and whenever it logs
    anything it is one error line, and the result is then the empty
    list. *)
Theorem query_dgidb_never_raises (genes : list string) (w : world) :
  exists data logs,
    DrugGene.query_dgidb E genes w
    = (Ok data, World (fs w) (trace w ++ HttpPost DrugGene.dgidb_url genes :: logs))
    /\ List.filter is_request (HttpPost DrugGene.dgidb_url genes :: logs)
       = [HttpPost DrugGene.dgidb_url genes]
    /\ (logs = [] \/ exists msg, logs = [Log ERROR msg] /\ data = JList [])
    /\ (forall cls msg,
          http_post E DrugGene.dgidb_url genes = Throws cls msg ->
          logs = [Log ERROR ("DGIdb request failed: " +:+ msg)])
    /\ (forall r cls msg,
          http_post E DrugGene.dgidb_url genes = Returns r ->
          status_code r = 200%Z -> json_body r = Throws cls msg ->
          logs = [Log ERROR ("DGIdb request failed: " +:+ msg)]).
Proof.
  destruct (query_dgidb_shape genes w) as (data & logs & Hrun & Hlogs).
  exists data, logs. split; [exact Hrun|]. split.
  { destruct Hlogs as [->|(msg & -> & _)]; reflexivity. }
  split; [exact Hlogs|]. split.
  - intros cls msg Hpost. revert Hrun. unfold DrugGene.query_dgidb, try_except.
    unfold bind at 1. unfold emit at 1. cbn beta iota.
    unfold bind at 1. rewrite Hpost. cbn [of_outcome]. unfold raise at 1.
    unfold bind, log, emit, ret. cbn [fs trace]. rewrite <- app_assoc.
    intros [= _ Ht]. apply app_inv_head in Ht. injection Ht as <-. reflexivity.
  - intros r cls msg Hpost Hstatus Hbody. revert Hrun.
    unfold DrugGene.query_dgidb, try_except.
    unfold bind at 1. unfold emit at 1. cbn beta iota.
    unfold bind at 1. rewrite Hpost. cbn [of_outcome]. unfold ret at 1.
    rewrite Hstatus. cbn [Z.eqb Pos.eqb negb].
    unfold bind at 1. rewrite Hbody. cbn [of_outcome]. unfold raise at 1.
    unfold bind, log, emit, ret. cbn [fs trace]. rewrite <- app_assoc.
    intros [= _ Ht]. apply app_inv_head in Ht. injection Ht as <-. reflexivity.
Qed.

(** With status 200 and a body that parses to an object, [query_dgidb]
    returns what lies under data, genes, nodes; a key missing on the way
    gives the empty list without any log line, while a value on the way
    that is not an object (a null [data], say) gives the empty list with
    the error line of a failed request. *)
Theorem query_dgidb_reads_nodes (genes : list string) (r : http_response)
    (fields : list (string * json)) (w : world) :
  http_post E DrugGene.dgidb_url genes = Returns r ->
  status_code r = 200%Z ->
  json_body r = Returns (JDict fields) ->
  let sent := World (fs w) (trace w ++ [HttpPost DrugGene.dgidb_url genes]) in
  let failed := fun v =>
    World (fs w)
          (trace w ++ [HttpPost DrugGene.dgidb_url genes;
                       Log ERROR ("DGIdb request failed: '" +:+ Py.type_name v
                                    +:+ "' object has no attribute 'get'")]) in
  (Py.dict_lookup "data" fields = None ->
   DrugGene.query_dgidb E genes w = (Ok (JList []), sent))
  /\ (forall fd,
        Py.dict_lookup "data" fields = Some (JDict fd) ->
        Py.dict_lookup "genes" fd = None ->
        DrugGene.query_dgidb E genes w = (Ok (JList []), sent))
  /\ (forall fd fg,
        Py.dict_lookup "data" fields = Some (JDict fd) ->
        Py.dict_lookup "genes" fd = Some (JDict fg) ->
        DrugGene.query_dgidb E genes w
        = (Ok (from_option id (JList []) (Py.dict_lookup "nodes" fg)), sent))
  /\ (forall v,
        Py.dict_lookup "data" fields = Some v ->
        (forall fd, v <> JDict fd) ->
        DrugGene.query_dgidb E genes w = (Ok (JList []), failed v))
  /\ (forall fd v,
        Py.dict_lookup "data" fields = Some (JDict fd) ->
        Py.dict_lookup "genes" fd = Some v ->
        (forall fg, v <> JDict fg) ->
        DrugGene.query_dgidb E genes w = (Ok (JList []), failed v)).
Proof.
  intros Hpost Hstatus Hbody. cbn zeta.
  rewrite (query_dgidb_parsed genes r (JDict fields) w Hpost Hstatus Hbody).
  cbn [Py.get rbind]. repeat split.
  - intros ->. reflexivity.
  - intros fd -> Hg. cbn. rewrite Hg. reflexivity.
  - intros fd fg -> Hg. cbn. rewrite Hg. reflexivity.
  - intros v -> Hv. cbn [from_option id].
    destruct v; try reflexivity. exfalso. exact (Hv _ eq_refl).
  - intros fd v -> Hg Hv. cbn. rewrite Hg. cbn.
    destruct v; try reflexivity. exfalso. exact (Hv _ eq_refl).
Qed.

End StageOutcome.

Section StageReport.
Variable E : env.

Lemma export_full_csv_run c df w :
  DrugGene.export_full_csv E c df w
  = match run_to_csv E df (DrugGene.OUTPUT_FULL_CSV c) (fs w) with
    | (Returns _, f') =>
        (Ok tt,
         World f' (trace w ++ [Call to_csv;
                               Log INFO ("Full CSV saved → " +:+ DrugGene.OUTPUT_FULL_CSV c)]))
    | (Throws cls msg, f') =>
        (Ok tt,
         World f' (trace w ++ [Call to_csv;
                               Log ERROR ("Failed to save full CSV: " +:+ msg)]))
    end.
Proof.
  unfold DrugGene.export_full_csv, try_except. unfold bind at 1. rewrite call_run.
  destruct (run_to_csv E df (DrugGene.OUTPUT_FULL_CSV c) (fs w)) as [[[]|cls msg] f'];
    unfold log, emit; cbn [fs trace]; rewrite <- app_assoc; reflexivity.
Qed.

Lemma draw_stacked_bar_run c df w :
  DrugGene.draw_stacked_bar E c df w
  = match run_plot_savefig E
            (stacked_bar_data (sort_values_desc E) TOP_GENES (DrugGene.bar_rows df))
            (DrugGene.OUTPUT_BAR c) (fs w) with
    | (Returns _, f') =>
        (Ok tt,
         World f' (trace w ++ [Call plot_savefig;
                               Log INFO ("Stacked bar plot saved → "
                                           +:+ DrugGene.OUTPUT_BAR c)]))
    | (Throws cls msg, f') =>
        (Raise (Exception cls msg), World f' (trace w ++ [Call plot_savefig]))
    end.
Proof.
  unfold DrugGene.draw_stacked_bar. cbn zeta. unfold bind at 1. rewrite call_run.
  destruct (run_plot_savefig E _ (DrugGene.OUTPUT_BAR c) (fs w)) as [[[]|cls msg] f'].
  - unfold log, emit. cbn [fs trace]. rewrite <- app_assoc. reflexivity.
  - reflexivity.
Qed.

Lemma load_gene_names_Ok file_path w :
  exists genes w1,
    DrugGene.load_gene_names E file_path w = (Ok genes, w1) /\ NoDup genes.
Proof.
  rewrite load_gene_names_run.
  destruct (run_read_csv E file_path (fs w)) as [df|cls msg].
  - destruct (DrugGene.column "Gene" df) as [cells|]; eexists _, _;
      (split; [reflexivity|]); [apply NoDup_unique|constructor].
  - eexists _, _. split; [reflexivity|constructor].
Qed.

Lemma query_dgidb_request_fails genes cls msg w :
  http_post E DrugGene.dgidb_url genes = Throws cls msg ->
  DrugGene.query_dgidb E genes w
  = (Ok (JList []),
     World (fs w)
           (trace w ++ [HttpPost DrugGene.dgidb_url genes;
                        Log ERROR ("DGIdb request failed: " +:+ msg)])).
Proof.
  intros Hpost. unfold DrugGene.query_dgidb, try_except.
  unfold bind at 1. unfold emit at 1. cbn beta iota.
  unfold bind at 1. rewrite Hpost. cbn [of_outcome]. unfold raise at 1.
  unfold bind, log, emit, ret. cbn [fs trace]. rewrite <- app_assoc. reflexivity.
Qed.

Lemma run_pipeline_no_genes c w w1 :
  DrugGene.load_gene_names E (DrugGene.INPUT_FILE c) (World (fs w) (trace w ++ [started]))
  = (Ok [], w1) ->
  (DrugGene.run_pipeline E c w).1 = Ok tt.
Proof. intros Hload. rewrite run_pipeline_start, Hload. reflexivity. Qed.

(** How [run_pipeline] ends once genes are loaded and the response is
    there. *)
Lemma run_pipeline_result c w genes w1 data w2 :
  DrugGene.load_gene_names E (DrugGene.INPUT_FILE c) (World (fs w) (trace w ++ [started]))
  = (Ok genes, w1) ->
  genes <> [] ->
  DrugGene.query_dgidb E genes
    (World (fs w1)
           (trace w1 ++ [Log INFO ("Querying DGIdb for " +:+ pretty (length genes)
                                     +:+ " genes...")]))
  = (Ok data, w2) ->
  (DrugGene.run_pipeline E c w).1
  = if negb (truthy data) then Ok tt
    else match extract_records (repr_str E) data with
         | Raise e => Raise e
         | Ok [] => Ok tt
         | Ok df =>
             match (run_plot_savefig E
                      (stacked_bar_data (sort_values_desc E) TOP_GENES
                                        (DrugGene.bar_rows df))
                      (DrugGene.OUTPUT_BAR c)
                      (run_to_csv E df (DrugGene.OUTPUT_FULL_CSV c) (fs w2)).2).1 with
             | Returns _ => Ok tt
             | Throws cls msg => Raise (Exception cls msg)
             end
         end.
Proof.
  intros Hload Hgenes Hquery. rewrite run_pipeline_start, Hload.
  destruct genes as [|g gs]; [contradiction|].
  unfold bind at 1. unfold log at 1, emit at 1. cbn beta iota.
  unfold bind at 1. rewrite Hquery.
  destruct (negb (truthy data)); [reflexivity|].
  unfold bind at 1. rewrite extract_interactions_run.
  destruct (extract_records (repr_str E) data) as [[|r df]|e]; [reflexivity| |reflexivity].
  unfold bind at 1. rewrite export_full_csv_run. cbn [fs trace].
  destruct (run_to_csv E (r :: df) (DrugGene.OUTPUT_FULL_CSV c) (fs w2)) as [[[]|cls msg] f1];
    cbn [snd]; unfold bind at 1; rewrite draw_stacked_bar_run; cbn [fs trace];
    destruct (run_plot_savefig E _ (DrugGene.OUTPUT_BAR c) f1) as [[[]|cls' msg'] f2];
    reflexivity.
Qed.

(** The only exceptions that leave [run_pipeline] come from flattening
    the response of this run or from saving the plot of its rows:
    [run_pipeline] raises [e] exactly when genes were loaded, the
    response to the request for them is not empty, and either flattening
    that response raises [e], or it gives rows and saving their plot
    raises [e], whether the CSV export before it worked or not.  A CSV
    that cannot be read, a request that fails and a CSV export that
    fails are never raised. *)
Theorem run_pipeline_raises_only_from_flatten_or_plot (c : DrugGene.config)
    (w : world) (e : exn) :
  let loaded :=
    DrugGene.load_gene_names E (DrugGene.INPUT_FILE c)
      (World (fs w) (trace w ++ [started])) in
  let asking := fun (genes : list string) (w1 : world) =>
    World (fs w1)
          (trace w1 ++ [Log INFO ("Querying DGIdb for " +:+ pretty (length genes)
                                    +:+ " genes...")]) in
  let pivot := fun df =>
    stacked_bar_data (sort_values_desc E) TOP_GENES (DrugGene.bar_rows df) in
  ((DrugGene.run_pipeline E c w).1 = Raise e <->
   exists genes w1 data w2,
     loaded = (Ok genes, w1)
     /\ genes <> []
     /\ DrugGene.query_dgidb E genes (asking genes w1) = (Ok data, w2)
     /\ truthy data = true
     /\ (extract_records (repr_str E) data = Raise e
         \/ exists df csv f1 cls msg f2,
              extract_records (repr_str E) data = Ok df
              /\ df <> []
              /\ run_to_csv E df (DrugGene.OUTPUT_FULL_CSV c) (fs w2) = (csv, f1)
              /\ run_plot_savefig E (pivot df) (DrugGene.OUTPUT_BAR c) f1
                 = (Throws cls msg, f2)
              /\ e = Exception cls msg))
  /\ (forall cls msg,
        run_read_csv E (DrugGene.INPUT_FILE c) (fs w) = Throws cls msg ->
        (DrugGene.run_pipeline E c w).1 = Ok tt)
  /\ (forall genes w1 cls msg,
        loaded = (Ok genes, w1) ->
        http_post E DrugGene.dgidb_url genes = Throws cls msg ->
        (DrugGene.run_pipeline E c w).1 = Ok tt)
  /\ (forall genes w1 data w2 df cls msg f1 f2,
        loaded = (Ok genes, w1) ->
        DrugGene.query_dgidb E genes (asking genes w1) = (Ok data, w2) ->
        extract_records (repr_str E) data = Ok df ->
        run_to_csv E df (DrugGene.OUTPUT_FULL_CSV c) (fs w2) = (Throws cls msg, f1) ->
        run_plot_savefig E (pivot df) (DrugGene.OUTPUT_BAR c) f1 = (Returns tt, f2) ->
        (DrugGene.run_pipeline E c w).1 = Ok tt).
Proof.
  cbn zeta.
  destruct (load_gene_names_Ok (DrugGene.INPUT_FILE c) (World (fs w) (trace w ++ [started])))
    as (genes & w1 & Hload & _).
  split; [split|split; [|split]].
  - (* a raise has one of the two causes *)
    destruct genes as [|g gs].
    { rewrite (run_pipeline_no_genes c w w1 Hload). discriminate. }
    destruct (query_dgidb_shape E (g :: gs)
                (World (fs w1)
                   (trace w1 ++ [Log INFO ("Querying DGIdb for "
                                             +:+ pretty (length (g :: gs)) +:+ " genes...")])))
      as (data & logs & Hquery & _).
    rewrite (run_pipeline_result c w _ _ _ _ Hload ltac:(discriminate) Hquery).
    intros Hraise. exists (g :: gs), w1, data. eexists.
    split; [exact Hload|]. split; [discriminate|]. split; [exact Hquery|].
    destruct (truthy data); [|discriminate]. split; [reflexivity|]. cbn [negb] in Hraise.
    destruct (extract_records (repr_str E) data) as [[|r df]|e'];
      [discriminate| |left; injection Hraise as ->; reflexivity].
    right. cbn [fs] in Hraise |- *.
    destruct (run_to_csv E (r :: df) (DrugGene.OUTPUT_FULL_CSV c) (fs w1)) as [csv f1]
      eqn:Hcsv.
    cbn [snd] in Hraise.
    destruct (run_plot_savefig E _ (DrugGene.OUTPUT_BAR c) f1) as [[[]|cls msg] f2] eqn:Hplot;
      [discriminate|].
    cbn [fst] in Hraise. injection Hraise as <-.
    exists (r :: df), csv, f1, cls, msg, f2.
    split; [reflexivity|]. split; [discriminate|]. split; [exact Hcsv|].
    split; [exact Hplot|reflexivity].
  - (* each cause raises *)
    intros (genes' & w1' & data & w2 & Hload' & Hgenes & Hquery & Hdata & Hcause).
    rewrite (run_pipeline_result c w _ _ _ _ Hload' Hgenes Hquery), Hdata. cbn [negb].
    destruct Hcause as [->|(df & csv & f1 & cls & msg & f2 & -> & Hdf & Hcsv & Hplot & ->)];
      [reflexivity|].
    destruct df as [|r df]; [contradiction|]. rewrite Hcsv. cbn [snd]. rewrite Hplot.
    reflexivity.
  - (* a CSV that cannot be read *)
    intros cls msg Hcsv. rewrite load_gene_names_run in Hload. cbn [fs] in Hload.
    rewrite Hcsv in Hload. injection Hload as <- <-.
    apply (run_pipeline_no_genes c w
             (World (fs w)
                    ((trace w ++ [started])
                     ++ [Call read_csv;
                         Log ERROR ("Failed to read input file: " +:+ msg)]))).
    rewrite load_gene_names_run. cbn [fs trace]. rewrite Hcsv. reflexivity.
  - (* a request that fails *)
    intros genes' w1' cls msg Hload' Hpost. destruct genes' as [|g gs].
    { exact (run_pipeline_no_genes c w w1' Hload'). }
    rewrite (run_pipeline_result c w _ _ _ _ Hload' ltac:(discriminate)
               (query_dgidb_request_fails (g :: gs) cls msg _ Hpost)).
    reflexivity.
  - (* a CSV export that fails *)
    intros genes' w1' data w2 df cls msg f1 f2 Hload' Hquery Hdf Hcsv Hplot.
    destruct genes' as [|g gs].
    { exact (run_pipeline_no_genes c w w1' Hload'). }
    rewrite (run_pipeline_result c w _ _ _ _ Hload' ltac:(discriminate) Hquery), Hdf.
    destruct (negb (truthy data)); [reflexivity|].
    destruct df as [|r df]; [reflexivity|]. rewrite Hcsv. cbn [snd]. rewrite Hplot.
    reflexivity.
Qed.

Lemma report_events_no_request l :
  forallb report_event l = true -> List.filter is_request l = [].
Proof.
  induction l as [|e l IH]; [reflexivity|]. cbn [forallb List.filter].
  intros [He Hl]%andb_true_iff. unfold report_event in He.
  apply andb_true_iff in He as [_ He]. apply negb_true_iff in He. rewrite He. auto.
Qed.

(** [run_pipeline] sends at most one request: none when
    [load_gene_names] returned no gene, otherwise exactly one, to the
    DGIdb endpoint, for all the genes that [load_gene_names] returned at
    once, each listed once. *)
Theorem run_pipeline_sends_at_most_one_request (c : DrugGene.config) (w : world) :
  exists genes w1 added,
    DrugGene.load_gene_names E (DrugGene.INPUT_FILE c)
      (World (fs w) (trace w ++ [started]))
    = (Ok genes, w1)
    /\ NoDup genes
    /\ trace (DrugGene.run_pipeline E c w).2 = trace w ++ added
    /\ List.filter is_request added
       = match genes with
         | [] => []
         | _ => [HttpPost DrugGene.dgidb_url genes]
         end.
Proof.
  destruct (load_gene_names_Ok (DrugGene.INPUT_FILE c) (World (fs w) (trace w ++ [started])))
    as (genes & w1 & Hload & Hnodup).
  exists genes, w1.
  pose proof Hload as Hshape. rewrite load_gene_names_run in Hshape. cbn [fs trace] in Hshape.
  assert (exists line, trace w1 = (trace w ++ [started]) ++ [Call read_csv; Log line.1 line.2])
    as [line Ht1].
  { destruct (run_read_csv E (DrugGene.INPUT_FILE c) (fs w)) as [df|cls msg].
    - destruct (DrugGene.column "Gene" df) as [cells|]; injection Hshape as _ <-.
      + eexists (INFO, _). reflexivity.
      + eexists (ERROR, _). reflexivity.
    - injection Hshape as _ <-. eexists (ERROR, _). reflexivity. }
  rewrite run_pipeline_start, Hload. destruct genes as [|g gs].
  - cbn [snd trace]. rewrite Ht1, <- !app_assoc. eexists.
    split; [reflexivity|]. split; [exact Hnodup|]. split; reflexivity.
  - unfold bind at 1. unfold log at 1, emit at 1. cbn beta iota.
    unfold bind at 1.
    match goal with
    | |- context [DrugGene.query_dgidb E ?gs ?w0] =>
        destruct (query_dgidb_shape E gs w0) as (data & logs & -> & Hlogs)
    end.
    match goal with
    | |- context [(if negb (truthy data) then ?a else ?b) ?w0] =>
        destruct ((if negb (truthy data) then a else b) w0) as [r w'] eqn:Hrest;
        destruct (appends_report E c data _ _ _ Hrest) as (_ & added & Ht & HP)
    end.
    cbn [snd]. rewrite Ht. cbn [trace]. rewrite Ht1, <- !app_assoc.
    eexists. split; [reflexivity|]. split; [exact Hnodup|]. split; [reflexivity|].
    cbn [app List.filter is_request]. rewrite List.filter_app, (report_events_no_request _ HP).
    destruct Hlogs as [->|(msg & -> & _)]; reflexivity.
Qed.

End StageReport.

Section StageOnConsole.
Variable E : env.

(** Of the lines the drug-gene stage logs, [ConciseConsoleFilter] shows
    the warnings and the errors and nothing else: none of its lines
    below the warning level starts with one of the markers of the
    filter.  The stage logs no stack trace, and the only library calls
    it makes are reading the gene CSV, writing the interaction CSV and
    saving the plot: it calls no collaborator of [run_analysis]. *)
Theorem drug_gene_stage_shows_only_warnings_on_console
    (hub_genes_path output_dir : string) (w : world) :
  exists added,
    trace (DrugGene.main E hub_genes_path output_dir w).2 = trace w ++ added
    /\ (forall lvl msg,
          In (Log lvl msg) added ->
          (ConciseConsoleFilter_filter lvl msg = true <-> lvl = WARNING \/ lvl = ERROR))
    /\ (forall lvl cls msg, ~ In (LogTraceback lvl cls msg) added)
    /\ (forall f, In (Call f) added -> f = read_csv \/ f = to_csv \/ f = plot_savefig).
Proof.
  destruct (DrugGene.main E hub_genes_path output_dir w) as [r w'] eqn:Hrun.
  destruct (appends_main E hub_genes_path output_dir _ _ _ Hrun)
    as (_ & added & Ht & Hadded).
  exists added. split; [exact Ht|].
  rewrite forallb_forall in Hadded. split; [|split].
  - intros lvl msg Hin. specialize (Hadded _ Hin). cbn [stage_event] in Hadded.
    destruct lvl.
    + apply negb_true_iff in Hadded. rewrite Hadded.
      split; [discriminate|intros [|]; discriminate].
    + apply negb_true_iff in Hadded. rewrite Hadded.
      split; [discriminate|intros [|]; discriminate].
    + split; [auto|reflexivity].
    + split; [auto|reflexivity].
  - intros lvl cls msg Hin. specialize (Hadded _ Hin). discriminate.
  - intros f Hin. specialize (Hadded _ Hin). destruct f; try discriminate; auto.
Qed.

End StageOnConsole.

Section NoInteractions.
Variable E : env.

Lemma truthy_encode nodes : truthy (Api.encode nodes) = negb (bool_decide (nodes = [])).
Proof. destruct nodes; reflexivity. Qed.

Lemma rows_no_pairs repr nodes : Api.pairs nodes = 0%nat -> Api.rows repr nodes = [].
Proof.
  intros H. apply length_zero_iff_nil. rewrite length_rows. exact H.
Qed.

(** A response with status 200 whose gene nodes carry no interaction
    writes nothing: [run_pipeline] returns normally after one request,
    with the file system as it was, without the CSV and without the
    plot.  With no node at all it warns that no data was retrieved;
    with nodes it logs that 0 interactions were extracted and warns
    that there is nothing to process. *)
Theorem no_interactions_write_nothing (c : DrugGene.config) (w : world)
    (df : dataframe) (cells : list (option string)) (r : http_response)
    (nodes : list Api.gene) :
  let genes := Pd.unique (Pd.dropna cells) in
  run_read_csv E (DrugGene.INPUT_FILE c) (fs w) = Returns df ->
  DrugGene.column "Gene" df = Some cells ->
  genes <> [] ->
  http_post E DrugGene.dgidb_url genes = Returns r ->
  status_code r = 200%Z ->
  json_body r = Returns (body_with_nodes (Api.encode nodes)) ->
  Api.pairs nodes = 0%nat ->
  exists added,
    DrugGene.run_pipeline E c w = (Ok tt, World (fs w) (trace w ++ added))
    /\ List.filter is_request added = [HttpPost DrugGene.dgidb_url genes]
    /\ List.filter is_write added = []
    /\ (nodes = [] ->
        last added = Some (Log WARNING "No interaction data retrieved."))
    /\ (nodes <> [] ->
        exists before,
          added = before ++ [Log INFO "Extracted 0 drug–gene interactions.";
                             Log WARNING "No interactions to process."]).
Proof.
  intros genes Hcsv Hcol Hgenes Hpost Hstatus Hbody Hpairs.
  rewrite run_pipeline_start, load_gene_names_run. cbn [fs trace].
  rewrite Hcsv, Hcol. change (Pd.unique (Pd.dropna cells)) with genes.
  clearbody genes. destruct genes as [|g gs]; [contradiction|]. cbn beta iota.
  unfold bind at 1. unfold log at 1, emit at 1. cbn beta iota.
  unfold bind at 1.
  rewrite (query_dgidb_parsed E (g :: gs) r _ _ Hpost Hstatus Hbody).
  cbn [body_with_nodes Py.get Py.dict_lookup String.eqb Ascii.eqb Bool.eqb from_option id rbind
       fs trace].
  rewrite truthy_encode. destruct nodes as [|n nodes].
  - cbn [bool_decide decide_rel negb]. rewrite bool_decide_eq_true_2 by reflexivity.
    cbn [negb]. unfold log, emit. cbn [fs trace]. rewrite <- !app_assoc.
    eexists. split; [reflexivity|]. cbn [app List.filter is_request is_write].
    split; [reflexivity|]. split; [reflexivity|]. split; [|intros []; reflexivity].
    intros _. reflexivity.
  - rewrite bool_decide_eq_false_2 by discriminate. cbn [negb].
    unfold bind at 1. rewrite extract_interactions_run, extract_records_encode.
    rewrite (rows_no_pairs _ _ Hpairs). cbn [length fs trace].
    unfold log, emit. cbn [fs trace]. rewrite <- !app_assoc.
    eexists. split; [reflexivity|]. cbn [app List.filter is_request is_write].
    split; [reflexivity|]. split; [reflexivity|]. split; [intros [=]|].
    intros _. eexists [_; _; _; _; _]. reflexivity.
Qed.

End NoInteractions.

Section SourceNames.

Lemma join_items_strings i ss : Py.join_items i (map JStr ss) = Ok ss.
Proof.
  revert i. induction ss as [|s ss IH]; intros i; cbn; [reflexivity|].
  rewrite IH. reflexivity.
Qed.

Lemma join_items_first_other i ss v rest :
  (forall s, v <> JStr s) ->
  Py.join_items i (map JStr ss ++ v :: rest)
  = Raise (Exception "TypeError"
             ("sequence item " +:+ pretty (i + length ss)%nat
                +:+ ": expected str instance, " +:+ Py.type_name v +:+ " found")).
Proof.
  intros Hv. revert i. induction ss as [|s ss IH]; intros i.
  - cbn [map app length Py.join_items]. rewrite Nat.add_0_r.
    destruct v; try reflexivity. exfalso. exact (Hv _ eq_refl).
  - cbn [map app length Py.join_items Py.join_item rbind]. rewrite IH.
    cbn [rbind]. rewrite Nat.add_succ_r. reflexivity.
Qed.

Lemma source_names_read (srcs : list (list (string * json))) :
  mapM (fun s => Py.get s "sourceDbName" (JStr "")) (map JDict srcs)
  = Ok (map (fun s => from_option id (JStr "") (Py.dict_lookup "sourceDbName" s)) srcs).
Proof. apply mapM_map_ok. intros s. reflexivity. Qed.

(** The [Sources] entry wants every [sourceDbName] to be a string: the
    names are then joined with "; " (a source without the key counting
    as the empty name), while the first name that is anything else, a
    null for one, raises the [TypeError] of [str.join] with its position
    and type.  The entries built with f-strings or [str] put no such
    condition on their values: a type, an attribute or a publication
    that is an object always gives its label. *)
Theorem sources_field_needs_string_names (fields : list (string * json))
    (srcs : list (list (string * json))) :
  let names :=
    map (fun s => from_option id (JStr "") (Py.dict_lookup "sourceDbName" s)) srcs in
  Py.dict_lookup "sources" fields = Some (JList (map JDict srcs)) ->
  (forall ss, names = map JStr ss ->
              sources_field (JDict fields) = Ok (PyStr.join "; " ss))
  /\ (forall ss v rest,
        names = map JStr ss ++ v :: rest ->
        (forall s, v <> JStr s) ->
        sources_field (JDict fields)
        = Raise (Exception "TypeError"
                   ("sequence item " +:+ pretty (length ss)
                      +:+ ": expected str instance, " +:+ Py.type_name v +:+ " found")))
  /\ (forall repr_str t,
        (exists s, type_label repr_str (JDict t) = Ok s)
        /\ (exists s, attribute_label repr_str (JDict t) = Ok s)
        /\ (exists s, pmid_label repr_str (JDict t) = Ok s)).
Proof.
  intros names Hsources.
  assert (sources_field (JDict fields)
          = (ss <-? Py.join_items 0 names ;; Ok (PyStr.join "; " ss))) as Hfield.
  { unfold sources_field. cbn [Py.get rbind]. rewrite Hsources.
    cbn [from_option id Py.iter rbind]. rewrite source_names_read. reflexivity. }
  split; [|split].
  - intros ss Hss. rewrite Hfield, Hss, join_items_strings. reflexivity.
  - intros ss v rest Hss Hv. rewrite Hfield, Hss, (join_items_first_other 0 ss v rest Hv).
    reflexivity.
  - intros repr_str t. repeat split; eexists; reflexivity.
Qed.

End SourceNames.

(* ===================================================================== *)
(** * The order of the calls *)
(* ===================================================================== *)

Lemma calls_of_app l1 l2 : calls_of (l1 ++ l2) = calls_of l1 ++ calls_of l2.
Proof. apply omap_app. Qed.

Lemma calls_of_no_call l : forallb no_call l = true -> calls_of l = [].
Proof.
  induction l as [|e l IH]; [reflexivity|]. cbn [forallb].
  intros [He Hl]%andb_true_iff. destruct e; try discriminate; exact (IH Hl).
Qed.

Lemma calls_within_silent {A} (m : M A) : appends no_call m -> calls_within [] m.
Proof.
  intros Hm w r w' Hrun. destruct (Hm _ _ _ Hrun) as (_ & added & Ht & Hadded).
  exists added. split; [exact Ht|]. rewrite (calls_of_no_call _ Hadded). constructor.
Qed.

Lemma calls_within_weaken (l l' : list extfn) {A} (m : M A) :
  sublist l l' -> calls_within l m -> calls_within l' m.
Proof.
  intros Hl Hm w r w' Hrun. destruct (Hm _ _ _ Hrun) as (added & Ht & Hadded).
  exists added. split; [exact Ht|]. etrans; eassumption.
Qed.

Lemma calls_within_bind (l1 l2 : list extfn) {A B} (m : M A) (k : A -> M B) :
  calls_within l1 m -> (forall a, calls_within l2 (k a)) ->
  calls_within (l1 ++ l2) (bind m k).
Proof.
  intros Hm Hk w r w' [(a & w1 & Hrun & Hrest)|(e & Hrun & ->)]%bind_inv.
  - destruct (Hm _ _ _ Hrun) as (added1 & Ht1 & H1).
    destruct (Hk a _ _ _ Hrest) as (added2 & Ht2 & H2).
    exists (added1 ++ added2). rewrite Ht2, Ht1, <- app_assoc, calls_of_app.
    split; [reflexivity|]. apply sublist_app; assumption.
  - destruct (Hm _ _ _ Hrun) as (added & Ht & H1).
    exists added. split; [exact Ht|]. apply sublist_inserts_r. exact H1.
Qed.

Lemma calls_within_try_except (l1 l2 : list extfn) {A} (body : M A)
    (handler : string -> string -> M A) :
  calls_within l1 body -> (forall cls msg, calls_within l2 (handler cls msg)) ->
  calls_within (l1 ++ l2) (try_except body handler).
Proof.
  intros Hb Hh w r w'. unfold try_except.
  destruct (body w) as [[a|[cls msg|code]] w1] eqn:Hrun.
  - intros [= <- <-]. destruct (Hb _ _ _ Hrun) as (added & Ht & H1).
    exists added. split; [exact Ht|]. apply sublist_inserts_r. exact H1.
  - intros Hrest.
    destruct (Hb _ _ _ Hrun) as (added1 & Ht1 & H1).
    destruct (Hh cls msg _ _ _ Hrest) as (added2 & Ht2 & H2).
    exists (added1 ++ added2). rewrite Ht2, Ht1, <- app_assoc, calls_of_app.
    split; [reflexivity|]. apply sublist_app; assumption.
  - intros [= <- <-]. destruct (Hb _ _ _ Hrun) as (added & Ht & H1).
    exists added. split; [exact Ht|]. apply sublist_inserts_r. exact H1.
Qed.

Lemma calls_within_call {A} f (oracle : filesystem -> outcome A * filesystem) :
  calls_within [f] (call f oracle).
Proof.
  intros w r w'. rewrite call_run.
  destruct (oracle (fs w)) as [[a|cls msg] f']; intros [= <- <-];
    exists [Call f]; (split; [reflexivity|]); cbn; reflexivity.
Qed.

(** Steps that make no call. *)
Ltac silent_steps :=
  repeat first
    [ apply appends_ret
    | apply appends_raise
    | apply appends_log; reflexivity
    | apply appends_emit; reflexivity
    | apply appends_of_outcome
    | apply appends_path_exists
    | apply appends_rmtree
    | apply appends_makedirs
    | apply appends_validate_input_format
    | apply appends_when
    | apply appends_for_each; intros ?
    | apply appends_try_except; [|intros ? ?]
    | apply appends_bind; [|intros ?] ].

Ltac silent := apply calls_within_silent; silent_steps.

(** A silent step, then the rest. *)
Ltac after_silent := apply (calls_within_bind []); [silent|intros ?].

Section CallOrder.
Variable E : env.
Variables circ_file mirna_file deg_file : string.
Variable debug : bool.

Lemma calls_within_validate_and_prepare :
  calls_within [] (validate_and_prepare E circ_file mirna_file deg_file).
Proof.
  unfold validate_and_prepare, require_file, reset_folder. silent.
  lazymatch goal with |- appends _ (if ?b then _ else _) => destruct b end; silent_steps.
Qed.

Lemma calls_within_predict_stage :
  calls_within [SecondPipeline_init; process_all_circs; find_strong_hits; match_mirnas]
               (predict_stage E circ_file mirna_file deg_file).
Proof.
  unfold predict_stage. after_silent. after_silent.
  apply (calls_within_bind [SecondPipeline_init]); [apply calls_within_call|]. intros pipe.
  apply (calls_within_bind [process_all_circs]); [apply calls_within_call|]. intros results.
  apply (calls_within_bind [find_strong_hits]); [apply calls_within_call|]. intros hits.
  apply (calls_within_bind [match_mirnas] []); [apply calls_within_call|]. intros _.
  silent.
Qed.

Lemma calls_within_construct_network_stage p :
  calls_within [construct_network] (construct_network_stage E debug p).
Proof.
  unfold construct_network_stage. after_silent. after_silent.
  apply (calls_within_try_except [construct_network] []).
  - apply (calls_within_bind [construct_network] []); [apply calls_within_call|].
    intros [[nodes edges]|]; silent.
  - intros cls msg. silent.
Qed.

Lemma calls_within_overlap_stage p :
  calls_within [analyze_mrna_overlap; create_comprehensive_excel; construct_network]
               (overlap_stage E debug p).
Proof.
  unfold overlap_stage.
  apply (calls_within_bind [analyze_mrna_overlap]); [apply calls_within_call|].
  intros [[|n]|].
  - apply (calls_within_weaken []); [apply sublist_nil_l|]. silent.
  - apply (calls_within_bind [create_comprehensive_excel]); [apply calls_within_call|].
    intros _. after_silent. apply calls_within_construct_network_stage.
  - apply (calls_within_weaken []); [apply sublist_nil_l|]. silent.
Qed.

Lemma calls_within_extract_overlap_stage p :
  calls_within [extract_overlapping_genes] (extract_overlap_stage E debug p).
Proof.
  unfold extract_overlap_stage.
  apply (calls_within_try_except [extract_overlapping_genes] []).
  - apply (calls_within_bind [extract_overlapping_genes] []); [apply calls_within_call|].
    intros g. silent.
  - intros cls msg. silent.
Qed.

Lemma calls_within_enrich_stage : calls_within [enrichment_main] (enrich_stage E).
Proof.
  unfold enrich_stage. after_silent. after_silent. after_silent.
  lazymatch goal with |- calls_within _ (if ?b then _ else _) => destruct b end.
  - apply calls_within_call.
  - apply (calls_within_weaken []); [apply sublist_nil_l|]. silent.
Qed.

Lemma calls_within_ppi_stage : calls_within [PPI_Analysis] (ppi_stage E).
Proof.
  unfold ppi_stage. after_silent. after_silent. after_silent.
  lazymatch goal with |- calls_within _ (if ?b then _ else _) => destruct b end.
  - apply calls_within_call.
  - apply (calls_within_weaken []); [apply sublist_nil_l|]. silent.
Qed.

Lemma calls_within_load_gene_names file_path :
  calls_within [read_csv] (DrugGene.load_gene_names E file_path).
Proof.
  unfold DrugGene.load_gene_names.
  apply (calls_within_try_except [read_csv] []).
  - apply (calls_within_bind [read_csv] []); [apply calls_within_call|]. intros df.
    destruct (DrugGene.column "Gene" df) as [cells|]; cbn zeta; silent.
  - intros cls msg. silent.
Qed.

Lemma calls_within_query_dgidb genes : calls_within [] (DrugGene.query_dgidb E genes).
Proof.
  intros w r w'. destruct (query_dgidb_shape E genes w) as (data & logs & -> & Hlogs).
  intros [= <- <-]. eexists. split; [reflexivity|].
  destruct Hlogs as [->|(msg & -> & _)]; constructor.
Qed.

Lemma calls_within_export_full_csv c df :
  calls_within [to_csv] (DrugGene.export_full_csv E c df).
Proof.
  unfold DrugGene.export_full_csv.
  apply (calls_within_try_except [to_csv] []).
  - apply (calls_within_bind [to_csv] []); [apply calls_within_call|]. intros _. silent.
  - intros cls msg. silent.
Qed.

Lemma calls_within_draw_stacked_bar c df :
  calls_within [plot_savefig] (DrugGene.draw_stacked_bar E c df).
Proof.
  unfold DrugGene.draw_stacked_bar. cbn zeta.
  apply (calls_within_bind [plot_savefig] []); [apply calls_within_call|]. intros _. silent.
Qed.

Lemma calls_within_extract_interactions data :
  calls_within [] (extract_interactions (repr_str E) data).
Proof.
  intros w r w'. rewrite extract_interactions_run.
  destruct (extract_records (repr_str E) data) as [df|e]; intros [= <- <-].
  - eexists. split; [reflexivity|]. constructor.
  - exists []. rewrite app_nil_r. split; [reflexivity|]. constructor.
Qed.

Lemma calls_within_run_pipeline c :
  calls_within [read_csv; to_csv; plot_savefig] (DrugGene.run_pipeline E c).
Proof.
  unfold DrugGene.run_pipeline. after_silent.
  apply (calls_within_bind [read_csv]); [apply calls_within_load_gene_names|].
  intros [|g gs].
  - apply (calls_within_weaken []); [apply sublist_nil_l|]. silent.
  - after_silent.
    apply (calls_within_bind []); [apply calls_within_query_dgidb|]. intros data.
    destruct (negb (truthy data)).
    + apply (calls_within_weaken []); [apply sublist_nil_l|]. silent.
    + apply (calls_within_bind []); [apply calls_within_extract_interactions|].
      intros [|r df].
      * apply (calls_within_weaken []); [apply sublist_nil_l|]. silent.
      * apply (calls_within_bind [to_csv]); [apply calls_within_export_full_csv|].
        intros _.
        apply (calls_within_bind [plot_savefig] []); [apply calls_within_draw_stacked_bar|].
        intros _. silent.
Qed.

Lemma calls_within_drug_gene_stage :
  calls_within [read_csv; to_csv; plot_savefig] (drug_gene_stage E).
Proof.
  unfold drug_gene_stage. after_silent. after_silent. after_silent.
  lazymatch goal with |- calls_within _ (if ?b then _ else _) => destruct b end.
  - unfold DrugGene.main. cbn zeta. after_silent. apply calls_within_run_pipeline.
  - apply (calls_within_weaken []); [apply sublist_nil_l|]. silent.
Qed.

Lemma calls_within_run_body :
  calls_within pipeline_order (run_body E circ_file mirna_file deg_file debug).
Proof.
  unfold run_body, through_drug_gene, through_ppi, through_enrich, through_overlap,
    through_predict, summary.
  apply (calls_within_bind pipeline_order []); [|intros v; silent].
  apply (calls_within_bind
           [SecondPipeline_init; process_all_circs; find_strong_hits; match_mirnas;
            analyze_mrna_overlap; create_comprehensive_excel; construct_network;
            extract_overlapping_genes; enrichment_main; PPI_Analysis]
           [read_csv; to_csv; plot_savefig]).
  2:{ intros v. apply (calls_within_bind [read_csv; to_csv; plot_savefig] []);
        [apply calls_within_drug_gene_stage|intros _; silent]. }
  apply (calls_within_bind
           [SecondPipeline_init; process_all_circs; find_strong_hits; match_mirnas;
            analyze_mrna_overlap; create_comprehensive_excel; construct_network;
            extract_overlapping_genes; enrichment_main]
           [PPI_Analysis]).
  2:{ intros v. apply (calls_within_bind [PPI_Analysis] []);
        [apply calls_within_ppi_stage|intros _; silent]. }
  apply (calls_within_bind
           [SecondPipeline_init; process_all_circs; find_strong_hits; match_mirnas;
            analyze_mrna_overlap; create_comprehensive_excel; construct_network;
            extract_overlapping_genes]
           [enrichment_main]).
  2:{ intros v. apply (calls_within_bind [enrichment_main] []);
        [apply calls_within_enrich_stage|intros _; silent]. }
  apply (calls_within_bind
           [SecondPipeline_init; process_all_circs; find_strong_hits; match_mirnas]
           [analyze_mrna_overlap; create_comprehensive_excel; construct_network;
            extract_overlapping_genes]).
  - apply (calls_within_bind [] _); [apply calls_within_validate_and_prepare|].
    intros _. apply calls_within_predict_stage.
  - intros p.
    apply (calls_within_bind
             [analyze_mrna_overlap; create_comprehensive_excel; construct_network]
             [extract_overlapping_genes]); [apply calls_within_overlap_stage|].
    intros _.
    apply (calls_within_bind [extract_overlapping_genes] []);
      [apply calls_within_extract_overlap_stage|intros genes; silent].
Qed.

(** Whatever happens, [run_analysis] reaches its collaborators and the
    libraries of the drug-gene stage in the order of the pipeline and
    each at most once: the calls of a run are a sub-sequence of
    the prediction engine, its three steps, the overlap analysis, the
    Excel export, the network, the overlapping genes, enrichment, PPI,
    and reading the hub genes, writing the CSV and saving the plot. *)
Theorem run_analysis_calls_follow_pipeline_order (w : world) :
  exists added,
    trace (run_analysis E circ_file mirna_file deg_file debug w).2 = trace w ++ added
    /\ sublist (calls_of added) pipeline_order
    /\ NoDup (calls_of added).
Proof.
  assert (calls_within pipeline_order (run_analysis E circ_file mirna_file deg_file debug))
    as Hrun.
  { unfold run_analysis. rewrite <- (app_nil_r pipeline_order).
    apply calls_within_try_except; [apply calls_within_run_body|].
    intros cls msg. unfold abort. after_silent. after_silent.
    intros w0 r0 w1 [= <- <-]. exists []. rewrite app_nil_r.
    split; [reflexivity|constructor]. }
  destruct (run_analysis E circ_file mirna_file deg_file debug w) as [r w'] eqn:Hw.
  destruct (Hrun _ _ _ Hw) as (added & Ht & Hsub).
  exists added. split; [exact Ht|]. split; [exact Hsub|].
  eapply sublist_NoDup; [|exact Hsub]. unfold pipeline_order.
  repeat (apply NoDup_cons; split; [rewrite ?elem_of_cons, elem_of_nil; intuition discriminate|]).
  apply NoDup_nil_2.
Qed.

End CallOrder.

(* ===================================================================== *)
(** * Further properties of the chart data *)
(* ===================================================================== *)

Lemma distinct_nil : distinct [] = 0%nat.
Proof. reflexivity. Qed.

Lemma distinct_mono (l l' : list string) :
  (forall x, x ∈ l -> x ∈ l') -> distinct l <= distinct l'.
Proof.
  intros Hl. unfold distinct. apply subseteq_size. intros x.
  rewrite !elem_of_list_to_set. apply Hl.
Qed.

Lemma distinct_covered (l l1 l2 : list string) :
  (forall x, x ∈ l -> x ∈ l1 \/ x ∈ l2) -> distinct l <= distinct l1 + distinct l2.
Proof.
  intros Hl. unfold distinct.
  transitivity (size ((list_to_set l1 : gset string) ∪ list_to_set l2)).
  - apply subseteq_size. intros x. rewrite elem_of_union, !elem_of_list_to_set. apply Hl.
  - rewrite size_union_alt. apply Nat.add_le_mono_l, subseteq_size.
    intros x. rewrite elem_of_difference. tauto.
Qed.

Lemma omap_all_Some {A B} (f : A -> option B) (g : A -> B) (l : list A) :
  (forall x, x ∈ l -> f x = Some (g x)) -> omap f l = map g l.
Proof.
  induction l as [|x l IH]; intros Hf; [reflexivity|].
  csimpl. rewrite (Hf x) by left. cbn [map]. f_equal.
  apply IH. intros y Hy. apply Hf. right. exact Hy.
Qed.

Section BarHeights.
Variable sort_desc : list (string * nat) -> list (string * nat).
Variable top : nat.
Variable df : list Pd.bar_row.

Lemma drugs_of_in_gene g t x : x ∈ drugs_of g t df -> x ∈ drugs_of_gene g df.
Proof.
  unfold drugs_of, drugs_of_gene. rewrite !list_elem_of_omap.
  intros (r & Hr & Hx). exists r. split; [|exact Hx].
  rewrite elem_of_filter_bool in *. destruct Hr as [Hr Hb].
  split; [exact Hr|]. apply bool_decide_eq_true in Hb as [Hg _].
  apply bool_decide_eq_true_2, Hg.
Qed.

(** The drugs of the rows of [g] whose label is among [cs] are no more
    than the cells under these labels add up to. *)
Lemma distinct_under_labels g (cs : list string) :
  distinct (omap Pd.bar_Drug
                 (List.filter (fun r => bool_decide (Pd.bar_Gene r = Some g /\ label r ∈ cs))
                              df))
  <= list_sum (map (fun t => distinct (drugs_of g t df)) cs).
Proof.
  induction cs as [|c cs IH].
  - rewrite filter_none; [csimpl; rewrite distinct_nil; apply Nat.le_0_l|].
    intros r _. apply bool_decide_eq_false_2. intros [_ Hr]. inversion Hr.
  - cbn [map list_sum]. etrans; [|apply Nat.add_le_mono_l, IH].
    apply distinct_covered. intros x. unfold drugs_of. rewrite !list_elem_of_omap.
    intros (r & Hr & Hx). rewrite elem_of_filter_bool in Hr. destruct Hr as [Hr Hb].
    apply bool_decide_eq_true in Hb as [Hg Hl].
    apply elem_of_cons in Hl as [Hl|Hl]; [left|right]; exists r; (split; [|exact Hx]);
      rewrite elem_of_filter_bool; (split; [exact Hr|]); apply bool_decide_eq_true_2; auto.
Qed.

(** In the frame behind the chart no segment of the bar of a gene is
    longer than the number of distinct drugs of the gene, and the whole
    bar is at least that long: a drug that interacts with the gene in
    several ways is counted once under each type. *)
Theorem stacked_bar_height_bounds (g : string) :
  let T := stacked_bar_data sort_desc top df in
  g ∈ Pd.index T ->
  (forall t, t ∈ Pd.columns T ->
             exists n, Pd.cell T g t = Some n /\ n <= distinct (drugs_of_gene g df))
  /\ distinct (drugs_of_gene g df) <= bar_height T g.
Proof.
  cbn zeta. unfold bar_height. rewrite (stacked_bar_data_table sort_desc top df).
  cbn [Pd.index Pd.columns]. intros Hg.
  pose proof (elem_of_cols df) as Hcols. revert Hcols.
  generalize (Pd.group_keys String.leb
                (map (fun e : string * string * nat => e.1.2)
                     (map (fun k => (k, distinct (drugs_of k.1 k.2 df)))
                          (Pd.group_keys Pd.pair_leb (omap Pd.key2 (Pd.fillna_types df)))))).
  intros cols Hcols. split.
  - intros t Ht. eexists. split; [apply cell_of_map; assumption|].
    apply distinct_mono, drugs_of_in_gene.
  - rewrite (omap_all_Some _ (fun t => distinct (drugs_of g t df)))
      by (intros t Ht; apply cell_of_map; assumption).
    etrans; [|apply distinct_under_labels].
    apply distinct_mono. intros x. unfold drugs_of_gene. rewrite !list_elem_of_omap.
    intros (r & Hr & Hx). exists r. split; [|exact Hx].
    rewrite elem_of_filter_bool in *. destruct Hr as [Hr Hb].
    split; [exact Hr|]. apply bool_decide_eq_true in Hb.
    apply bool_decide_eq_true_2. split; [exact Hb|].
    apply Hcols. exists r. rewrite Hb. eauto.
Qed.

End BarHeights.

(* ===================================================================== *)
(** * The further properties on the sample run *)
(* ===================================================================== *)

Lemma outer_handler_turns_exceptions_into_exit_1_witness :
  try_except (raise (SystemExit 2)) (abort false) sample_world
  = (Raise (SystemExit 2), sample_world)
  /\ try_except (raise (Exception "ConnectionError" "service unreachable")) (abort true)
                sample_world
     = (Raise (SystemExit 1),
        World (fs sample_world)
              (trace sample_world
               ++ [Log ERROR "[ERROR] Pipeline failed: service unreachable";
                   LogTraceback ERROR "ConnectionError" "service unreachable"])).
Proof.
  split.
  - destruct (outer_handler_turns_exceptions_into_exit_1 sample_env_http_500 "circ.txt"
                "mirna.txt" "deg.txt" false (raise (SystemExit 2)) sample_world)
      as (_ & _ & Hexit & _).
    exact (Hexit 2%Z sample_world eq_refl).
  - destruct (outer_handler_turns_exceptions_into_exit_1 sample_env_http_500 "circ.txt"
                "mirna.txt" "deg.txt" true
                (raise (Exception "ConnectionError" "service unreachable")) sample_world)
      as (_ & Hraise & _).
    exact (Hraise "ConnectionError" "service unreachable" sample_world eq_refl).
Defined.


Lemma missing_file_error_names_model_artifact_witness :
  let E := sample_env_http_500 in
  let w := World (delete "app/Model_Files/label_encoder.pkl" sample_fs) [] in
  let c := ["hsa_circ_0001"; "hsa_circ_0002"] in
  let m := ["hsa-miR-21-5p"] in
  let d := ["TP53"; "EGFR"] in
  let p := "app/Model_Files/label_encoder.pkl" in
  p ∈ [model_file E; encoder_file E; scaler_file E]
  /\ validate_and_prepare E "circ.txt" "mirna.txt" "deg.txt" w
     = (Raise (Exception "FileNotFoundError" ("Missing file: " +:+ p)),
        World (fs w) (trace w ++ [Log INFO (inputs_message c m d)])).
Proof.
  cbn zeta.
  apply (missing_file_error_names_model_artifact sample_env_http_500 "circ.txt"
           "mirna.txt" "deg.txt"
           (World (delete "app/Model_Files/label_encoder.pkl" sample_fs) [])
           ["hsa_circ_0001"; "hsa_circ_0002"] ["hsa-miR-21-5p"] ["TP53"; "EGFR"]
           "app/Model_Files/label_encoder.pkl");
    vm_compute; reflexivity.
Defined.


Lemma validated_lines_are_trimmed_ids_witness :
  Forall (fun l => l <> "" /\ trimmed l
                   /\ forall p, Some "hsa_circ_" = Some p -> PyStr.startswith l p = true)
         ["hsa_circ_0001"; "hsa_circ_0002"].
Proof.
  apply (validated_lines_are_trimmed_ids "circ.txt" (Some "hsa_circ_") sample_world
           sample_world ["hsa_circ_0001"; "hsa_circ_0002"]).
  vm_compute. reflexivity.
Defined.

Lemma query_dgidb_never_raises_witness :
  let E := sample_env_response (Throws "ConnectTimeout" "timed out") in
  exists data,
    DrugGene.query_dgidb E ["TP53"] sample_world
    = (Ok data,
       World (fs sample_world)
             (trace sample_world
              ++ [HttpPost DrugGene.dgidb_url ["TP53"];
                  Log ERROR "DGIdb request failed: timed out"])).
Proof.
  cbn zeta.
  destruct (query_dgidb_never_raises
              (sample_env_response (Throws "ConnectTimeout" "timed out"))
              ["TP53"] sample_world)
    as (data & logs & Hrun & _ & _ & Hthrows & _).
  exists data. rewrite Hrun, (Hthrows "ConnectTimeout" "timed out" eq_refl). reflexivity.
Defined.

Lemma query_dgidb_reads_nodes_witness :
  let E := sample_env_response (Returns (sample_ok_response (JDict [("data", JNull)]))) in
  DrugGene.query_dgidb E ["TP53"] sample_world
  = (Ok (JList []),
     World (fs sample_world)
           (trace sample_world
            ++ [HttpPost DrugGene.dgidb_url ["TP53"];
                Log ERROR "DGIdb request failed: 'NoneType' object has no attribute 'get'"])).
Proof.
  cbn zeta.
  destruct (query_dgidb_reads_nodes
              (sample_env_response (Returns (sample_ok_response (JDict [("data", JNull)]))))
              ["TP53"] (sample_ok_response (JDict [("data", JNull)])) [("data", JNull)]
              sample_world eq_refl eq_refl eq_refl)
    as (_ & _ & _ & Hnull & _).
  rewrite (Hnull JNull eq_refl); [reflexivity|discriminate].
Defined.

Lemma run_pipeline_raises_only_from_flatten_or_plot_witness :
  let E := sample_env_response
             (Returns (sample_ok_response (body_with_nodes sample_null_source_nodes))) in
  let e := Exception "TypeError"
             "sequence item 1: expected str instance, NoneType found" in
  exists genes w1 data w2,
    DrugGene.load_gene_names E (DrugGene.INPUT_FILE sample_config)
      (World (fs sample_world) (trace sample_world ++ [started]))
    = (Ok genes, w1)
    /\ genes <> []
    /\ DrugGene.query_dgidb E genes
         (World (fs w1)
                (trace w1 ++ [Log INFO ("Querying DGIdb for " +:+ pretty (length genes)
                                          +:+ " genes...")]))
       = (Ok data, w2)
    /\ truthy data = true
    /\ (extract_records (repr_str E) data = Raise e
        \/ exists df csv f1 cls msg f2,
             extract_records (repr_str E) data = Ok df
             /\ df <> []
             /\ run_to_csv E df (DrugGene.OUTPUT_FULL_CSV sample_config) (fs w2) = (csv, f1)
             /\ run_plot_savefig E
                  (stacked_bar_data (sort_values_desc E) TOP_GENES (DrugGene.bar_rows df))
                  (DrugGene.OUTPUT_BAR sample_config) f1
                = (Throws cls msg, f2)
             /\ e = Exception cls msg).
Proof.
  cbn zeta.
  apply (proj1 (proj1 (run_pipeline_raises_only_from_flatten_or_plot
                         (sample_env_response
                            (Returns (sample_ok_response
                                        (body_with_nodes sample_null_source_nodes))))
                         sample_config sample_world
                         (Exception "TypeError"
                            "sequence item 1: expected str instance, NoneType found")))).
  vm_compute. reflexivity.
Defined.

Lemma no_interactions_write_nothing_witness :
  let E := sample_env_response
             (Returns (sample_ok_response (body_with_nodes (Api.encode sample_idle_nodes)))) in
  let genes := ["TP53"; "EGFR"] in
  exists added,
    DrugGene.run_pipeline E sample_config sample_world
    = (Ok tt, World (fs sample_world) (trace sample_world ++ added))
    /\ List.filter is_request added = [HttpPost DrugGene.dgidb_url genes]
    /\ List.filter is_write added = []
    /\ (sample_idle_nodes = [] ->
        last added = Some (Log WARNING "No interaction data retrieved."))
    /\ (sample_idle_nodes <> [] ->
        exists before,
          added = before ++ [Log INFO "Extracted 0 drug–gene interactions.";
                             Log WARNING "No interactions to process."]).
Proof.
  cbn zeta.
  apply (no_interactions_write_nothing
           (sample_env_response
              (Returns (sample_ok_response
                          (body_with_nodes (Api.encode sample_idle_nodes)))))
           sample_config sample_world sample_genes
           [Some "TP53"; None; Some "TP53"; Some "EGFR"]
           (sample_ok_response (body_with_nodes (Api.encode sample_idle_nodes)))
           sample_idle_nodes);
    try (vm_compute; reflexivity).
  vm_compute. discriminate.
Defined.

Lemma sources_field_needs_string_names_witness :
  let fields := [("sources", JList (map JDict sample_source_fields))] in
  let names := [JStr "ChEMBL"; JNull] in
  (forall ss, names = map JStr ss ->
              sources_field (JDict fields) = Ok (PyStr.join "; " ss))
  /\ (forall ss v rest,
        names = map JStr ss ++ v :: rest ->
        (forall s, v <> JStr s) ->
        sources_field (JDict fields)
        = Raise (Exception "TypeError"
                   ("sequence item " +:+ pretty (length ss)
                      +:+ ": expected str instance, " +:+ Py.type_name v +:+ " found")))
  /\ (forall repr_str t,
        (exists s, type_label repr_str (JDict t) = Ok s)
        /\ (exists s, attribute_label repr_str (JDict t) = Ok s)
        /\ (exists s, pmid_label repr_str (JDict t) = Ok s)).
Proof.
  cbn zeta.
  apply (sources_field_needs_string_names
           [("sources", JList (map JDict sample_source_fields))] sample_source_fields).
  reflexivity.
Defined.

Lemma stacked_bar_height_bounds_witness :
  let T := stacked_bar_data (Pd.sort count_geb) 1 sample_rows in
  (forall t, t ∈ Pd.columns T ->
             exists n, Pd.cell T "TP53" t = Some n
                       /\ n <= distinct (drugs_of_gene "TP53" sample_rows))
  /\ distinct (drugs_of_gene "TP53" sample_rows) <= bar_height T "TP53".
Proof.
  cbn zeta.
  apply (stacked_bar_height_bounds (Pd.sort count_geb) 1 sample_rows "TP53").
  rewrite sample_table. left.
Defined.

(* ===================================================================== *)
(** * What the debug flag changes *)
(* ===================================================================== *)

Lemma same_but_tracebacks_refl w : same_but_tracebacks w w.
Proof. split; reflexivity. Qed.

Lemma same_but_tracebacks_emit e w1 w2 :
  same_but_tracebacks w1 w2 ->
  same_but_tracebacks (World (fs w1) (trace w1 ++ [e])) (World (fs w2) (trace w2 ++ [e])).
Proof.
  intros [Hf Ht]. split; [exact Hf|]. cbn [trace]. unfold without_tracebacks in *.
  rewrite !List.filter_app, Ht. reflexivity.
Qed.

Lemma same_but_tracebacks_traceback lvl cls msg w1 w2 :
  same_but_tracebacks w1 w2 ->
  same_but_tracebacks (World (fs w1) (trace w1 ++ [LogTraceback lvl cls msg])) w2.
Proof.
  intros [Hf Ht]. split; [exact Hf|]. cbn [trace]. unfold without_tracebacks in *.
  rewrite List.filter_app, Ht. cbn. apply app_nil_r.
Qed.

Lemma alike_ret {A} (a : A) : alike (ret a) (ret a).
Proof. intros w1 w2 Hw. split; [reflexivity|exact Hw]. Qed.

Lemma alike_raise {A} e : alike (raise (A := A) e) (raise e).
Proof. intros w1 w2 Hw. split; [reflexivity|exact Hw]. Qed.

Lemma alike_bind {A B} (m1 m2 : M A) (k1 k2 : A -> M B) :
  alike m1 m2 -> (forall a, alike (k1 a) (k2 a)) -> alike (bind m1 k1) (bind m2 k2).
Proof.
  intros Hm Hk w1 w2 Hw. unfold bind. destruct (Hm w1 w2 Hw) as [Hr Hw'].
  destruct (m1 w1) as [[a|e] w1'], (m2 w2) as [[a'|e'] w2']; cbn [fst snd] in *;
    try discriminate.
  - injection Hr as <-. apply Hk, Hw'.
  - injection Hr as <-. split; [reflexivity|exact Hw'].
Qed.

Lemma alike_try_except {A} (b1 b2 : M A) (h1 h2 : string -> string -> M A) :
  alike b1 b2 -> (forall cls msg, alike (h1 cls msg) (h2 cls msg)) ->
  alike (try_except b1 h1) (try_except b2 h2).
Proof.
  intros Hb Hh w1 w2 Hw. unfold try_except. destruct (Hb w1 w2 Hw) as [Hr Hw'].
  destruct (b1 w1) as [[a|[cls msg|code]] w1'], (b2 w2) as [[a'|[cls' msg'|code']] w2'];
    cbn [fst snd] in *; try discriminate.
  - split; [exact Hr|exact Hw'].
  - injection Hr as <- <-. apply Hh, Hw'.
  - split; [exact Hr|exact Hw'].
Qed.

Lemma alike_emit e : alike (emit e) (emit e).
Proof.
  intros w1 w2 Hw. split; [reflexivity|]. apply same_but_tracebacks_emit, Hw.
Qed.

Lemma alike_log lvl msg : alike (log lvl msg) (log lvl msg).
Proof. apply alike_emit. Qed.

(** The one difference: with the flag a stack trace is logged. *)
Lemma alike_traceback lvl cls msg :
  alike (when true (emit (LogTraceback lvl cls msg)))
        (when false (emit (LogTraceback lvl cls msg))).
Proof.
  intros w1 w2 Hw. split; [reflexivity|]. apply same_but_tracebacks_traceback, Hw.
Qed.

Lemma alike_when b (m1 m2 : M unit) : alike m1 m2 -> alike (when b m1) (when b m2).
Proof. intros Hm. destruct b; [exact Hm|apply alike_ret]. Qed.

(** A computation that reads the file system only, and leaves the world
    as it is. *)
Lemma alike_reader {A} (m : M A) (f : filesystem -> result A) :
  (forall w, m w = (f (fs w), w)) -> alike m m.
Proof.
  intros Hm w1 w2 Hw. rewrite !Hm. cbn [fst snd]. destruct Hw as [Hf Ht].
  rewrite Hf. split; [reflexivity|]. split; assumption.
Qed.

Lemma alike_validate_input_format file_path expected_prefix :
  alike (validate_input_format file_path expected_prefix)
        (validate_input_format file_path expected_prefix).
Proof.
  apply (alike_reader _ (fun f => validate_result f file_path expected_prefix)).
  intros w. apply validate_input_format_run.
Qed.

Lemma alike_path_exists p : alike (Os.path_exists p) (Os.path_exists p).
Proof.
  apply (alike_reader _ (fun f => Ok (bool_decide (is_Some (f !! p))))).
  intros w. reflexivity.
Qed.

Lemma alike_lift {A} (r : result A) : alike (lift r) (lift r).
Proof. intros w1 w2 Hw. split; [reflexivity|exact Hw]. Qed.

Lemma alike_of_outcome {A} (o : outcome A) : alike (of_outcome o) (of_outcome o).
Proof. destruct o; [apply alike_ret|apply alike_raise]. Qed.

Lemma alike_call {A} f (oracle : filesystem -> outcome A * filesystem) :
  alike (call f oracle) (call f oracle).
Proof.
  intros w1 w2 [Hf Ht]. rewrite !call_run, Hf.
  destruct (oracle (fs w2)) as [[a|cls msg] f']; cbn [fst snd];
    (split; [reflexivity|]); (split; [reflexivity|]); cbn [trace];
    unfold without_tracebacks in *; rewrite !List.filter_app, Ht; reflexivity.
Qed.

(** A change of the file system that depends on the file system only. *)
Lemma alike_update (m : M unit) (f : filesystem -> result unit * filesystem) :
  (forall w, m w = ((f (fs w)).1, World (f (fs w)).2 (trace w))) -> alike m m.
Proof.
  intros Hm w1 w2 [Hf Ht]. rewrite !Hm, Hf. cbn [fst snd].
  split; [reflexivity|]. split; [reflexivity|exact Ht].
Qed.

Lemma alike_rmtree p : alike (Os.rmtree p) (Os.rmtree p).
Proof.
  apply (alike_update _ (fun f =>
           match f !! p with
           | Some Dir => (Ok tt, filter (fun kv => Os.under p kv.1 = false) f)
           | Some _ => (Raise (Exception "NotADirectoryError" p), f)
           | None => (Raise (Exception "FileNotFoundError" p), f)
           end)).
  intros [f t]. unfold Os.rmtree, bind, get_fs, set_fs, raise. cbn [fs trace].
  destruct (f !! p) as [[| |]|]; reflexivity.
Qed.

Lemma alike_makedirs p exist_ok : alike (Os.makedirs p exist_ok) (Os.makedirs p exist_ok).
Proof.
  apply (alike_update _ (fun f =>
           match f !! p with
           | None => (Ok tt, <[p := Dir]> f)
           | Some Dir =>
               (if exist_ok then Ok tt else Raise (Exception "FileExistsError" p), f)
           | Some _ => (Raise (Exception "FileExistsError" p), f)
           end)).
  intros [f t]. unfold Os.makedirs, bind, get_fs, set_fs, raise, ret. cbn [fs trace].
  destruct (f !! p) as [[| |]|]; try destruct exist_ok; reflexivity.
Qed.

Lemma alike_for_each {A} (l : list A) (b1 b2 : A -> M unit) :
  (forall x, alike (b1 x) (b2 x)) -> alike (for_each l b1) (for_each l b2).
Proof.
  intros Hb. induction l as [|x xs IH]; cbn [for_each]; [apply alike_ret|].
  apply alike_bind; [apply Hb|intros _; exact IH].
Qed.

(** The same steps on both sides. *)
Ltac alike_step :=
  lazymatch goal with
  | |- alike (bind _ _) (bind _ _) => apply alike_bind; [|intros ?]
  | |- alike (try_except _ _) (try_except _ _) => apply alike_try_except; [|intros ? ?]
  | |- alike (ret _) _ => apply alike_ret
  | |- alike (raise _) _ => apply alike_raise
  | |- alike (when true _) (when false _) => apply alike_traceback
  | |- alike (when _ _) _ => apply alike_when
  | |- alike (log _ _) _ => apply alike_log
  | |- alike (emit _) _ => apply alike_emit
  | |- alike (call _ _) _ => apply alike_call
  | |- alike (lift _) _ => apply alike_lift
  | |- alike (of_outcome _) _ => apply alike_of_outcome
  | |- alike (Os.path_exists _) _ => apply alike_path_exists
  | |- alike (Os.rmtree _) _ => apply alike_rmtree
  | |- alike (Os.makedirs _ _) _ => apply alike_makedirs
  | |- alike (validate_input_format _ _) _ => apply alike_validate_input_format
  | |- alike (for_each _ _) _ => apply alike_for_each; intros ?
  | |- alike (if ?b then _ else _) (if ?b then _ else _) => destruct b
  | |- alike (match ?x with _ => _ end) (match ?x with _ => _ end) => destruct x
  end.

Ltac alike_steps := repeat alike_step.

Section DebugFlag.
Variable E : env.
Variables circ_file mirna_file deg_file : string.

Lemma alike_through_predict :
  alike (through_predict E circ_file mirna_file deg_file)
        (through_predict E circ_file mirna_file deg_file).
Proof.
  unfold through_predict, validate_and_prepare, predict_stage, require_file, reset_folder.
  alike_steps.
Qed.

Lemma alike_overlap_stage p : alike (overlap_stage E true p) (overlap_stage E false p).
Proof. unfold overlap_stage, construct_network_stage. alike_steps. Qed.

Lemma alike_extract_overlap_stage p :
  alike (extract_overlap_stage E true p) (extract_overlap_stage E false p).
Proof. unfold extract_overlap_stage. alike_steps. Qed.

Lemma alike_query_dgidb genes :
  alike (DrugGene.query_dgidb E genes) (DrugGene.query_dgidb E genes).
Proof.
  unfold DrugGene.query_dgidb. alike_steps.
Qed.

Lemma alike_drug_gene_stage : alike (drug_gene_stage E) (drug_gene_stage E).
Proof.
  unfold drug_gene_stage, DrugGene.main, DrugGene.run_pipeline, DrugGene.load_gene_names,
    DrugGene.export_full_csv, DrugGene.draw_stacked_bar, extract_interactions.
  cbn zeta. alike_steps; apply alike_query_dgidb.
Qed.

Lemma alike_run_body :
  alike (run_body E circ_file mirna_file deg_file true)
        (run_body E circ_file mirna_file deg_file false).
Proof.
  unfold run_body, through_drug_gene, through_ppi, through_enrich, through_overlap,
    summary, enrich_stage, ppi_stage.
  repeat first
    [ apply alike_through_predict
    | apply alike_overlap_stage
    | apply alike_extract_overlap_stage
    | apply alike_drug_gene_stage
    | progress alike_steps ].
Qed.

(** The debug flag changes nothing but the stack traces in the log: with
    and without it [run_analysis] ends in the same way, with the same
    exit status and the same file system, and the two logs are the same
    once the stack traces are left out. *)
Theorem debug_flag_only_adds_tracebacks (w : world) :
  let verbose := run_analysis E circ_file mirna_file deg_file true w in
  let quiet := run_analysis E circ_file mirna_file deg_file false w in
  verbose.1 = quiet.1
  /\ exit_status verbose.1 = exit_status quiet.1
  /\ fs verbose.2 = fs quiet.2
  /\ without_tracebacks (trace verbose.2) = without_tracebacks (trace quiet.2).
Proof.
  cbn zeta.
  assert (alike (run_analysis E circ_file mirna_file deg_file true)
                (run_analysis E circ_file mirna_file deg_file false)) as Hrun.
  { unfold run_analysis. apply alike_try_except; [apply alike_run_body|].
    intros cls msg. unfold abort. alike_steps. }
  destruct (Hrun w w (same_but_tracebacks_refl w)) as (Hr & Hf & Ht).
  rewrite Hr. auto.
Qed.

End DebugFlag.
